(** * Android-AgentS: the orchestration loop and its collaborators

    A shallow embedding of the control code of the hierarchical Android
    UI agent:

    - [gui_agents/s2android/agents/agent_s.py]: the orchestrator
      [AndroidAgentS2.predict] (module [AgentS]) and the two memory
      journals (module [Memory]);
    - [gui_agents/s2android/agents/verifier_agent.py] (module [Verifier]);
    - [gui_agents/s2android/agents/grounding.py] (module [Grounding]);
    - [gui_agents/s2android/agents/worker.py] (module [Worker]).

    Conventions.  Python [str] is [string]; the text the program inspects
    (markers, separators, key words) is ASCII, and [upper] and [strip] are
    given on the ASCII range.  Python [int] is [Z], [len] is the length of
    a list.  A [dict] with string keys is a [gmap string _].  The language
    model, the planner and a pluggable executor are oracles: their replies
    are inputs of the embedded functions, one reply per call, so that a
    statement quantified over the replies covers every behaviour of the
    oracle.  An exception that leaves a function is a result of its own
    ([Raise]), never a missing case.  The definitions come first, module
    by module; the properties follow. *)

From stdpp Require Import base option list gmap strings pretty.

Local Open Scope Z_scope.

(* ===================================================================== *)
(** ** Python strings *)
(* ===================================================================== *)

Module PyStr.

(** [sub in s] *)
Fixpoint contains (sub s : string) : bool :=
  String.prefix sub s ||
  match s with
  | EmptyString => false
  | String _ s' => contains sub s'
  end.

(** [s.split(sep)[0]] for a non-empty separator: the text before the
    first occurrence of [sep], the whole of [s] when there is none. *)
Fixpoint split_head (sep s : string) : string :=
  if String.prefix sep s then EmptyString
  else match s with
       | EmptyString => EmptyString
       | String c s' => String c (split_head sep s')
       end.

Fixpoint drop (n : nat) (s : string) : string :=
  match n, s with
  | O, _ => s
  | S n', String _ s' => drop n' s'
  | S _, EmptyString => EmptyString
  end.

(** The text after the first occurrence of [sub] in [s]. *)
Fixpoint after_first (sub s : string) : option string :=
  if String.prefix sub s then Some (drop (String.length sub) s)
  else match s with
       | EmptyString => None
       | String _ s' => after_first sub s'
       end.

(** The text before the last occurrence of [sub] in [s]. *)
Fixpoint before_last (sub s : string) : option string :=
  match s with
  | EmptyString => if String.prefix sub EmptyString then Some EmptyString else None
  | String c s' =>
      match before_last sub s' with
      | Some p => Some (String c p)
      | None => if String.prefix sub s then Some EmptyString else None
      end
  end.

(** [s[i:]] where [i = s.find(sub)], when [sub] occurs. *)
Fixpoint from_first (sub s : string) : option string :=
  if String.prefix sub s then Some s
  else match s with
       | EmptyString => None
       | String _ s' => from_first sub s'
       end.

(** The text up to and including the first occurrence of [sub] in [s]. *)
Fixpoint through_first (sub s : string) : option string :=
  if String.prefix sub s then Some sub
  else match s with
       | EmptyString => None
       | String c s' =>
           match through_first sub s' with
           | Some p => Some (String c p)
           | None => None
           end
       end.

Definition upper_char (c : Ascii.ascii) : Ascii.ascii :=
  let n := Ascii.N_of_ascii c in
  if ((97 <=? n) && (n <=? 122))%N then Ascii.ascii_of_N (n - 32) else c.

(** [s.upper()] on a text of ASCII characters: the letters [a] to [z]
    are mapped, every other character is left as it is.  Python maps
    letters beyond ASCII as well, so the two agree on the texts for
    which [is_ascii] holds. *)
Fixpoint upper (s : string) : string :=
  match s with
  | EmptyString => EmptyString
  | String c s' => String (upper_char c) (upper s')
  end.

(** White space of [str.strip()]: TAB, LF, VT, FF, CR, FS, GS, RS, US
    and the blank. *)
Definition is_space (c : Ascii.ascii) : bool :=
  let n := Ascii.N_of_ascii c in
  (((9 <=? n) && (n <=? 13)) || ((28 <=? n) && (n <=? 32)))%N.

Fixpoint lstrip (s : string) : string :=
  match s with
  | EmptyString => EmptyString
  | String c s' => if is_space c then lstrip s' else s
  end.

Fixpoint rstrip (s : string) : string :=
  match s with
  | EmptyString => EmptyString
  | String c s' =>
      match rstrip s' with
      | EmptyString => if is_space c then EmptyString else String c EmptyString
      | r => String c r
      end
  end.

Definition strip (s : string) : string := rstrip (lstrip s).

Definition lower_char (c : Ascii.ascii) : Ascii.ascii :=
  let n := Ascii.N_of_ascii c in
  if ((65 <=? n) && (n <=? 90))%N then Ascii.ascii_of_N (n + 32) else c.

(** [s.lower()] on a text of ASCII characters: the letters [A] to [Z]
    are mapped, every other character is left as it is. *)
Fixpoint lower (s : string) : string :=
  match s with
  | EmptyString => EmptyString
  | String c s' => String (lower_char c) (lower s')
  end.

(** [s.isascii()]: every character is below 128.  On such a text
    [upper] and [lower] are [str.upper] and [str.lower]. *)
Fixpoint is_ascii (s : string) : bool :=
  match s with
  | EmptyString => true
  | String c s' => (Ascii.N_of_ascii c <? 128)%N && is_ascii s'
  end.

Fixpoint find_from (sub s : string) (i : Z) : Z :=
  if String.prefix sub s then i
  else match s with
       | EmptyString => -1
       | String _ s' => find_from sub s' (i + 1)
       end.

(** [s.find(sub)]: the index of the first occurrence, [-1] when there is
    none. *)
Definition find (sub s : string) : Z := find_from sub s 0.

Fixpoint take (n : nat) (s : string) : string :=
  match n, s with
  | S n', String c s' => String c (take n' s')
  | _, _ => EmptyString
  end.

(** A slice bound brought into [0, len(s)]: a negative one counts from
    the end. *)
Definition slice_bound (i : Z) (s : string) : nat :=
  let n := Z.of_nat (String.length s) in
  Z.to_nat (if i <? 0 then Z.max (n + i) 0 else Z.min i n).

(** [s[i:]] *)
Definition slice_from (i : Z) (s : string) : string := drop (slice_bound i s) s.

(** [s[:j]] *)
Definition slice_to (j : Z) (s : string) : string := take (slice_bound j s) s.

Definition is_digit (c : Ascii.ascii) : bool :=
  let n := Ascii.N_of_ascii c in ((48 <=? n) && (n <=? 57))%N.

(** The longest run of digits at the head of [s]. *)
Fixpoint take_digits (s : string) : string :=
  match s with
  | String c s' => if is_digit c then String c (take_digits s') else EmptyString
  | EmptyString => EmptyString
  end.

Definition starts_with_digit (s : string) : bool :=
  match s with
  | String c _ => is_digit c
  | EmptyString => false
  end.

(** The first match of the pattern of an optional minus sign and one or
    more digits: [re.findall(...)[0]], [None] when nothing matches. *)
Fixpoint first_integer_text (s : string) : option string :=
  match s with
  | EmptyString => None
  | String c s' =>
      if is_digit c then Some (String c (take_digits s'))
      else if bool_decide (c = Ascii.ascii_of_nat 45) && starts_with_digit s'
      then Some (String c (take_digits s'))
      else first_integer_text s'
  end.

Definition digit_value (c : Ascii.ascii) : Z := Z.of_N (Ascii.N_of_ascii c) - 48.

Fixpoint digits_value (acc : Z) (s : string) : Z :=
  match s with
  | EmptyString => acc
  | String c s' => digits_value (10 * acc + digit_value c) s'
  end.

(** [int(t)] for a text of digits with an optional minus sign in front. *)
Definition int_of_text (t : string) : Z :=
  match t with
  | String c t' =>
      if bool_decide (c = Ascii.ascii_of_nat 45) then - digits_value 0 t'
      else digits_value 0 t
  | EmptyString => 0
  end.

(** The line feed. *)
Definition LF : string := String (Ascii.ascii_of_nat 10) EmptyString.

(** Truth value of a string: non-empty. *)
Definition truthy (s : string) : bool :=
  match s with EmptyString => false | _ => true end.

(** [str(n)] for an [int]. *)
Definition of_int (n : Z) : string := pretty n.

End PyStr.

(* ===================================================================== *)
(** ** verifier_agent.py *)
(* ===================================================================== *)

Module Verifier.

(** One entry of [verification_history] (the [verification_info] dict).
    Its ["worker_result"] entry is the executor's info dict itself, by
    reference; it is not copied here. *)
Record VerificationInfo := {
  manager_goal : string;
  verification_response : string;
  is_success : bool;
  reasoning : string
}.

(** [AndroidVerifierAgent]: the only state is the history log. *)
Record t := { verification_history : list VerificationInfo }.

Definition reset (_ : t) : t := {| verification_history := [] |}.

(** [_parse_verification_response(response)] *)
Definition _parse_verification_response (response : string) : bool * string :=
  let is_success :=
    if PyStr.contains "VERIFICATION_RESULT: PASS" (PyStr.upper response) then true
    else if PyStr.contains "VERIFICATION_RESULT: FAIL" (PyStr.upper response) then false
    else true in
  let reasoning :=
    match PyStr.from_first "REASONING:" response with
    | Some r => PyStr.strip r
    | None => "No explicit reasoning provided"
    end in
  (is_success, reasoning).

(** [verify_execution(manager_goal, worker_execution_result,
    current_ui_state)].  [response] is the text the oracle returns for the
    verification prompt ([call_llm_safe], one text completion per call);
    the prompt is built from the three arguments and added to the
    verifier's conversation, neither enters the verdict. *)
Definition verify_execution (v : t) (goal : string) (response : string)
  : t * (bool * string * VerificationInfo) :=
  let '(ok, why) := _parse_verification_response response in
  let vi := {| manager_goal := goal; verification_response := response;
               is_success := ok; reasoning := why |} in
  ({| verification_history := verification_history v ++ [vi] |}, (ok, why, vi)).

(** What [get_verification_summary()] reports: the short dictionary of an
    empty history, or the counts and the last entries.  The success rate
    of the full dictionary is the float quotient of [successful] by
    [total]; it is a function of these two and is not kept. *)
Inductive Summary :=
| NoVerifications
| Verifications (total successful failed : Z) (recent : list VerificationInfo).

(** [get_verification_summary()] *)
Definition get_verification_summary (v : t) : Summary :=
  match verification_history v with
  | [] => NoVerifications
  | history =>
      let total := Z.of_nat (length history) in
      let successful := Z.of_nat (length (filter (λ i, is_success i = true) history)) in
      Verifications total successful (total - successful)
        (drop (length history - 5) history)
  end.

(** The verifier after the oracle has answered the given verification
    prompts, one [verify_execution] each. *)
Definition after_verifications (v : t) (goals_and_replies : list (string * string)) : t :=
  foldl (λ v gr, fst (verify_execution v (fst gr) (snd gr))) v goals_and_replies.

End Verifier.


(* ===================================================================== *)
(** ** Python values, exceptions and dictionaries *)
(* ===================================================================== *)

Module Py.

(** The exception classes the code tells apart; an exception of a subclass
    is given by its base in this list ([JSONDecodeError] is a
    [ValueError]). *)
Inductive exn_class :=
| SyntaxError
| ValueError
| TypeError
| AttributeError
| UnboundLocalError
| OtherException (name : string).

(** A raised exception: its class and its message ([str(e)]). *)
Record exn := Exn { exn_kind : exn_class; exn_msg : string }.

(** The outcome of a call that may raise. *)
Inductive result (A : Type) : Type :=
| Return (a : A)
| Raise (e : exn).
Arguments Return {A} a.
Arguments Raise {A} e.

(** Values kept in the info dictionaries.  [VObj] is any other object,
    known by its [str()] rendering. *)
Inductive val : Type :=
| VNone
| VBool (b : bool)
| VInt (n : Z)
| VStr (s : string)
| VFloat (literal : string)
| VEmptyDict
| VVerification (vi : Verifier.VerificationInfo)
| VObj (rendering : string).

(** [str(v)] *)
Definition str_of_val (v : val) : string :=
  match v with
  | VNone => "None"
  | VBool true => "True"
  | VBool false => "False"
  | VInt n => PyStr.of_int n
  | VStr s => s
  | VFloat l => l
  | VEmptyDict => "{}"
  | VVerification _ => "{...}"
  | VObj r => r
  end.

(** An element of an action list: a result string, or another object
    (the parsed action dictionary), known to its consumers by [str()]. *)
Inductive action : Type :=
| AStr (s : string)
| AObj (rendering : string).

(** [str(action)] *)
Definition str_of_action (a : action) : string :=
  match a with AStr s => s | AObj r => r end.

(** A dictionary merged with a later one: the entries of [b] override
    those of [a]. *)
Definition merge (a b : gmap string val) : gmap string val := b ∪ a.

End Py.

(* ===================================================================== *)
(** ** grounding.py: the index-targeted operations of [AndroidACI] *)
(* ===================================================================== *)

Module Grounding.

Import Py.

(** A UI element descriptor of the observation. *)
Record UIElement := {
  text : option string;
  content_description : option string;
  class_name : string
}.

(** [android_world.env.json_action]: the action kinds used here. *)
Definition CLICK : string := "click".
Definition INPUT_TEXT : string := "input_text".
Definition LONG_PRESS : string := "long_press".

(** [JSONAction(action_type=..., index=..., text=...)] *)
Record JSONAction := {
  action_type : string;
  index : option Z;
  action_text : option string
}.

(** The environment interface ([AsyncAndroidEnv] of android_world):
    [get_state()] yields the UI element list or raises (a state without a
    usable element list makes [len] raise, which is the same to the
    caller), [execute_action(action)] acts or raises; both may change the
    environment. *)
Class AndroidEnv (E : Type) := {
  get_state : E → E * result (list UIElement);
  execute_action : E → JSONAction → E * result unit
}.

(** What was asked of the environment, oldest first. *)
Inductive EnvCall :=
| GetState
| ExecuteAction (a : JSONAction).

(** [AndroidACI]: the environment handle, the notes, and the record of the
    calls made on the environment. *)
Record ACI (E : Type) := {
  env : E;
  notes : list string;
  env_calls : list EnvCall
}.
Arguments env {E} _.
Arguments notes {E} _.
Arguments env_calls {E} _.


Section Operations.
Context {E : Type} `{AndroidEnv E}.

Definition call_get_state (a : ACI E) : ACI E * result (list UIElement) :=
  let '(e, r) := get_state (env a) in
  ({| env := e; notes := notes a; env_calls := env_calls a ++ [GetState] |}, r).

Definition call_execute_action (a : ACI E) (act : JSONAction) : ACI E * result unit :=
  let '(e, r) := execute_action (env a) act in
  ({| env := e; notes := notes a; env_calls := env_calls a ++ [ExecuteAction act] |}, r).

(** [f"FAIL: Index {index} out of range (0-{len(ui_elements)-1})"] *)
Definition out_of_range_msg (idx : Z) (ui_elements : list UIElement) : string :=
  "FAIL: Index " +:+ PyStr.of_int idx +:+ " out of range (0-"
    +:+ PyStr.of_int (Z.of_nat (length ui_elements) - 1) +:+ ")".

(** The common shape of the three operations: read the state, check the
    index, build the action, execute it; any exception inside the [try]
    becomes the [on_error] string. *)
Definition by_index (a : ACI E) (idx : Z) (act : JSONAction)
    (on_success on_error : string) : ACI E * string :=
  let '(a1, st) := call_get_state a in
  match st with
  | Raise _ => (a1, on_error)
  | Return ui_elements =>
      if (idx <? 0) || (idx >=? Z.of_nat (length ui_elements))
      then (a1, out_of_range_msg idx ui_elements)
      else
        let '(a2, r) := call_execute_action a1 act in
        match r with
        | Raise _ => (a2, on_error)
        | Return _ => (a2, on_success)
        end
  end.

(** [click_by_index(index)] *)
Definition click_by_index (a : ACI E) (idx : Z) : ACI E * string :=
  by_index a idx
    {| action_type := CLICK; index := Some idx; action_text := None |}
    ("SUCCESS: Clicked element at index " +:+ PyStr.of_int idx)
    ("FAIL: Error clicking element at index " +:+ PyStr.of_int idx).

(** [long_click_by_index(index)] *)
Definition long_click_by_index (a : ACI E) (idx : Z) : ACI E * string :=
  by_index a idx
    {| action_type := LONG_PRESS; index := Some idx; action_text := None |}
    ("SUCCESS: Long clicked element at index " +:+ PyStr.of_int idx)
    ("FAIL: Error long clicking element at index " +:+ PyStr.of_int idx).

(** [type_by_index(index, text)] *)
Definition type_by_index (a : ACI E) (idx : Z) (txt : string) : ACI E * string :=
  by_index a idx
    {| action_type := INPUT_TEXT; index := Some idx; action_text := Some txt |}
    ("SUCCESS: Typed '" +:+ txt +:+ "' into element at index " +:+ PyStr.of_int idx)
    ("FAIL: Error typing into element at index " +:+ PyStr.of_int idx).

(** [wait(time)]: sleeps, then reports.  [time] is given by its rendering
    (the caller passes [1.0]). *)
Definition wait (time_rendering : string) : string :=
  "SUCCESS: Waited " +:+ time_rendering +:+ " seconds".

End Operations.

(** [str(x).lower() if x is not None else ""] *)
Definition attr_lower (a : option string) : string :=
  match a with
  | Some s => PyStr.lower s
  | None => EmptyString
  end.

(** The test both matching loops apply to an element and a word: the word
    occurs in the element's text or description, or one of these occurs
    in the word. *)
Definition matches_word (w : string) (e : UIElement) : bool :=
  let t := attr_lower (text e) in
  let c := attr_lower (content_description e) in
  PyStr.contains w t || PyStr.contains w c || PyStr.contains t w || PyStr.contains c w.

(** The index of the first element that passes the test. *)
Fixpoint first_index {A : Type} (p : A → bool) (l : list A) : option nat :=
  match l with
  | [] => None
  | x :: l' => if p x then Some O else S <$> first_index p l'
  end.

(** A dictionary display with repeated keys: a key keeps the place of its
    first entry and takes the value of its last. *)
Fixpoint dict_set {V : Type} (k : string) (v : V) (d : list (string * V))
  : list (string * V) :=
  match d with
  | [] => [(k, v)]
  | (k', v') :: d' =>
      if bool_decide (k' = k) then (k', v) :: d' else (k', v') :: dict_set k v d'
  end.

Definition dict_of_literal {V : Type} (entries : list (string * V))
  : list (string * V) :=
  foldl (λ d kv, dict_set (fst kv) (snd kv) d) [] entries.

(** The entries of the [synonyms] display, as written. *)
Definition synonyms_literal : list (string * list string) :=
  [
    ("wifi", ["internet"; "network"; "wireless"; "wi-fi"; "wifi settings"]);
    ("internet", ["wifi"; "network"; "wireless"; "wi-fi"; "wifi settings"]);
    ("settings", ["system preferences"; "system settings"; "preferences"; "gear"; "cog"]);
    ("home", ["home screen"; "main screen"; "desktop"]);
    ("back", ["back button"; "back arrow"; "return"]);
    ("close", ["x"; "exit"; "cancel"; "dismiss"]);
    ("ok", ["okay"; "confirm"; "yes"; "accept"]);
    ("cancel", ["no"; "abort"; "dismiss"]);
    ("done", ["finish"; "complete"; "save"]);
    ("save", ["done"; "finish"; "complete"]);
    ("search", ["find"; "lookup"; "magnifying glass"]);
    ("menu", ["hamburger"; "three lines"; "options"]);
    ("more", ["three dots"; "ellipsis"; "options"]);
    ("add", ["plus"; "+"; "new"; "create"]);
    ("delete", ["trash"; "remove"; "minus"; "-"]);
    ("edit", ["pencil"; "modify"; "change"]);
    ("share", ["send"; "export"; "forward"]);
    ("download", ["save"; "get"; "install"]);
    ("upload", ["send"; "import"; "attach"]);
    ("refresh", ["reload"; "sync"; "update"]);
    ("filter", ["sort"; "organize"; "arrange"]);
    ("sort", ["filter"; "organize"; "arrange"]);
    ("favorite", ["star"; "like"; "bookmark"]);
    ("bookmark", ["favorite"; "star"; "save"]);
    ("notifications", ["alerts"; "messages"; "bell"]);
    ("quick settings", ["quick panel"; "control center"; "settings panel"]);
    ("app drawer", ["all apps"; "apps"; "applications"]);
    ("recent apps", ["recent"; "multitask"; "switch apps"]);
    ("volume", ["sound"; "audio"; "speaker"]);
    ("brightness", ["light"; "display"; "screen"]);
    ("battery", ["power"; "charge"; "energy"]);
    ("data", ["mobile data"; "cellular"; "network"]);
    ("bluetooth", ["bt"; "wireless"; "connect"]);
    ("location", ["gps"; "maps"; "where"]);
    ("camera", ["photo"; "picture"; "video"]);
    ("gallery", ["photos"; "images"; "pictures"]);
    ("phone", ["call"; "dialer"; "contacts"]);
    ("messages", ["sms"; "text"; "chat"]);
    ("email", ["mail"; "gmail"; "outlook"]);
    ("calendar", ["schedule"; "events"; "dates"]);
    ("clock", ["time"; "alarm"; "timer"]);
    ("calculator", ["calc"; "math"; "compute"]);
    ("maps", ["navigation"; "location"; "directions"]);
    ("browser", ["chrome"; "web"; "internet"]);
    ("play store", ["google play"; "apps"; "install"]);
    ("files", ["documents"; "storage"; "my files"]);
    ("music", ["audio"; "songs"; "playlist"]);
    ("video", ["movies"; "youtube"; "media"]);
    ("games", ["play"; "entertainment"; "fun"]);
    ("health", ["fitness"; "wellness"; "activity"]);
    ("banking", ["finance"; "money"; "payments"]);
    ("shopping", ["store"; "buy"; "purchase"]);
    ("travel", ["trip"; "booking"; "vacation"]);
    ("food", ["restaurant"; "delivery"; "dining"]);
    ("transport", ["uber"; "lyft"; "taxi"]);
    ("social", ["facebook"; "instagram"; "twitter"]);
    ("work", ["office"; "productivity"; "business"]);
    ("education", ["learning"; "study"; "school"]);
    ("news", ["information"; "articles"; "updates"]);
    ("weather", ["forecast"; "temperature"; "climate"]);
    ("notes", ["memo"; "text"; "writing"]);
    ("voice", ["recorder"; "audio"; "speech"]);
    ("translate", ["language"; "dictionary"; "words"]);
    ("scan", ["qr"; "barcode"; "document"]);
    ("password", ["security"; "lock"; "key"]);
    ("backup", ["cloud"; "sync"; "restore"]);
    ("update", ["upgrade"; "install"; "download"]);
    ("reset", ["factory"; "clear"; "wipe"]);
    ("developer", ["debug"; "advanced"; "technical"]);
    ("accessibility", ["assistive"; "help"; "support"]);
    ("privacy", ["security"; "permissions"; "data"]);
    ("storage", ["memory"; "space"; "files"]);
    ("performance", ["speed"; "optimization"; "battery"]);
    ("display", ["screen"; "resolution"; "brightness"]);
    ("sound", ["audio"; "volume"; "vibration"]);
    ("language", ["locale"; "region"; "translation"]);
    ("date", ["time"; "calendar"; "schedule"]);
    ("about", ["info"; "version"; "device"]);
    ("help", ["support"; "assistance"; "guide"]);
    ("feedback", ["report"; "suggest"; "comment"]);
    ("terms", ["legal"; "agreement"; "policy"]);
    ("privacy policy", ["data"; "information"; "rights"]);
    ("licenses", ["legal"; "copyright"; "attribution"]);
    ("version", ["build"; "release"; "update"]);
    ("build", ["version"; "number"; "release"]);
    ("model", ["device"; "phone"; "hardware"]);
    ("serial", ["imei"; "number"; "identifier"]);
    ("android", ["version"; "api"; "level"]);
    ("kernel", ["linux"; "system"; "core"]);
    ("baseband", ["radio"; "modem"; "cellular"]);
    ("build number", ["version"; "release"; "number"]);
    ("security patch", ["update"; "fix"; "vulnerability"]);
    ("google play", ["play store"; "apps"; "install"]);
    ("system webview", ["browser"; "web"; "internet"]);
    ("android system", ["core"; "system"; "framework"]);
    ("google services", ["play"; "framework"; "services"]);
    ("carrier services", ["mobile"; "network"; "cellular"]);
    ("digital wellbeing", ["screen time"; "usage"; "balance"]);
    ("device health", ["battery"; "storage"; "performance"]);
    ("find my device", ["location"; "tracking"; "security"]);
    ("google", ["search"; "assistant"; "services"]);
    ("chrome", ["browser"; "web"; "internet"]);
    ("gmail", ["email"; "mail"; "messages"]);
    ("youtube", ["video"; "media"; "entertainment"]);
    ("maps", ["navigation"; "location"; "directions"]);
    ("drive", ["storage"; "cloud"; "files"]);
    ("photos", ["gallery"; "images"; "pictures"]);
    ("calendar", ["schedule"; "events"; "dates"]);
    ("contacts", ["people"; "phone"; "addresses"]);
    ("phone", ["dialer"; "call"; "contacts"]);
    ("messages", ["sms"; "text"; "chat"]);
    ("clock", ["time"; "alarm"; "timer"]);
    ("calculator", ["calc"; "math"; "compute"]);
    ("camera", ["photo"; "picture"; "video"]);
    ("gallery", ["photos"; "images"; "pictures"]);
    ("music", ["audio"; "songs"; "playlist"]);
    ("video", ["movies"; "youtube"; "media"]);
    ("games", ["play"; "entertainment"; "fun"]);
    ("files", ["documents"; "storage"; "my files"]);
    ("notes", ["memo"; "text"; "writing"]);
    ("voice recorder", ["audio"; "speech"; "recording"]);
    ("translate", ["language"; "dictionary"; "words"]);
    ("scan", ["qr"; "barcode"; "document"]);
    ("weather", ["forecast"; "temperature"; "climate"]);
    ("news", ["information"; "articles"; "updates"]);
    ("health", ["fitness"; "wellness"; "activity"]);
    ("banking", ["finance"; "money"; "payments"]);
    ("shopping", ["store"; "buy"; "purchase"]);
    ("travel", ["trip"; "booking"; "vacation"]);
    ("food", ["restaurant"; "delivery"; "dining"]);
    ("transport", ["uber"; "lyft"; "taxi"]);
    ("social", ["facebook"; "instagram"; "twitter"]);
    ("work", ["office"; "productivity"; "business"]);
    ("education", ["learning"; "study"; "school"]);
    ("entertainment", ["media"; "fun"; "leisure"]);
    ("utilities", ["tools"; "system"; "maintenance"]);
    ("productivity", ["work"; "office"; "business"]);
    ("communication", ["social"; "messaging"; "email"]);
    ("lifestyle", ["health"; "fitness"; "wellness"]);
    ("reference", ["dictionary"; "encyclopedia"; "learning"]);
    ("sports", ["fitness"; "exercise"; "activity"]);
    ("medical", ["health"; "wellness"; "fitness"]);
    ("finance", ["banking"; "money"; "payments"]);
    ("navigation", ["maps"; "location"; "directions"]);
    ("photography", ["camera"; "photos"; "images"]);
    ("video & audio", ["media"; "entertainment"; "streaming"]);
    ("books & reference", ["reading"; "learning"; "education"]);
    ("business", ["work"; "office"; "productivity"]);
    ("comics", ["reading"; "entertainment"; "media"]);
    ("communication", ["social"; "messaging"; "email"]);
    ("education", ["learning"; "study"; "school"]);
    ("entertainment", ["media"; "fun"; "leisure"]);
    ("family", ["kids"; "parental"; "children"]);
    ("game", ["play"; "entertainment"; "fun"]);
    ("health & fitness", ["wellness"; "activity"; "medical"]);
    ("libraries & demo", ["development"; "testing"; "demo"]);
    ("lifestyle", ["health"; "fitness"; "wellness"]);
    ("live wallpaper", ["customization"; "personalization"; "theme"]);
    ("media & video", ["entertainment"; "streaming"; "media"]);
    ("medical", ["health"; "wellness"; "fitness"]);
    ("music & audio", ["entertainment"; "streaming"; "media"]);
    ("news & magazines", ["information"; "articles"; "updates"]);
    ("personalization", ["customization"; "theme"; "appearance"]);
    ("photography", ["camera"; "photos"; "images"]);
    ("productivity", ["work"; "office"; "business"]);
    ("shopping", ["store"; "buy"; "purchase"]);
    ("social", ["communication"; "messaging"; "networking"]);
    ("sports", ["fitness"; "exercise"; "activity"]);
    ("tools", ["utilities"; "system"; "maintenance"]);
    ("transportation", ["travel"; "navigation"; "mobility"]);
    ("travel & local", ["navigation"; "location"; "directions"]);
    ("weather", ["forecast"; "temperature"; "climate"]);
    ("writing", ["notes"; "text"; "documentation"])
  ].

Definition synonyms : list (string * list string) :=
  dict_of_literal synonyms_literal.

(** An element matches a synonym group: one of the synonyms, or the
    group's name, passes the test. *)
Definition matches_group (g : string * list string) (e : UIElement) : bool :=
  existsb (λ syn, matches_word syn e) (snd g) || matches_word (fst g) e.

(** The group is tried for the description. *)
Definition group_applies (d : string) (g : string * list string) : bool :=
  PyStr.contains d (fst g) || existsb (λ syn, PyStr.contains syn d) (snd g).

(** The second loop: the groups in order, each over the elements in
    order. *)
Fixpoint by_synonyms (d : string) (groups : list (string * list string))
    (ui_elements : list UIElement) : option nat :=
  match groups with
  | [] => None
  | g :: groups' =>
      if group_applies d g then
        match first_index (matches_group g) ui_elements with
        | Some i => Some i
        | None => by_synonyms d groups' ui_elements
        end
      else by_synonyms d groups' ui_elements
  end.

(** [_find_element_by_description(description, ui_elements)] *)
Definition _find_element_by_description (description : string)
    (ui_elements : list UIElement) : option nat :=
  if negb (PyStr.truthy description)
     || match ui_elements with [] => true | _ => false end
  then None
  else
    let d := PyStr.strip (PyStr.lower description) in
    match first_index (matches_word d) ui_elements with
    | Some i => Some i
    | None => by_synonyms d synonyms ui_elements
    end.

Definition app_drawer_indicators : list string :=
  ["all apps"; "app drawer"; "apps"; "applications";
   "search apps"; "app library"; "app grid"].

Definition quick_settings_indicators : list string :=
  ["wifi"; "bluetooth"; "airplane mode"; "mobile data";
   "do not disturb"; "auto rotate"; "flashlight"; "battery saver"].

(** The text of the first element that has a text in which one of the
    indicators occurs, lower case. *)
Fixpoint first_indicated (indicators : list string) (ui_elements : list UIElement)
  : option string :=
  match ui_elements with
  | [] => None
  | e :: rest =>
      match text e with
      | Some t =>
          if PyStr.truthy t
             && existsb (λ ind, PyStr.contains ind (PyStr.lower t)) indicators
          then Some t
          else first_indicated indicators rest
      | None => first_indicated indicators rest
      end
  end.

Section DescriptionOperations.
Context {E : Type} `{AndroidEnv E}.

(** The common shape of [click], [type] and [long_click]: read the
    state, find the element, build the action on its index, execute it;
    any exception inside the [try] becomes the [on_error] string. *)
Definition by_description (a : ACI E) (description : string)
    (act : nat → JSONAction) (on_success : nat → string)
    (on_error : string) : ACI E * string :=
  let '(a1, st) := call_get_state a in
  match st with
  | Raise _ => (a1, on_error)
  | Return ui_elements =>
      match _find_element_by_description description ui_elements with
      | None => (a1, "FAIL: Could not find element '" +:+ description +:+ "'")
      | Some i =>
          let '(a2, r) := call_execute_action a1 (act i) in
          match r with
          | Raise _ => (a2, on_error)
          | Return _ => (a2, on_success i)
          end
      end
  end.

Definition index_text (i : nat) : string := PyStr.of_int (Z.of_nat i).

(** [click(element_description)] *)
Definition click (a : ACI E) (description : string) : ACI E * string :=
  by_description a description
    (λ i, {| action_type := CLICK; index := Some (Z.of_nat i); action_text := None |})
    (λ i, "SUCCESS: Clicked element '" +:+ description +:+ "' (index "
            +:+ index_text i +:+ ")")
    ("FAIL: Error clicking element '" +:+ description +:+ "'").

(** [type(element_description, text)] *)
Definition type (a : ACI E) (description txt : string) : ACI E * string :=
  by_description a description
    (λ i, {| action_type := INPUT_TEXT; index := Some (Z.of_nat i);
             action_text := Some txt |})
    (λ i, "SUCCESS: Typed '" +:+ txt +:+ "' into element '" +:+ description
            +:+ "' (index " +:+ index_text i +:+ ")")
    ("FAIL: Error typing into element '" +:+ description +:+ "'").

(** [long_click(element_description, duration)]; the duration is given
    by its rendering and only enters the message. *)
Definition long_click (a : ACI E) (description duration_rendering : string)
  : ACI E * string :=
  by_description a description
    (λ i, {| action_type := LONG_PRESS; index := Some (Z.of_nat i);
             action_text := None |})
    (λ i, "SUCCESS: Long clicked element '" +:+ description +:+ "' (index "
            +:+ index_text i +:+ ") for " +:+ duration_rendering +:+ "s")
    ("FAIL: Error long clicking element '" +:+ description +:+ "'").

(** The common shape of [navigate_home] and [navigate_back]. *)
Definition navigate (a : ACI E) (kind on_success on_error : string) : ACI E * string :=
  let '(a1, r) := call_execute_action a
                    {| action_type := kind; index := None; action_text := None |} in
  match r with
  | Raise _ => (a1, on_error)
  | Return _ => (a1, on_success)
  end.

(** [navigate_home()] *)
Definition navigate_home (a : ACI E) : ACI E * string :=
  navigate a "navigate_home" "SUCCESS: Navigated to home" "FAIL: Error navigating home".

(** [navigate_back()] *)
Definition navigate_back (a : ACI E) : ACI E * string :=
  navigate a "navigate_back" "SUCCESS: Navigated back" "FAIL: Error navigating back".

(** The common shape of [is_app_drawer_open] and [is_quick_settings_open]. *)
Definition look_for (a : ACI E) (indicators : list string)
    (found : string → string) (not_found on_error : string) : ACI E * string :=
  let '(a1, st) := call_get_state a in
  match st with
  | Raise _ => (a1, on_error)
  | Return ui_elements =>
      match first_indicated indicators ui_elements with
      | Some t => (a1, found t)
      | None => (a1, not_found)
      end
  end.

(** [is_app_drawer_open()] *)
Definition is_app_drawer_open (a : ACI E) : ACI E * string :=
  look_for a app_drawer_indicators
    (λ t, "SUCCESS: App drawer is open (found '" +:+ t +:+ "')")
    "FAIL: App drawer is not open (no indicators found)"
    "FAIL: Error checking app drawer status".

(** [is_quick_settings_open()] *)
Definition is_quick_settings_open (a : ACI E) : ACI E * string :=
  look_for a quick_settings_indicators
    (λ t, "SUCCESS: Quick settings is open (found '" +:+ t +:+ "')")
    "FAIL: Quick settings is not open (no indicators found)"
    "FAIL: Error checking quick settings status".

(** [save_to_knowledge(text)] *)
Definition save_to_knowledge (a : ACI E) (txt : list string) : ACI E * string :=
  ({| env := env a; notes := notes a ++ txt; env_calls := env_calls a |},
   "SUCCESS: Information saved to knowledge base").

End DescriptionOperations.

(** The actions executed among the calls made on the environment. *)
Definition executed (calls : list EnvCall) : list JSONAction :=
  omap (λ c, match c with ExecuteAction act => Some act | GetState => None end) calls.



(** The environment of [test_android_integration.py]: three elements on
    screen, every action accepted. *)
Inductive MockAndroidEnv := mock_env.

Definition mock_elements : list UIElement :=
  [ {| text := Some "Settings"; content_description := None; class_name := "Mock" |};
    {| text := Some "Wi-Fi"; content_description := None; class_name := "Mock" |};
    {| text := Some "Status"; content_description := None; class_name := "Mock" |} ].

#[global] Instance mock_android_env : AndroidEnv MockAndroidEnv := {
  get_state e := (e, Return mock_elements);
  execute_action e _ := (e, Return tt)
}.

Definition mock_aci : ACI MockAndroidEnv :=
  {| env := mock_env; notes := []; env_calls := [] |}.

End Grounding.

(* ===================================================================== *)
(** ** worker.py: the executor *)
(* ===================================================================== *)

Module Worker.

Import Py Grounding.

(** One turn of a conversation with the oracle. *)
Record Message := { role : string; content : string }.

(** Modelled from the spec: the oracle client [LMMAgent]
    ([gui_agents/s2/core/mllm.py]) and [BaseModule._create_agent], which
    the worker uses and which are not among the sources.  The oracle
    interface is "an ordered list of structured message turns (role,
    text, optional image)": the conversation is a list of turns whose first
    entry is the system turn; [add_message] appends one turn,
    [remove_message_at(i)] deletes the turn at index [i] when there is
    one, [add_system_prompt] replaces the first turn. *)
Record LMMAgent := { system_prompt : string; messages : list Message }.

Definition system_message (p : string) : Message :=
  {| role := "system"; content := p |}.

Definition _create_agent (p : string) : LMMAgent :=
  {| system_prompt := p; messages := [system_message p] |}.

Definition add_system_prompt (p : string) (a : LMMAgent) : LMMAgent :=
  {| system_prompt := p;
     messages := match messages a with
                 | [] => [system_message p]
                 | _ :: rest => system_message p :: rest
                 end |}.

Definition add_message (txt who : string) (a : LMMAgent) : LMMAgent :=
  {| system_prompt := system_prompt a;
     messages := messages a ++ [ {| role := who; content := txt |} ] |}.

Definition remove_message_at (i : nat) (a : LMMAgent) : LMMAgent :=
  {| system_prompt := system_prompt a; messages := delete i (messages a) |}.

(** The observation dictionary: [obs.get('current_activity')],
    [obs.get('ui_elements', [])], [obs.get('screenshot')]. *)
Record Observation := {
  current_activity : option string;
  ui_elements : list UIElement;
  screenshot : option string
}.

(** The Python library functions the parser calls, over the objects they
    produce: [ast.literal_eval], [json.loads], [json.dumps], [bool], [str],
    [obj.get('action_type')] and the construction of a [JSONAction]
    from the entries of the object. *)
Class PyLib (Obj : Type) := {
  literal_eval : string → result Obj;
  json_loads : string → result Obj;
  json_dumps : Obj → result string;
  truthy : Obj → bool;
  str : Obj → string;
  get_action_type : Obj → result (option string);
  make_json_action : Obj → result JSONAction
}.

(** The system prompts [reset] installs
    ([PROCEDURAL_MEMORY.construct_worker_procedural_memory(...)],
    [PROCEDURAL_MEMORY.REFLECTION_ON_TRAJECTORY],
    [_get_element_finding_prompt()]). *)
Record Prompts := {
  worker_prompt : string;
  reflection_prompt : string;
  element_finding_prompt : string
}.

(** [AndroidWorker]: its attributes, but for the running cost (a float)
    and the knowledge base (always [None]). *)
Record t (E : Type) := {
  grounding_agent : ACI E;
  prompts : Prompts;
  enable_reflection : bool;
  use_subtask_experience : bool;
  generator_agent : LMMAgent;
  reflection_agent : LMMAgent;
  element_finding_agent : LMMAgent;
  turn_count : Z;
  worker_history : list string;
  reflections : list string;
  screenshot_inputs : list string;
  planner_history : list string;
  max_trajector_length : Z;
  _previous_activity : option string;
  _previous_ui_elements : list UIElement
}.
Arguments grounding_agent {E} _.
Arguments prompts {E} _.
Arguments enable_reflection {E} _.
Arguments use_subtask_experience {E} _.
Arguments generator_agent {E} _.
Arguments reflection_agent {E} _.
Arguments element_finding_agent {E} _.
Arguments turn_count {E} _.
Arguments worker_history {E} _.
Arguments reflections {E} _.
Arguments screenshot_inputs {E} _.
Arguments planner_history {E} _.
Arguments max_trajector_length {E} _.
Arguments _previous_activity {E} _.
Arguments _previous_ui_elements {E} _.

(** What one call of [generate_next_action] receives: its arguments, the
    texts it renders for the oracle (prompt rendering is a matter of
    wording and is taken as given), and the oracle's replies. *)
Record Turn := {
  instruction : string;
  search_query : string;
  subtask : string;
  subtask_info : string;
  future_tasks : list string;
  done_task : list string;
  obs : Observation;
  system_text : string;          (* the system prompt with its placeholders filled *)
  reflection_system_text : string;
  reflection_text : string;      (* clean_worker_generation_for_reflection(...) *)
  generator_text : string;       (* generator_message *)
  reflection_reply : string;     (* call_llm_safe(self.reflection_agent) *)
  plan_reply : string;           (* call_llm_safe(self.generator_agent) *)
  tokens : Z * Z                 (* calculate_tokens(...) *)
}.

Section Executor.
Context {E : Type} `{AndroidEnv E} {Obj : Type} `{PyLib Obj}.

(** [reset()]; the previous activity and elements are attributes set by
    [generate_next_action] and are left as they are. *)
Definition reset (w : t E) : t E :=
  {| grounding_agent := grounding_agent w;
     prompts := prompts w;
     enable_reflection := enable_reflection w;
     use_subtask_experience := use_subtask_experience w;
     generator_agent := _create_agent (worker_prompt (prompts w));
     reflection_agent := _create_agent (reflection_prompt (prompts w));
     element_finding_agent := _create_agent (element_finding_prompt (prompts w));
     turn_count := 0;
     worker_history := [];
     reflections := [];
     screenshot_inputs := [];
     planner_history := [];
     max_trajector_length := 8;
     _previous_activity := _previous_activity w;
     _previous_ui_elements := _previous_ui_elements w |}.

(** [flush_messages()] on the two conversations. *)
Definition flush_generator (m : Z) (g : LMMAgent) : LMMAgent :=
  if Z.of_nat (length (messages g)) >? 2 * m + 1
  then remove_message_at 1 (remove_message_at 1 g)
  else g.

Definition flush_reflection (m : Z) (r : LMMAgent) : LMMAgent :=
  if Z.of_nat (length (messages r)) >? m + 1
  then remove_message_at 1 r
  else r.

Definition flush_messages (w : t E) : t E :=
  {| grounding_agent := grounding_agent w;
     prompts := prompts w;
     enable_reflection := enable_reflection w;
     use_subtask_experience := use_subtask_experience w;
     generator_agent := flush_generator (max_trajector_length w) (generator_agent w);
     reflection_agent := flush_reflection (max_trajector_length w) (reflection_agent w);
     element_finding_agent := element_finding_agent w;
     turn_count := turn_count w;
     worker_history := worker_history w;
     reflections := reflections w;
     screenshot_inputs := screenshot_inputs w;
     planner_history := planner_history w;
     max_trajector_length := max_trajector_length w;
     _previous_activity := _previous_activity w;
     _previous_ui_elements := _previous_ui_elements w |}.

(** The match of the pattern [\{.*?\}] (dot matches newlines): from the
    first opening brace to the first closing brace after it. *)
Definition brace_match (s : string) : option string :=
  match PyStr.from_first "{" s with
  | Some (String c rest) =>
      match PyStr.through_first "}" rest with
      | Some body => Some (String c body)
      | None => None
      end
  | _ => None
  end.

Definition is_syntax_or_value_error (e : exn) : bool :=
  match exn_kind e with
  | SyntaxError | ValueError => true
  | _ => false
  end.

(** [extract_json(s)] *)
Definition extract_json (s : string) : result (option Obj) :=
  match brace_match s with
  | Some m =>
      match literal_eval m with
      | Return o => Return (Some o)
      | Raise e =>
          if is_syntax_or_value_error e then
            match json_loads m with
            | Return o => Return (Some o)
            | Raise e2 =>
                if is_syntax_or_value_error e2 then Return None else Raise e2
            end
          else Raise e
      end
  | None => Return None
  end.

(** The group of the pattern [Reason:] anything [Action:] (greedy, dot
    matches newlines): the text between the first [Reason:] and the last
    [Action:] after it. *)
Definition reason_group (raw : string) : option string :=
  match PyStr.after_first "Reason:" raw with
  | Some rest => PyStr.before_last "Action:" rest
  | None => None
  end.

(** The group of the pattern [Action:] anything: the text after the
    first [Action:]. *)
Definition action_group (raw : string) : option string :=
  PyStr.after_first "Action:" raw.

(** Truth value of an optional string: neither [None] nor empty. *)
Definition opt_truthy (o : option string) : bool :=
  match o with
  | Some s => PyStr.truthy s
  | None => false
  end.

(** [parse_reason_action_output(raw_output)] *)
Definition parse_reason_action_output (raw : string)
  : result (option string * option string) :=
  let reason := PyStr.strip <$> reason_group raw in
  let action := PyStr.strip <$> action_group raw in
  match action with
  | Some a =>
      if PyStr.truthy a then
        match extract_json a with
        | Raise e => Raise e
        | Return (Some o) =>
            match json_dumps o with
            | Return j => Return (reason, Some j)
            | Raise e => Raise e
            end
        | Return None => Return (reason, action)
        end
      else Return (reason, action)
  | None => Return (reason, action)
  end.

Definition KEYBOARD_ENTER : string := "keyboard_enter".

(** [f"FAIL: Error executing action - {e}"] *)
Definition error_executing (e : exn) : string :=
  "FAIL: Error executing action - " +:+ exn_msg e.

(** The body of [if reason and action: ... else: ...] inside the outer
    [try]: it yields [exec_code]; every exception is caught inside. *)
Definition execute_parsed (g : ACI E) (reason action : option string)
  : ACI E * string :=
  if opt_truthy reason && opt_truthy action then
    match extract_json (default EmptyString action) with
    | Raise e => (g, error_executing e)
    | Return (Some o) =>
        if truthy o then
          match make_json_action o with
          | Raise e => (g, error_executing e)
          | Return converted_action =>
              let '(g1, r) := call_execute_action g converted_action in
              match r with
              | Raise e => (g1, error_executing e)
              | Return _ =>
                  match get_action_type o with
                  | Raise e => (g1, error_executing e)
                  | Return ty =>
                      if bool_decide (ty = Some "input_text") then
                        let enter := {| action_type := KEYBOARD_ENTER;
                                        index := None; action_text := None |} in
                        let '(g2, _) := call_execute_action g1 enter in
                        (g2, "SUCCESS: Action executed successfully")
                      else (g1, "SUCCESS: Action executed successfully")
                  end
              end
          end
        else (g, "FAIL: Could not parse JSON action")
    | Return None => (g, "FAIL: Could not parse JSON action")
    end
  else (g, "FAIL: Could not parse plan output").

(** The final [if reason and action: ... else: ...]: the action list. *)
Definition returned_actions (reason action : option string) (exec_code : string)
  : list Py.action :=
  if opt_truthy reason && opt_truthy action then
    match extract_json (default EmptyString action) with
    | Return (Some o) => if truthy o then [AObj (str o)] else [AStr exec_code]
    | Return None => [AStr exec_code]
    | Raise _ => [AStr exec_code]
    end
  else [AStr exec_code].

(** The first three texts, [getattr(elem, 'text', '')]. *)
Definition first_texts (l : list UIElement) : list (option string) :=
  text <$> take 3 l.

(** Screen change between the previous and the current observation. *)
Definition detect_screen_change (w : t E) (o : Observation) : bool :=
  let activity := default "Unknown" (current_activity o) in
  if opt_truthy (_previous_activity w)
     && negb (bool_decide (_previous_activity w = Some activity)) then true
  else if negb (length (ui_elements o) =? length (_previous_ui_elements w))%nat then true
  else if turn_count w >? 0 then
    (0 <? length (_previous_ui_elements w))%nat && (0 <? length (ui_elements o))%nat
    && negb (bool_decide (first_texts (_previous_ui_elements w) = first_texts (ui_elements o)))
  else false.

Definition bool_val (b : bool) : val := VBool b.

(** The reflection step: the reflection conversation after it, and the
    reflection obtained (none on the first turn, or when reflection is
    off). *)
Definition reflect (w : t E) (k : Turn) : LMMAgent * option string :=
  if enable_reflection w then
    if turn_count w =? 0 then
      (add_message "The initial screen is provided. No action has been taken yet."
         "user" (add_system_prompt (reflection_system_text k) (reflection_agent w)),
       None)
    else (add_message (reflection_text k) "user" (reflection_agent w),
          Some (reflection_reply k))
  else (reflection_agent w, None).

(** The generator conversation once the turn's user message and the
    oracle's plan have been added (the system prompt is renewed on the
    first turn). *)
Definition converse (w : t E) (k : Turn) : LMMAgent :=
  let gen0 :=
    if turn_count w =? 0 then add_system_prompt (system_text k) (generator_agent w)
    else generator_agent w in
  add_message (plan_reply k) "assistant" (add_message (generator_text k) "user" gen0).

(** The worker once it has stored the activity and the elements of the
    observation for the next comparison. *)
Definition remember_screen (w : t E) (o : Observation) : t E :=
  {| grounding_agent := grounding_agent w;
     prompts := prompts w;
     enable_reflection := enable_reflection w;
     use_subtask_experience := use_subtask_experience w;
     generator_agent := generator_agent w;
     reflection_agent := reflection_agent w;
     element_finding_agent := element_finding_agent w;
     turn_count := turn_count w;
     worker_history := worker_history w;
     reflections := reflections w;
     screenshot_inputs := screenshot_inputs w;
     planner_history := planner_history w;
     max_trajector_length := max_trajector_length w;
     _previous_activity := Some (default "Unknown" (current_activity o));
     _previous_ui_elements := ui_elements o |}.

(** The reflection step of a later turn reads [self.planner_history[-1]]:
    there is no such entry. *)
Definition last_plan_missing (w : t E) : bool :=
  enable_reflection w && negb (turn_count w =? 0)
  && bool_decide (planner_history w = []).

(** [generate_next_action(instruction, search_query, subtask, subtask_info,
    future_tasks, done_task, obs)].  The pauses ([time.sleep]) leave no
    trace; the second look at the observation after the pause reads the
    same dictionary and finds it unchanged. *)
Definition generate_next_action (w : t E) (k : Turn)
  : t E * result (gmap string val * list Py.action) :=
  if last_plan_missing w then
    (remember_screen w (obs k),
     Raise (Exn (OtherException "IndexError") "list index out of range"))
  else
  let screen_changed := detect_screen_change w (obs k) in
  let '(refl, reflection) := reflect w k in
  let plan := plan_reply k in
  let gen2 := converse w k in
  let parsed := parse_reason_action_output plan in
  let '(g, exec_code) :=
    match parsed with
    | Return (reason, action) => execute_parsed (grounding_agent w) reason action
    | Raise _ => (grounding_agent w, wait "1.0")
    end in
  let executor_info : gmap string val :=
    <["current_subtask" := VStr (subtask k)]>
    (<["current_subtask_info" := VStr (subtask_info k)]>
    (<["executor_plan" := VStr plan]>
    (<["reflection" := from_option VStr VNone reflection]>
    (<["num_input_tokens_executor" := VInt (fst (tokens k))]>
    (<["num_output_tokens_executor" := VInt (snd (tokens k))]>
    (<["screen_changed" := bool_val screen_changed]> ∅)))))) in
  let w' := flush_messages
    {| grounding_agent := g;
       prompts := prompts w;
       enable_reflection := enable_reflection w;
       use_subtask_experience := use_subtask_experience w;
       generator_agent := gen2;
       reflection_agent := refl;
       element_finding_agent := element_finding_agent w;
       turn_count := turn_count w + 1;
       worker_history := worker_history w;
       reflections := reflections w ++ from_option (λ r, [r]) [] reflection;
       screenshot_inputs :=
         screenshot_inputs w ++ (if opt_truthy (screenshot (obs k))
                                 then [default EmptyString (screenshot (obs k))] else []);
       planner_history := planner_history w ++ [plan];
       max_trajector_length := max_trajector_length w;
       _previous_activity := Some (default "Unknown" (current_activity (obs k)));
       _previous_ui_elements := ui_elements (obs k) |} in
  match parsed with
  | Return (reason, action) =>
      (w', Return (executor_info, returned_actions reason action exec_code))
  | Raise _ =>
      (w', Raise (Exn UnboundLocalError
                    "cannot access local variable 'reason' where it is not associated with a value"))
  end.

(** The match of the pattern [Action:], white space, a brace group (dot
    matches newlines): at the first [Action:] that is followed, after any
    white space, by an opening brace with a closing brace after it, the
    text from that brace to the first closing brace. *)
Fixpoint action_brace_group (s : string) : option string :=
  let here :=
    if String.prefix "Action:" s then
      match PyStr.lstrip (PyStr.drop 7 s) with
      | String c rest =>
          if bool_decide (c = Ascii.ascii_of_nat 123) then
            match PyStr.through_first "}" rest with
            | Some body => Some (String c body)
            | None => None
            end
          else None
      | EmptyString => None
      end
    else None in
  match here with
  | Some m => Some m
  | None =>
      match s with
      | EmptyString => None
      | String _ s' => action_brace_group s'
      end
  end.

(** The block [clean_worker_generation_for_reflection] appends. *)
Definition grounded_action_block (action : string) : string :=
  "(Grounded Action)" +:+ PyStr.LF +:+ "```json" +:+ PyStr.LF
    +:+ action +:+ PyStr.LF +:+ "```" +:+ PyStr.LF.

(** [clean_worker_generation_for_reflection(worker_generation)] *)
Definition clean_worker_generation_for_reflection (worker_generation : string)
  : string :=
  let res := PyStr.slice_from (PyStr.find "(UI Analysis)" worker_generation)
               worker_generation in
  let action := default "{}" (action_brace_group worker_generation) in
  let res := PyStr.slice_to (PyStr.find "(Grounded Action)" res) res in
  res +:+ grounded_action_block action.

(** [find_element_by_description(description, obs)]: the index read from
    the oracle's reply to the element-finding prompt.  [digit_limit] is
    the bound [int()] puts on the number of digits ([None] when there is
    none); beyond it [int()] raises [ValueError].  The conversation of
    the element-finding agent is rebuilt at each call and read by nothing
    else; it is not part of the result. *)
Definition find_element_by_description (digit_limit : option nat)
    (o : Observation) (response : string) : option Z :=
  match ui_elements o with
  | [] => None
  | _ =>
      match PyStr.first_integer_text response with
      | None => None
      | Some t =>
          if match digit_limit with
             | Some n => (n <? String.length t)%nat
             | None => false
             end
          then None
          else
            let element_idx := PyStr.int_of_text t in
            if element_idx =? -1 then None
            else if (0 <=? element_idx) && (element_idx <? Z.of_nat (length (ui_elements o)))
            then Some element_idx
            else None
      end
  end.

(** The worker states that arise: after [reset] (which [__init__] ends
    with), after a call of [generate_next_action] whatever it is given,
    after another [reset]. *)
Inductive reachable (w0 : t E) : t E → Prop :=
| reach_reset : reachable w0 (reset w0)
| reach_turn w k : reachable w0 w → reachable w0 (fst (generate_next_action w k))
| reach_again w : reachable w0 w → reachable w0 (reset w).

(** The retention limit as [reset] sets it, and both conversations within
    it. *)
Definition within_window (w : t E) : Prop :=
  max_trajector_length w = 8
  ∧ Z.of_nat (length (messages (generator_agent w))) ≤ 2 * max_trajector_length w + 1
  ∧ Z.of_nat (length (messages (reflection_agent w))) ≤ max_trajector_length w + 1.

(** The turn counter counts the plans recorded. *)
Definition counts_plans (w : t E) : Prop :=
  turn_count w = Z.of_nat (length (planner_history w)).

(** A conversation with its [n] oldest turns after the system turn
    taken out, the order of the others kept. *)
Definition evict_oldest (n : nat) (conv : list Message) : list Message :=
  take 1 conv ++ drop (1 + n) conv.

(** The action list is the no-op "wait": the result string of
    [wait(1.0)], or the JSON wait action. *)
Definition is_wait_action (a : Py.action) : bool :=
  match a with
  | AStr s => bool_decide (s = wait "1.0")
  | AObj r => bool_decide (r = "{'action_type': 'wait'}")
  end.

End Executor.

End Worker.

(* ===================================================================== *)
(** ** agent_s.py: the orchestrator [AndroidAgentS2] *)
(* ===================================================================== *)

Module AgentS.

Import Py.

(** Modelled from the spec: the subtask record [Node]
    ([gui_agents/s2/utils/common_utils.py] is not among the sources), "a
    name (short label) and info (free-text instructions)".  As an object
    it is true in a condition. *)
Record Node := { name : string; info : string }.

(** The state variables of the agent, with the verifier it owns.  The
    executor is pluggable ([android_executor]) and keeps its own state
    behind its interface. *)
Record t := {
  requires_replan : bool;
  needs_next_subtask : bool;
  step_count : Z;
  turn_count : Z;
  failure_subtask : option Node;
  should_send_action : bool;
  completed_tasks : list Node;
  current_subtask : option Node;
  subtasks : list Node;
  search_query : string;
  subtask_status : string;
  verifier : Verifier.t
}.

Definition set_requires_replan (x : bool) (s : t) : t :=
  Build_t
    x
    (needs_next_subtask s)
    (step_count s)
    (turn_count s)
    (failure_subtask s)
    (should_send_action s)
    (completed_tasks s)
    (current_subtask s)
    (subtasks s)
    (search_query s)
    (subtask_status s)
    (verifier s).

Definition set_needs_next_subtask (x : bool) (s : t) : t :=
  Build_t
    (requires_replan s)
    x
    (step_count s)
    (turn_count s)
    (failure_subtask s)
    (should_send_action s)
    (completed_tasks s)
    (current_subtask s)
    (subtasks s)
    (search_query s)
    (subtask_status s)
    (verifier s).

Definition set_step_count (x : Z) (s : t) : t :=
  Build_t
    (requires_replan s)
    (needs_next_subtask s)
    x
    (turn_count s)
    (failure_subtask s)
    (should_send_action s)
    (completed_tasks s)
    (current_subtask s)
    (subtasks s)
    (search_query s)
    (subtask_status s)
    (verifier s).

Definition set_turn_count (x : Z) (s : t) : t :=
  Build_t
    (requires_replan s)
    (needs_next_subtask s)
    (step_count s)
    x
    (failure_subtask s)
    (should_send_action s)
    (completed_tasks s)
    (current_subtask s)
    (subtasks s)
    (search_query s)
    (subtask_status s)
    (verifier s).

Definition set_failure_subtask (x : option Node) (s : t) : t :=
  Build_t
    (requires_replan s)
    (needs_next_subtask s)
    (step_count s)
    (turn_count s)
    x
    (should_send_action s)
    (completed_tasks s)
    (current_subtask s)
    (subtasks s)
    (search_query s)
    (subtask_status s)
    (verifier s).

Definition set_should_send_action (x : bool) (s : t) : t :=
  Build_t
    (requires_replan s)
    (needs_next_subtask s)
    (step_count s)
    (turn_count s)
    (failure_subtask s)
    x
    (completed_tasks s)
    (current_subtask s)
    (subtasks s)
    (search_query s)
    (subtask_status s)
    (verifier s).

Definition set_completed_tasks (x : list Node) (s : t) : t :=
  Build_t
    (requires_replan s)
    (needs_next_subtask s)
    (step_count s)
    (turn_count s)
    (failure_subtask s)
    (should_send_action s)
    x
    (current_subtask s)
    (subtasks s)
    (search_query s)
    (subtask_status s)
    (verifier s).

Definition set_current_subtask (x : option Node) (s : t) : t :=
  Build_t
    (requires_replan s)
    (needs_next_subtask s)
    (step_count s)
    (turn_count s)
    (failure_subtask s)
    (should_send_action s)
    (completed_tasks s)
    x
    (subtasks s)
    (search_query s)
    (subtask_status s)
    (verifier s).

Definition set_subtasks (x : list Node) (s : t) : t :=
  Build_t
    (requires_replan s)
    (needs_next_subtask s)
    (step_count s)
    (turn_count s)
    (failure_subtask s)
    (should_send_action s)
    (completed_tasks s)
    (current_subtask s)
    x
    (search_query s)
    (subtask_status s)
    (verifier s).

Definition set_search_query (x : string) (s : t) : t :=
  Build_t
    (requires_replan s)
    (needs_next_subtask s)
    (step_count s)
    (turn_count s)
    (failure_subtask s)
    (should_send_action s)
    (completed_tasks s)
    (current_subtask s)
    (subtasks s)
    x
    (subtask_status s)
    (verifier s).

Definition set_subtask_status (x : string) (s : t) : t :=
  Build_t
    (requires_replan s)
    (needs_next_subtask s)
    (step_count s)
    (turn_count s)
    (failure_subtask s)
    (should_send_action s)
    (completed_tasks s)
    (current_subtask s)
    (subtasks s)
    (search_query s)
    x
    (verifier s).

Definition set_verifier (x : Verifier.t) (s : t) : t :=
  Build_t
    (requires_replan s)
    (needs_next_subtask s)
    (step_count s)
    (turn_count s)
    (failure_subtask s)
    (should_send_action s)
    (completed_tasks s)
    (current_subtask s)
    (subtasks s)
    (search_query s)
    (subtask_status s)
    x.


(** The local variables of [predict] that live across the iterations. *)
Record Locals := {
  planner_info : gmap string val;
  executor_info : gmap string val;
  actions : list action
}.

(** What the orchestrator asks of its collaborators, in order. *)
Inductive Call :=
| CallPlanner (failed_subtask : option Node) (completed remaining : list Node)
| CallExecutor (subtask : Node) (future_tasks done_task : list Node)
| CallVerifier (manager_goal : string)
| ResetExecutor.

(** The replies the collaborators give during one iteration of the loop,
    each read only if the call is made: [planner.get_action_queue(...)],
    [executor.generate_next_action(...)] (which may raise) and the oracle's
    answer to the verification prompt.  The calls of the planner and of
    the verifier's oracle are taken to return. *)
Record Replies := {
  planner_reply : gmap string val * list Node;
  executor_reply : result (gmap string val * list action);
  verifier_reply : string
}.

(** [reset()]: the state variables after construction. *)
Definition reset : t :=
  {| requires_replan := true;
     needs_next_subtask := true;
     step_count := 0;
     turn_count := 0;
     failure_subtask := None;
     should_send_action := false;
     completed_tasks := [];
     current_subtask := None;
     subtasks := [];
     search_query := "";
     subtask_status := "Start";
     verifier := {| Verifier.verification_history := [] |} |}.

(** [reset_executor_state()] *)
Definition reset_executor_state (s : t) : t * list Call :=
  (set_step_count 0 (set_verifier (Verifier.reset (verifier s)) s), [ResetExecutor]).

(** [any("FAIL" in str(action) for action in actions)] *)
Definition has_fail (acts : list action) : bool :=
  existsb (λ a, PyStr.contains "FAIL" (str_of_action a)) acts.

(** The condition of the [elif]: a [DONE] marker, or a [goal_status] that
    is [complete]. *)
Definition has_completion (acts : list action) : bool :=
  existsb (λ a, PyStr.contains "DONE" (str_of_action a)) acts
  || existsb (λ a, PyStr.contains "goal_status" (str_of_action a)
                   && PyStr.contains "complete" (str_of_action a)) acts.

(** Truth value of a list: non-empty. *)
Definition nonempty {A} (l : list A) : bool :=
  match l with [] => false | _ => true end.

(** The replanning step at the head of an iteration. *)
Definition replan (r : Replies) (s : t) (l : Locals) : t * Locals * list Call :=
  if requires_replan s then
    let '(pinfo, queue) := planner_reply r in
    let s1 := set_requires_replan false (set_subtasks queue s) in
    let s2 := set_search_query
                (match pinfo !! "search_query" with
                 | Some q => str_of_val q
                 | None => ""
                 end) s1 in
    (s2, {| planner_info := pinfo; executor_info := executor_info l; actions := actions l |},
     [CallPlanner (failure_subtask s) (completed_tasks s) (subtasks s)])
  else (s, l, []).

(** [self.requires_replan = True; self.needs_next_subtask = True] *)
Definition ask_replan (s : t) : t :=
  set_needs_next_subtask true (set_requires_replan true s).

(** [if self.subtasks: self.should_send_action = False] *)
Definition hold_if_queued (s : t) : t :=
  if nonempty (subtasks s) then set_should_send_action false s else s.

(** [self.completed_tasks.append(self.current_subtask)] *)
Definition complete_current (s : t) : t :=
  match current_subtask s with
  | Some c => set_completed_tasks (completed_tasks s ++ [c]) s
  | None => s
  end.

(** The outcome of one iteration of the [while] loop. *)
Inductive IterResult :=
| Break (s : t) (l : Locals) (calls : list Call)
| Next (s : t) (l : Locals) (calls : list Call)
| Raised (s : t) (e : exn) (calls : list Call).

Definition done_info : gmap string val :=
  <["executor_plan" := VStr "agent.done()"]>
  (<["plan_code" := VStr "agent.done()"]>
  (<["reflection" := VStr "agent.done()"]> ∅)).

(** The branch taken when the queue is empty at the time a next subtask
    is needed: the task is over.  A current subtask, when there is one,
    goes to the completed list. *)
Definition finish (s : t) (l : Locals) (calls : list Call) : IterResult :=
  let s1 := set_failure_subtask None (ask_replan s) in
  let s2 := complete_current s1 in
  let '(s3, c3) := reset_executor_state s2 in
  let s4 := set_subtask_status "Done" (set_should_send_action true s3) in
  Break s4
    {| planner_info := planner_info l; executor_info := done_info;
       actions := [AStr "DONE"] |}
    (calls ++ c3).

(** The transition on a failed verdict. *)
Definition on_verdict (is_success : bool) (s : t) : t * list Call :=
  if negb is_success then
    let s1 := set_failure_subtask (current_subtask s) (ask_replan s) in
    let '(s2, c) := reset_executor_state s1 in
    (hold_if_queued s2, c)
  else (s, []).

(** The classification of the action itself. *)
Definition on_action (acts : list action) (s : t) : t * list Call :=
  if has_fail acts then
    let s1 := set_failure_subtask (current_subtask s) (ask_replan s) in
    let '(s2, c) := reset_executor_state s1 in
    (hold_if_queued s2, c)
  else if has_completion acts then
    let s1 := complete_current (set_failure_subtask None (ask_replan s)) in
    let '(s2, c) := reset_executor_state s1 in
    (set_subtask_status "Done" (hold_if_queued s2), c)
  else (s, []).

(** The part of an iteration after the executor has answered: the
    verification, the unconditional [self.should_send_action = True], then
    the classification of the action. *)
Definition judge (r : Replies) (s : t) (l : Locals) (cur : Node)
    (einfo : gmap string val) (acts : list action) (calls : list Call) : IterResult :=
  let s1 := set_step_count (step_count s + 1) s in
  let manager_goal := name cur +:+ ": " +:+ info cur in
  let '(v, (is_success, reasoning, vi)) :=
    Verifier.verify_execution (verifier s1) manager_goal (verifier_reply r) in
  let s2 := set_verifier v s1 in
  let einfo' :=
    <["verification_info" := VVerification vi]>
    (<["verification_reasoning" := VStr reasoning]>
    (<["verification_success" := VBool is_success]> einfo)) in
  let '(s3, c3) := on_verdict is_success s2 in
  let s4 := set_should_send_action true s3 in
  let '(s5, c5) := on_action acts s4 in
  Next (set_turn_count (turn_count s5 + 1) s5)
    {| planner_info := planner_info l; executor_info := einfo'; actions := acts |}
    (calls ++ [CallVerifier manager_goal] ++ c3 ++ c5).

(** The "next subtask" step: [None] when the queue is empty. *)
Definition advance (s : t) : option t :=
  if needs_next_subtask s then
    match subtasks s with
    | [] => None
    | head :: rest =>
        Some (set_subtask_status "Start"
                (set_needs_next_subtask false
                   (set_subtasks rest (set_current_subtask (Some head) s))))
    end
  else Some s.

(** One iteration of [while not self.should_send_action]. *)
Definition loop_body (r : Replies) (s : t) (l : Locals) : IterResult :=
  let s0 := set_subtask_status "In" s in
  let '(s1, l1, calls1) := replan r s0 l in
  match advance s1 with
  | None => finish s1 l1 calls1
  | Some s2 =>
      match current_subtask s2 with
      | None =>
          Raised s2 (Exn AttributeError "'NoneType' object has no attribute 'name'") calls1
      | Some cur =>
          let calls2 := calls1 ++ [CallExecutor cur (subtasks s2) (completed_tasks s2)] in
          match executor_reply r with
          | Raise e => Raised s2 e calls2
          | Return (einfo, acts) => judge r s2 l1 cur einfo acts calls2
          end
      end
  end.

(** How the loop of one [predict] call ends: it is left, it needs a reply
    the script does not have, or an exception leaves it. *)
Inductive LoopResult :=
| Exit (s : t) (l : Locals) (calls : list Call)
| Pending (s : t) (l : Locals) (calls : list Call)
| Failed (s : t) (e : exn) (calls : list Call).

(** The [while] loop, run on the replies of the collaborators, one
    [Replies] per iteration. *)
Fixpoint predict_loop (script : list Replies) (s : t) (l : Locals)
    (calls : list Call) : LoopResult :=
  if should_send_action s then Exit s l calls
  else
    match script with
    | [] => Pending s l calls
    | r :: script' =>
        match loop_body r s l with
        | Break s' l' c => Exit s' l' (calls ++ c)
        | Next s' l' c => predict_loop script' s' l' (calls ++ c)
        | Raised s' e c => Failed s' e (calls ++ c)
        end
    end.

Definition evaluator_info : gmap string val :=
  <["obs_evaluator_response" := VStr ""]>
  (<["num_input_tokens_evaluator" := VInt 0]>
  (<["num_output_tokens_evaluator" := VInt 0]>
  (<["evaluator_cost" := VFloat "0.0"]> ∅))).

(** The dictionary returned to the caller. *)
Definition merged_info (s : t) (l : Locals) : gmap string val :=
  <["subtask_status" := VStr (subtask_status s)]>
  (<["subtask_info" := match current_subtask s with
                       | Some c => VStr (info c)
                       | None => VEmptyDict
                       end]>
  (<["subtask" := VStr (match current_subtask s with
                        | Some c => name c
                        | None => "None"
                        end)]>
  (merge (merge (planner_info l) (executor_info l)) evaluator_info))).

(** The result of a [predict] call. *)
Inductive PredictResult :=
| Returned (s : t) (info : gmap string val) (acts : list action) (calls : list Call)
| Awaiting (s : t) (calls : list Call)
| Raising (s : t) (e : exn) (calls : list Call).

(** What a call gave back, when it returned. *)
Definition actions_of (res : PredictResult) : option (list action) :=
  match res with Returned _ _ acts _ => Some acts | _ => None end.

Definition info_of (res : PredictResult) : option (gmap string val) :=
  match res with Returned _ info _ _ => Some info | _ => None end.

Definition state_of (res : PredictResult) : option t :=
  match res with Returned s _ _ _ => Some s | _ => None end.

Definition calls_of (res : PredictResult) : option (list Call) :=
  match res with Returned _ _ _ calls => Some calls | _ => None end.

Definition empty_locals : Locals :=
  {| planner_info := ∅; executor_info := ∅; actions := [] |}.

(** [predict(instruction, observation)].  The instruction and the
    observation are handed on to the collaborators unchanged; their
    replies are in [script]. *)
Definition predict (script : list Replies) (s : t) : PredictResult :=
  match predict_loop script s empty_locals [] with
  | Exit s' l' calls =>
      let s'' := set_should_send_action false s' in
      Returned s'' (merged_info s'' l') (actions l') calls
  | Pending s' _ calls => Awaiting s' calls
  | Failed s' e calls => Raising s' e calls
  end.

(** The queue the "next subtask" step looks at: the planner's answer when
    a replan is due, the stored queue otherwise. *)
Definition queue_at_advance (r : Replies) (s : t) : list Node :=
  if requires_replan s then snd (planner_reply r) else subtasks s.

(** The iteration needs a next subtask and finds the queue empty. *)
Definition advance_on_empty_queue (r : Replies) (s : t) : bool :=
  needs_next_subtask s && negb (nonempty (queue_at_advance r s)).

(** The queue left once the iteration has taken its subtask. *)
Definition queue_after_advance (r : Replies) (s : t) : list Node :=
  if needs_next_subtask s then tail (queue_at_advance r s) else queue_at_advance r s.

(** The subtask the iteration works on. *)
Definition subtask_at_execute (r : Replies) (s : t) : option Node :=
  if needs_next_subtask s then head (queue_at_advance r s) else current_subtask s.

Definition executor_called (calls : list Call) : bool :=
  existsb (λ c, match c with CallExecutor _ _ _ => true | _ => false end) calls.

(** The verdict the verifier reaches on the oracle's text. *)
Definition verdict (r : Replies) : bool :=
  fst (Verifier._parse_verification_response (verifier_reply r)).

(** The state an iteration ends in. *)
Definition state_after (res : IterResult) : t :=
  match res with
  | Break s _ _ => s
  | Next s _ _ => s
  | Raised s _ _ => s
  end.

(** The iteration that ends the loop of a call, with the state and the
    locals it starts from, when the loop is left. *)
Fixpoint final_iteration (script : list Replies) (s : t) (l : Locals)
  : option (Replies * t * Locals) :=
  if should_send_action s then None
  else
    match script with
    | [] => None
    | r :: script' =>
        match loop_body r s l with
        | Break _ _ _ => Some (r, s, l)
        | Next s' l' _ =>
            if should_send_action s' then Some (r, s, l)
            else final_iteration script' s' l'
        | Raised _ _ _ => None
        end
    end.

(** The agent states that arise: after [reset] (which [__init__] ends
    with), and after a [predict] call that returned or raised, whatever
    the collaborators answered. *)
Inductive reachable : t → Prop :=
| reach_reset : reachable reset
| reach_returned s script s' info acts calls :
    reachable s → predict script s = Returned s' info acts calls → reachable s'
| reach_raising s script s' e calls :
    reachable s → predict script s = Raising s' e calls → reachable s'.

(** A completion transition on the subtask [cur]: the iteration works on
    [cur], the executor answers, and its action carries a completion
    marker and no failure marker. *)
Definition completion_transition (r : Replies) (s : t) (cur : Node) : Prop :=
  subtask_at_execute r s = Some cur
  ∧ ∃ einfo acts,
      executor_reply r = Return (einfo, acts)
      ∧ has_fail acts = false ∧ has_completion acts = true.

(** A failure transition on the subtask [cur]: the iteration works on
    [cur], the executor answers, and either its action carries the failure
    marker, or the verdict is a failure and the action carries no
    completion marker. *)
Definition failure_transition (r : Replies) (s : t) (cur : Node) : Prop :=
  subtask_at_execute r s = Some cur
  ∧ ∃ einfo acts,
      executor_reply r = Return (einfo, acts)
      ∧ (has_fail acts = true ∨ (verdict r = false ∧ has_completion acts = false)).

(** The agent has a subtask to work on whenever it does not ask for the
    next one. *)
Definition works_on_a_subtask (s : t) : Prop :=
  needs_next_subtask s = false → is_Some (current_subtask s).

End AgentS.

(* ===================================================================== *)
(** ** agent_s.py: the two memory journals *)
(* ===================================================================== *)

Module Memory.

Definition NL : string := String (Ascii.ascii_of_nat 10) EmptyString.

(** The separator between the header of a subtask trajectory and its
    plans. *)
Definition PLAN_SEPARATOR : string :=
  NL +:+ "----------------------" +:+ NL +:+ NL +:+ "Plan:" +:+ NL.

(** A journal file: the dictionary it holds, or [None] when the file is
    missing or cannot be read as a dictionary. *)
Definition journal_file : Type := option (gmap string string).

(** [try: json.load(open(path)) except: {}] *)
Definition load (file : journal_file) : gmap string string := default ∅ file.

(** Reading a key back from the stored journal. *)
Definition read_back (file : journal_file) (key : string) : option string :=
  load file !! key.

(** The read-merge step shared by both journals: insert only when the key
    is absent. *)
Definition insert_if_absent (key summary : string) (kb : gmap string string)
  : gmap string string :=
  match kb !! key with
  | Some _ => kb
  | None => <[key := summary]> kb
  end.

(** [update_narrative_memory(trajectory)].  The key is
    [self.search_query]; [summary] is what
    [self.planner.summarize_narrative(trajectory)] answers when asked.
    The journal is written back whole; the write is taken to succeed. *)
Definition update_narrative_memory (search_query : string) (file : journal_file)
    (summary : string) : journal_file :=
  Some (insert_if_absent search_query summary (load file)).

(** The entries of [meta_data] the episodic update reads. *)
Record MetaData := {
  subtask : string;
  subtask_info : string;
  subtask_status : string;
  executor_plan : string
}.

(** The update files a summary: the status is [Start] or [Done] and the
    trajectory so far is not empty. *)
Definition files_entry (meta_data : MetaData) (subtask_trajectory : string) : bool :=
  (bool_decide (subtask_status meta_data = "Start")
   || bool_decide (subtask_status meta_data = "Done"))
  && PyStr.truthy subtask_trajectory.

(** The key under which a finished subtask trajectory is filed. *)
Definition subtask_key (subtask_trajectory : string) : string :=
  PyStr.split_head PLAN_SEPARATOR
    (subtask_trajectory +:+ NL +:+ "Android Subtask Completed." +:+ NL).

(** [update_episodic_memory(meta_data, subtask_trajectory)]; [summary] is
    what [self.planner.summarize_episode(...)] answers when asked.  The
    result is the journal file and the returned trajectory. *)
Definition update_episodic_memory (search_query : string) (file : journal_file)
    (meta_data : MetaData) (subtask_trajectory : string) (summary : string)
  : journal_file * string :=
  if bool_decide (subtask_status meta_data = "Start")
     || bool_decide (subtask_status meta_data = "Done") then
    let file' :=
      if PyStr.truthy subtask_trajectory then
        Some (insert_if_absent (subtask_key subtask_trajectory) summary (load file))
      else file in
    (file',
     "Android Task:" +:+ NL +:+ search_query +:+ NL +:+ NL
       +:+ "Android Subtask: " +:+ subtask meta_data +:+ NL
       +:+ "Android Subtask Instruction: " +:+ subtask_info meta_data
       +:+ PLAN_SEPARATOR +:+ executor_plan meta_data +:+ NL)
  else if bool_decide (subtask_status meta_data = "In") then
    (file, subtask_trajectory +:+ PLAN_SEPARATOR +:+ executor_plan meta_data +:+ NL)
  else (file, subtask_trajectory).

(** The head of a subtask trajectory: the task, the subtask and its
    instruction, up to the separator of the first plan. *)
Definition trajectory_header (search_query : string) (meta_data : MetaData) : string :=
  "Android Task:" +:+ NL +:+ search_query +:+ NL +:+ NL
    +:+ "Android Subtask: " +:+ subtask meta_data +:+ NL
    +:+ "Android Subtask Instruction: " +:+ subtask_info meta_data.

End Memory.

(* ===================================================================== *)
(** ** Test doubles *)
(* ===================================================================== *)

Module Doubles.

Import Py Grounding.

Definition DQ : string := String (Ascii.ascii_of_nat 34) EmptyString.

(** An action literal the scripted library knows: its Python text (also
    its [str()]), its JSON text, its kind and the action it denotes. *)
Record Literal := {
  py_text : string;
  json_text : string;
  serialisable : bool;
  kind : option string;
  denotes : JSONAction
}.

Definition wait_literal : Literal :=
  {| py_text := "{'action_type': 'wait'}";
     json_text := "{" +:+ DQ +:+ "action_type" +:+ DQ +:+ ": " +:+ DQ +:+ "wait" +:+ DQ +:+ "}";
     serialisable := true;
     kind := Some "wait";
     denotes := {| action_type := "wait"; index := None; action_text := None |} |}.

Definition complete_literal : Literal :=
  {| py_text := "{'action_type': 'status', 'goal_status': 'complete'}";
     json_text := "{" +:+ DQ +:+ "action_type" +:+ DQ +:+ ": " +:+ DQ +:+ "status" +:+ DQ
                    +:+ ", " +:+ DQ +:+ "goal_status" +:+ DQ +:+ ": " +:+ DQ +:+ "complete"
                    +:+ DQ +:+ "}";
     serialisable := true;
     kind := Some "status";
     denotes := {| action_type := "status"; index := None; action_text := None |} |}.

(** A set literal: [ast.literal_eval] accepts it, [json.dumps] does not. *)
Definition set_literal : Literal :=
  {| py_text := "{1, 2}";
     json_text := "";
     serialisable := false;
     kind := None;
     denotes := {| action_type := ""; index := None; action_text := None |} |}.

Definition known_literals : list Literal :=
  [wait_literal; complete_literal; set_literal].

Definition lookup_literal (m : string) : option Literal :=
  List.find (λ l, bool_decide (py_text l = m) || bool_decide (json_text l = m))
    known_literals.

(** A library that evaluates the literals above and rejects any other
    text with a syntax error. *)
#[global] Instance scripted_lib : Worker.PyLib Literal := {
  Worker.literal_eval m :=
    match lookup_literal m with
    | Some l => Return l
    | None => Raise (Exn SyntaxError "invalid syntax")
    end;
  Worker.json_loads m :=
    match lookup_literal m with
    | Some l => Return l
    | None => Raise (Exn ValueError "Expecting value")
    end;
  Worker.json_dumps l :=
    if serialisable l then Return (json_text l)
    else Raise (Exn TypeError "Object of type set is not JSON serializable");
  Worker.truthy _ := true;
  Worker.str l := py_text l;
  Worker.get_action_type l := Return (kind l);
  Worker.make_json_action l := Return (denotes l)
}.

(** A launcher screen: every element has a text and a description. *)
Inductive LauncherEnv := launcher_env.

Definition launcher_elements : list UIElement :=
  [ {| text := Some "Phone"; content_description := Some "Dialer"; class_name := "Icon" |};
    {| text := Some "All Apps"; content_description := Some "Drawer"; class_name := "Icon" |} ].

#[global] Instance launcher_android_env : AndroidEnv LauncherEnv := {
  get_state e := (e, Return launcher_elements);
  execute_action e _ := (e, Return tt)
}.

Definition launcher_aci : ACI LauncherEnv :=
  {| env := launcher_env; notes := []; env_calls := [] |}.

Definition blank_observation : Worker.Observation :=
  {| Worker.current_activity := None; Worker.ui_elements := mock_elements;
     Worker.screenshot := None |}.

Definition mock_prompts : Worker.Prompts :=
  {| Worker.worker_prompt := "worker"; Worker.reflection_prompt := "reflect";
     Worker.element_finding_prompt := "find" |}.

(** A worker on the mock environment, before and after the [reset] that
    ends [__init__]. *)
Definition raw_worker : Worker.t MockAndroidEnv :=
    {| Worker.grounding_agent := mock_aci;
       Worker.prompts := mock_prompts;
       Worker.enable_reflection := true;
       Worker.use_subtask_experience := true;
       Worker.generator_agent := Worker._create_agent "";
       Worker.reflection_agent := Worker._create_agent "";
       Worker.element_finding_agent := Worker._create_agent "";
       Worker.turn_count := 0;
       Worker.worker_history := [];
       Worker.reflections := [];
       Worker.screenshot_inputs := [];
       Worker.planner_history := [];
       Worker.max_trajector_length := 8;
       Worker._previous_activity := None;
       Worker._previous_ui_elements := [] |}.

Definition fresh_worker : Worker.t MockAndroidEnv :=
  Worker.reset raw_worker.

(** The worker after the given oracle replies, one call each. *)
Definition after_plans (plans : list string) : Worker.t MockAndroidEnv :=
  foldl (λ w plan, fst (Worker.generate_next_action (Obj := Literal) w
                          {| Worker.instruction := "open settings";
                             Worker.search_query := "";
                             Worker.subtask := "Open Settings";
                             Worker.subtask_info := "Open the Settings app";
                             Worker.future_tasks := [];
                             Worker.done_task := [];
                             Worker.obs := blank_observation;
                             Worker.system_text := "system";
                             Worker.reflection_system_text := "reflect on the subtask";
                             Worker.reflection_text := "previous plan";
                             Worker.generator_text := "what next?";
                             Worker.reflection_reply := "keep going";
                             Worker.plan_reply := plan;
                             Worker.tokens := (0, 0) |}))
    fresh_worker plans.

(** A call of the executor on the subtask "Open Settings" with the given
    oracle reply. *)
Definition turn_with (plan : string) : Worker.Turn :=
  {| Worker.instruction := "open settings";
     Worker.search_query := "";
     Worker.subtask := "Open Settings";
     Worker.subtask_info := "Open the Settings app";
     Worker.future_tasks := [];
     Worker.done_task := [];
     Worker.obs := blank_observation;
     Worker.system_text := "system";
     Worker.reflection_system_text := "reflect on the subtask";
     Worker.reflection_text := "previous plan";
     Worker.generator_text := "what next?";
     Worker.reflection_reply := "keep going";
     Worker.plan_reply := plan;
     Worker.tokens := (0, 0) |}.

Definition open_settings : AgentS.Node :=
  {| AgentS.name := "Open Settings"; AgentS.info := "Open the Settings app" |}.

Definition enable_wifi : AgentS.Node :=
  {| AgentS.name := "Enable Wi-Fi"; AgentS.info := "Turn the Wi-Fi switch on" |}.

(** An iteration's replies: the plan, the executor's action list and the
    verifier's text. *)
Definition replies (plan : list AgentS.Node) (acts : list action) (verdict : string)
  : AgentS.Replies :=
  {| AgentS.planner_reply := (∅, plan);
     AgentS.executor_reply := Return (∅, acts);
     AgentS.verifier_reply := verdict |}.

(** A library for which every action text denotes one object: typing
    "wifi" into the element of index 1. *)
Inductive TypedText := typed_text.

Definition typed_text_action : JSONAction :=
  {| action_type := INPUT_TEXT; index := Some 1; action_text := Some "wifi" |}.

#[global] Instance typing_lib : Worker.PyLib TypedText := {
  Worker.literal_eval _ := Return typed_text;
  Worker.json_loads _ := Return typed_text;
  Worker.json_dumps _ := Return "{'action_type': 'input_text', 'text': 'wifi', 'index': 1}";
  Worker.truthy _ := true;
  Worker.str _ := "{'action_type': 'input_text', 'text': 'wifi', 'index': 1}";
  Worker.get_action_type _ := Return (Some "input_text");
  Worker.make_json_action _ := Return typed_text_action
}.

(** An environment that shows the mock screen and refuses every action. *)
Inductive LockedEnv := locked_env.

#[global] Instance locked_android_env : AndroidEnv LockedEnv := {
  get_state e := (e, Return mock_elements);
  execute_action e _ := (e, Raise (Exn (OtherException "RuntimeError") "device is locked"))
}.

(** A worker on the locked environment, before and after the [reset]
    that ends [__init__]. *)
Definition raw_locked_worker : Worker.t LockedEnv :=
    {| Worker.grounding_agent := {| env := locked_env; notes := []; env_calls := [] |};
       Worker.prompts := mock_prompts;
       Worker.enable_reflection := true;
       Worker.use_subtask_experience := true;
       Worker.generator_agent := Worker._create_agent "";
       Worker.reflection_agent := Worker._create_agent "";
       Worker.element_finding_agent := Worker._create_agent "";
       Worker.turn_count := 0;
       Worker.worker_history := [];
       Worker.reflections := [];
       Worker.screenshot_inputs := [];
       Worker.planner_history := [];
       Worker.max_trajector_length := 8;
       Worker._previous_activity := None;
       Worker._previous_ui_elements := [] |}.

Definition locked_worker : Worker.t LockedEnv :=
  Worker.reset raw_locked_worker.

(** An oracle reply that asks to type "wifi" into the element of index 1. *)
Definition typing_plan : string :=
  "Reason: the search box is open. Action: "
    +:+ "{'action_type': 'input_text', 'text': 'wifi', 'index': 1}".

End Doubles.

(* ===================================================================== *)
(** * Properties *)
(* ===================================================================== *)

(** ** Strings *)

Lemma contains_prefix sub s : String.prefix sub s = true → PyStr.contains sub s = true.
Proof. intros Hp. destruct s; cbn [PyStr.contains]; rewrite Hp; reflexivity. Qed.

Lemma prefix_append a b : String.prefix a (a +:+ b) = true.
Proof.
  induction a as [|c a IH]; simpl.
  - destruct b; reflexivity.
  - destruct (Ascii.ascii_dec c c) as [_|Hn]; [exact IH | congruence].
Qed.



Example contains_middle : PyStr.contains "FAIL" "it may FAIL later" = true.
Proof. reflexivity. Qed.

Example split_head_first :
  PyStr.split_head "--" "head--mid--tail" = "head".
Proof. reflexivity. Qed.

Example strip_both_sides : PyStr.strip "  tap it
 " = "tap it".
Proof. reflexivity. Qed.

Example upper_ascii : PyStr.upper "Result: pass" = "RESULT: PASS".
Proof. reflexivity. Qed.

(** ** The verifier *)

Example parse_pass :
  Verifier._parse_verification_response "verification_result: pass
REASONING: settings opened " = (true, "REASONING: settings opened").
Proof. reflexivity. Qed.

Example parse_fail :
  fst (Verifier._parse_verification_response "VERIFICATION_RESULT: FAIL") = false.
Proof. reflexivity. Qed.

(** C5.  When the verifier's oracle answers with a text that holds neither
    the PASS nor the FAIL verification-result marker (the markers are
    looked for in the upper-cased text), [verify_execution] returns, as a
    value and not as an exception, a verdict whose [is_success] is true,
    and logs that verdict. *)
Theorem verify_execution_unparsed_is_pass
    (v : Verifier.t) (goal response : string) :
  PyStr.contains "VERIFICATION_RESULT: PASS" (PyStr.upper response) = false →
  PyStr.contains "VERIFICATION_RESULT: FAIL" (PyStr.upper response) = false →
  fst (Verifier._parse_verification_response response) = true ∧
  ∃ reasoning vi,
    Verifier.verify_execution v goal response
    = ({| Verifier.verification_history := Verifier.verification_history v ++ [vi] |},
       (true, reasoning, vi))
    ∧ Verifier.is_success vi = true.
Proof.
  intros Hpass Hfail.
  unfold Verifier.verify_execution, Verifier._parse_verification_response.
  rewrite Hpass, Hfail. simpl. split; [reflexivity|].
  eexists _, _. split; reflexivity.
Qed.

Lemma verify_execution_unparsed_is_pass_witness :
  fst (Verifier._parse_verification_response "The screen looks right to me.") = true ∧
  ∃ reasoning vi,
    Verifier.verify_execution {| Verifier.verification_history := [] |}
      "Open Settings: Open the Settings app" "The screen looks right to me."
    = ({| Verifier.verification_history := [] ++ [vi] |}, (true, reasoning, vi))
    ∧ Verifier.is_success vi = true.
Proof.
  apply (verify_execution_unparsed_is_pass {| Verifier.verification_history := [] |});
    reflexivity.
Defined.

(** ** The memory journals *)

Section Journals.
Import Memory.

Lemma insert_if_absent_lookup key summary (kb : gmap string string) :
  insert_if_absent key summary kb !! key = Some (default summary (kb !! key)).
Proof.
  unfold insert_if_absent. destruct (kb !! key) as [old|] eqn:Hk; simpl.
  - exact Hk.
  - apply lookup_insert_eq.
Qed.

Lemma insert_if_absent_present key summary old (kb : gmap string string) :
  kb !! key = Some old → insert_if_absent key summary kb = kb.
Proof. intros Hk. unfold insert_if_absent. rewrite Hk. reflexivity. Qed.

Lemma insert_if_absent_other key key' summary (kb : gmap string string) :
  key ≠ key' → insert_if_absent key summary kb !! key' = kb !! key'.
Proof.
  intros Hne. unfold insert_if_absent.
  destruct (kb !! key); [reflexivity|]. apply lookup_insert_ne, Hne.
Qed.

Lemma episodic_files sq file meta traj summary :
  files_entry meta traj = true →
  fst (update_episodic_memory sq file meta traj summary)
  = Some (insert_if_absent (subtask_key traj) summary (load file)).
Proof.
  unfold files_entry, update_episodic_memory.
  intros [Hst Htr]%andb_prop. rewrite Hst, Htr. reflexivity.
Qed.

(** C4.  Both journals keep the first summary written under a key.  In
    any journal state: a key that is present keeps its summary when a
    summary is written under it again; after writing [A] and then [B]
    under one key the summary read back is the one read after the first
    write; and on a key that was absent that summary is [A].  The
    narrative journal is keyed by the search query, the episodic one by
    the header of the subtask trajectory. *)
Theorem journals_first_write_wins
    (file : journal_file) (q sq1 sq2 A B : string)
    (m1 m2 : MetaData) (t1 t2 : string) :
  files_entry m1 t1 = true →
  files_entry m2 t2 = true →
  subtask_key t2 = subtask_key t1 →
  let narr1 := update_narrative_memory q file A in
  let narr2 := update_narrative_memory q narr1 B in
  let epi1 := fst (update_episodic_memory sq1 file m1 t1 A) in
  let epi2 := fst (update_episodic_memory sq2 epi1 m2 t2 B) in
  (∀ old, read_back file q = Some old → load narr1 = load file) ∧
  (∀ old, read_back file (subtask_key t1) = Some old → load epi1 = load file) ∧
  read_back narr2 q = read_back narr1 q ∧
  read_back epi2 (subtask_key t1) = read_back epi1 (subtask_key t1) ∧
  (read_back file q = None → read_back narr2 q = Some A) ∧
  (read_back file (subtask_key t1) = None → read_back epi2 (subtask_key t1) = Some A).
Proof.
  intros H1 H2 Hkey narr1 narr2 epi1 epi2.
  assert (He1 : epi1 = Some (insert_if_absent (subtask_key t1) A (load file)))
    by (apply episodic_files, H1).
  assert (He2 : epi2 = Some (insert_if_absent (subtask_key t1) B (load epi1)))
    by (unfold epi2; rewrite (episodic_files _ _ _ _ _ H2), Hkey; reflexivity).
  assert (Hn1 : read_back narr1 q = Some (default A (read_back file q)))
    by apply insert_if_absent_lookup.
  assert (Hp1 : read_back epi1 (subtask_key t1)
                = Some (default A (read_back file (subtask_key t1))))
    by (rewrite He1; apply insert_if_absent_lookup).
  assert (Hn2 : read_back narr2 q = read_back narr1 q).
  { transitivity (Some (default B (read_back narr1 q)));
      [apply insert_if_absent_lookup | rewrite Hn1; reflexivity]. }
  assert (Hp2 : read_back epi2 (subtask_key t1) = read_back epi1 (subtask_key t1)).
  { transitivity (Some (default B (read_back epi1 (subtask_key t1))));
      [rewrite He2; apply insert_if_absent_lookup | rewrite Hp1; reflexivity]. }
  repeat split.
  - intros old Hold. apply (insert_if_absent_present _ _ old), Hold.
  - intros old Hold. rewrite He1. apply (insert_if_absent_present _ _ old), Hold.
  - exact Hn2.
  - exact Hp2.
  - intros Hnone. rewrite Hn2, Hn1, Hnone. reflexivity.
  - intros Hnone. rewrite Hp2, Hp1, Hnone. reflexivity.
Qed.

End Journals.

(** ** The index-targeted operations of the actuator *)

Section ByIndex.
Import Py Grounding.
Context {E : Type} `{AndroidEnv E}.




End ByIndex.


Example click_in_range_executes :
  Grounding.click_by_index Grounding.mock_aci 1
  = ({| Grounding.env := Grounding.mock_env; Grounding.notes := [];
        Grounding.env_calls :=
          [Grounding.GetState;
           Grounding.ExecuteAction
             {| Grounding.action_type := "click"; Grounding.index := Some 1;
                Grounding.action_text := None |}] |},
     "SUCCESS: Clicked element at index 1").
Proof. reflexivity. Qed.

Example click_below_range :
  snd (Grounding.click_by_index Grounding.mock_aci (-1))
  = "FAIL: Index -1 out of range (0-2)".
Proof. reflexivity. Qed.

(** ** The executor's conversations *)

Section Conversations.
Import Py Grounding Worker.
Context {E : Type} `{AndroidEnv E} {Obj : Type} `{PyLib Obj}.

Lemma delete_1_length {A} (l : list A) :
  (length (delete 1%nat l) ≤ length l)%nat
  ∧ ((2 ≤ length l)%nat → length (delete 1%nat l) = (length l - 1)%nat).
Proof. destruct l as [|x [|y l]]; simpl; lia. Qed.

Lemma delete_1_twice {A} (l : list A) :
  delete 1%nat (delete 1%nat l) = take 1 l ++ drop 3 l.
Proof. destruct l as [|x [|y [|z l]]]; reflexivity. Qed.

Lemma delete_1_once {A} (l : list A) :
  delete 1%nat l = take 1 l ++ drop 2 l.
Proof. destruct l as [|x [|y l]]; reflexivity. Qed.

Lemma add_system_prompt_length p a :
  length (messages (add_system_prompt p a)) = Nat.max 1 (length (messages a)).
Proof. unfold add_system_prompt. destruct (messages a); simpl; lia. Qed.

Lemma add_message_length txt who a :
  length (messages (add_message txt who a)) = S (length (messages a)).
Proof. unfold add_message. simpl. rewrite length_app. simpl. lia. Qed.

Lemma flush_generator_bound m g :
  0 ≤ m →
  Z.of_nat (length (messages g)) ≤ 2 * m + 3 →
  Z.of_nat (length (messages (flush_generator m g))) ≤ 2 * m + 1.
Proof.
  intros Hm Hlen. unfold flush_generator.
  destruct (Z.gtb_spec (Z.of_nat (length (messages g))) (2 * m + 1)) as [Hgt|Hle];
    [|exact Hle].
  unfold remove_message_at. simpl.
  destruct (delete_1_length (messages g)) as [_ Hd1].
  destruct (delete_1_length (delete 1%nat (messages g))) as [Hd2 Hd3].
  destruct (decide (2 ≤ length (delete 1%nat (messages g)))%nat); lia.
Qed.

Lemma flush_reflection_bound m r :
  0 ≤ m →
  Z.of_nat (length (messages r)) ≤ m + 2 →
  Z.of_nat (length (messages (flush_reflection m r))) ≤ m + 1.
Proof.
  intros Hm Hlen. unfold flush_reflection.
  destruct (Z.gtb_spec (Z.of_nat (length (messages r))) (m + 1)) as [Hgt|Hle];
    [|exact Hle].
  unfold remove_message_at. simpl.
  destruct (delete_1_length (messages r)) as [_ Hd1]. lia.
Qed.

Lemma converse_length (w : t E) k :
  length (messages (converse w k))
  = (2 + (if (turn_count w =? 0)%Z then Nat.max 1 (length (messages (generator_agent w)))
          else length (messages (generator_agent w))))%nat.
Proof.
  unfold converse. rewrite !add_message_length.
  destruct (turn_count w =? 0); [rewrite add_system_prompt_length|]; reflexivity.
Qed.

Lemma reflect_length (w : t E) k :
  (length (messages (fst (reflect w k)))
   ≤ 1 + Nat.max 1 (length (messages (reflection_agent w))))%nat.
Proof.
  unfold reflect.
  destruct (enable_reflection w); [destruct (turn_count w =? 0)|]; cbn [fst];
    rewrite ?add_message_length, ?add_system_prompt_length; lia.
Qed.

Lemma counts_plans_has_last_plan (w : t E) :
  counts_plans w → last_plan_missing w = false.
Proof.
  unfold counts_plans, last_plan_missing. intros Hcount.
  destruct (enable_reflection w); [|reflexivity].
  destruct (planner_history w) as [|p ps]; simpl in *.
  - rewrite Hcount. reflexivity.
  - rewrite andb_false_r. reflexivity.
Qed.

(** What a call leaves in the fields the bound is about. *)
Lemma generate_next_action_conversations (w : t E) k :
  counts_plans w →
  let w' := fst (generate_next_action w k) in
  generator_agent w' = flush_generator (max_trajector_length w) (converse w k)
  ∧ reflection_agent w' = flush_reflection (max_trajector_length w) (fst (reflect w k))
  ∧ max_trajector_length w' = max_trajector_length w
  ∧ counts_plans w'.
Proof.
  intros Hcount. unfold generate_next_action.
  rewrite (counts_plans_has_last_plan w Hcount).
  destruct (reflect w k) as [refl reflection].
  assert (Hnext : turn_count w + 1
                  = Z.of_nat (length (planner_history w ++ [plan_reply k]))).
  { rewrite length_app. simpl. unfold counts_plans in Hcount. lia. }
  destruct (parse_reason_action_output (plan_reply k)) as [[reason action]|e].
  - destruct (execute_parsed (grounding_agent w) reason action) as [g code].
    simpl. auto.
  - simpl. auto.
Qed.

Lemma reset_within_window (w : t E) : within_window (reset w) ∧ counts_plans (reset w).
Proof. unfold within_window, counts_plans, reset. simpl. lia. Qed.

Lemma turn_within_window (w : t E) k :
  within_window w ∧ counts_plans w →
  within_window (fst (generate_next_action w k))
  ∧ counts_plans (fst (generate_next_action w k)).
Proof.
  intros [(Hm & Hg & Hr) Hcount].
  destruct (generate_next_action_conversations w k Hcount) as (Eg & Er & Em & Ec).
  split; [|exact Ec].
  unfold within_window. rewrite Eg, Er, Em. split; [exact Hm|]. split.
  - apply flush_generator_bound; [lia|]. rewrite converse_length.
    destruct (turn_count w =? 0); lia.
  - apply flush_reflection_bound; [lia|].
    pose proof (reflect_length w k). lia.
Qed.

Lemma reachable_within_window (w0 w : t E) :
  reachable w0 w → within_window w ∧ counts_plans w.
Proof.
  induction 1 as [|w k _ IH|w _ _].
  - apply reset_within_window.
  - apply turn_within_window, IH.
  - apply reset_within_window.
Qed.

(** C9.  From any state the worker can be in, a call of
    [generate_next_action] (whatever the observation and the oracle's
    replies, and whether it returns or raises) leaves at most
    [2 * max_trajector_length + 1] turns in the generator conversation and
    at most [max_trajector_length + 1] in the reflection conversation.
    The flush that ends the call leaves the conversation as it is, or
    takes out the oldest turns after the system turn (two for the
    generator, one for the reflection agent) and keeps the others in
    order. *)
Theorem conversations_stay_bounded (w0 w : t E) (k : Turn) :
  reachable w0 w →
  let w' := fst (generate_next_action w k) in
  let gen := messages (converse w k) in
  let refl := messages (fst (reflect w k)) in
  Z.of_nat (length (messages (generator_agent w'))) ≤ 2 * max_trajector_length w' + 1
  ∧ Z.of_nat (length (messages (reflection_agent w'))) ≤ max_trajector_length w' + 1
  ∧ messages (generator_agent w')
    = (if Z.of_nat (length gen) >? 2 * max_trajector_length w + 1
       then evict_oldest 2 gen else gen)
  ∧ messages (reflection_agent w')
    = (if Z.of_nat (length refl) >? max_trajector_length w + 1
       then evict_oldest 1 refl else refl).
Proof.
  intros Hreach w' gen refl.
  pose proof (reachable_within_window _ _ Hreach) as Hinv.
  destruct (turn_within_window w k Hinv) as [(_ & Hg & Hr) _].
  destruct (generate_next_action_conversations w k (proj2 Hinv)) as (Eg & Er & _).
  split; [exact Hg|]. split; [exact Hr|]. split.
  - fold w' in Eg. rewrite Eg. unfold flush_generator. fold gen.
    destruct (Z.of_nat (length gen) >? 2 * max_trajector_length w + 1); [|reflexivity].
    apply delete_1_twice.
  - fold w' in Er. rewrite Er. unfold flush_reflection. fold refl.
    destruct (Z.of_nat (length refl) >? max_trajector_length w + 1); [|reflexivity].
    apply delete_1_once.
Qed.

End Conversations.

Lemma conversations_stay_bounded_witness :
  Worker.reachable (Obj := Doubles.Literal) Doubles.raw_worker Doubles.fresh_worker
  ∧ (let k := Doubles.turn_with "Reason: nothing to do yet
Action: {'action_type': 'wait'}" in
     let w' := fst (Worker.generate_next_action (Obj := Doubles.Literal)
                      Doubles.fresh_worker k) in
     let gen := Worker.messages (Worker.converse Doubles.fresh_worker k) in
     let refl := Worker.messages (fst (Worker.reflect Doubles.fresh_worker k)) in
     Z.of_nat (length (Worker.messages (Worker.generator_agent w')))
       ≤ 2 * Worker.max_trajector_length w' + 1
     ∧ Z.of_nat (length (Worker.messages (Worker.reflection_agent w')))
       ≤ Worker.max_trajector_length w' + 1
     ∧ Worker.messages (Worker.generator_agent w')
       = (if Z.of_nat (length gen) >? 2 * Worker.max_trajector_length Doubles.fresh_worker + 1
          then Worker.evict_oldest 2 gen else gen)
     ∧ Worker.messages (Worker.reflection_agent w')
       = (if Z.of_nat (length refl) >? Worker.max_trajector_length Doubles.fresh_worker + 1
          then Worker.evict_oldest 1 refl else refl)).
Proof.
  split.
  - apply Worker.reach_reset.
  - apply (conversations_stay_bounded Doubles.raw_worker Doubles.fresh_worker).
    apply Worker.reach_reset.
Defined.

(** Eight calls fill the window; from the ninth on the oldest exchange is
    dropped at each call and the system turn stays in front. *)
Example window_after_eight_and_ten_calls :
  let plans n := replicate n "Reason: wait
Action: {'action_type': 'wait'}" in
  length (Worker.messages (Worker.generator_agent (Doubles.after_plans (plans 8%nat)))) = 17%nat
  ∧ length (Worker.messages (Worker.generator_agent (Doubles.after_plans (plans 10%nat)))) = 17%nat
  ∧ length (Worker.messages (Worker.reflection_agent (Doubles.after_plans (plans 10%nat)))) = 9%nat
  ∧ Worker.role <$> head (Worker.messages (Worker.generator_agent (Doubles.after_plans (plans 10%nat))))
    = Some "system".
Proof. vm_compute. repeat split. Qed.

(** ** The executor's parsing of the oracle's reply *)

Section Parsing.
Import Py Grounding Worker.
Context {E : Type} `{AndroidEnv E} {Obj : Type} `{PyLib Obj}.

(** What a call returns once the reply has been parsed, in terms of the
    execution step. *)
Lemma generate_next_action_parsed (w : t E) k reason action :
  counts_plans w →
  parse_reason_action_output (plan_reply k) = Return (reason, action) →
  ∃ info,
    snd (generate_next_action w k)
    = Return (info, returned_actions reason action
                      (snd (execute_parsed (grounding_agent w) reason action)))
    ∧ grounding_agent (fst (generate_next_action w k))
      = fst (execute_parsed (grounding_agent w) reason action).
Proof.
  intros Hcount Hparse. unfold generate_next_action.
  rewrite (counts_plans_has_last_plan w Hcount), Hparse.
  destruct (reflect w k) as [refl reflection].
  destruct (execute_parsed (grounding_agent w) reason action) as [g code].
  simpl. eexists. split; reflexivity.
Qed.

Lemma generate_next_action_parse_raises (w : t E) k e :
  counts_plans w →
  parse_reason_action_output (plan_reply k) = Raise e →
  ∃ e', snd (generate_next_action w k) = Raise e' ∧ exn_kind e' = UnboundLocalError.
Proof.
  intros Hcount Hparse. unfold generate_next_action.
  rewrite (counts_plans_has_last_plan w Hcount), Hparse.
  destruct (reflect w k) as [refl reflection]. simpl.
  eexists. split; reflexivity.
Qed.

(** The reply gave no reason, or no action text. *)
Lemma no_reason_or_action (w : t E) k reason action :
  counts_plans w →
  parse_reason_action_output (plan_reply k) = Return (reason, action) →
  opt_truthy reason && opt_truthy action = false →
  (∃ info, snd (generate_next_action w k)
           = Return (info, [AStr "FAIL: Could not parse plan output"]))
  ∧ grounding_agent (fst (generate_next_action w k)) = grounding_agent w.
Proof.
  intros Hcount Hparse Hnone.
  destruct (generate_next_action_parsed w k _ _ Hcount Hparse) as (info & Hres & Hg).
  unfold execute_parsed, returned_actions in *. rewrite Hnone in *. simpl in *.
  split; [exists info; exact Hres | exact Hg].
Qed.

(** The reply gave both, but no object can be read from the action text. *)
Lemma no_json_in_action (w : t E) k reason action :
  counts_plans w →
  parse_reason_action_output (plan_reply k) = Return (reason, action) →
  opt_truthy reason && opt_truthy action = true →
  extract_json (default EmptyString action) = Return None →
  (∃ info, snd (generate_next_action w k)
           = Return (info, [AStr "FAIL: Could not parse JSON action"]))
  ∧ grounding_agent (fst (generate_next_action w k)) = grounding_agent w.
Proof.
  intros Hcount Hparse Hboth Hjson.
  destruct (generate_next_action_parsed w k _ _ Hcount Hparse) as (info & Hres & Hg).
  unfold execute_parsed, returned_actions in *. rewrite Hboth, Hjson in *. simpl in *.
  split; [exists info; exact Hres | exact Hg].
Qed.

(** C6, as the code has it.  In any state the worker can be in: when the
    parse of the oracle's reply returns
    without both a non-empty reasoning string and a non-empty action
    text, [generate_next_action] returns (it does not raise) the single
    action ["FAIL: Could not parse plan output"]; when both are there but
    no object can be read from the action text, it returns the single
    action ["FAIL: Could not parse JSON action"].  In both cases the action
    carries the failure mark, is not a wait action, and nothing is asked
    of the environment. *)
Theorem unparsed_reply_is_failure_marked (w0 w : t E) (k : Turn)
    (reason action : option string) :
  reachable w0 w →
  parse_reason_action_output (plan_reply k) = Return (reason, action) →
  opt_truthy reason && opt_truthy action = false
  ∨ extract_json (default EmptyString action) = Return None →
  ∃ info code,
    snd (generate_next_action w k) = Return (info, [AStr code])
    ∧ (code = "FAIL: Could not parse plan output"
       ∨ code = "FAIL: Could not parse JSON action")
    ∧ (opt_truthy reason && opt_truthy action = false
       → code = "FAIL: Could not parse plan output")
    ∧ (opt_truthy reason && opt_truthy action = true
       → code = "FAIL: Could not parse JSON action")
    ∧ PyStr.contains "FAIL" code = true
    ∧ is_wait_action (AStr code) = false
    ∧ grounding_agent (fst (generate_next_action w k)) = grounding_agent w.
Proof.
  intros Hreach Hparse Hcase.
  pose proof (proj2 (reachable_within_window w0 w Hreach)) as Hcount.
  destruct (opt_truthy reason && opt_truthy action) eqn:Hboth.
  - destruct Hcase as [Hcase|Hjson]; [discriminate|].
    destruct (no_json_in_action w k _ _ Hcount Hparse Hboth Hjson) as ((info & Hres) & Hg).
    exists info, "FAIL: Could not parse JSON action".
    repeat split; auto; discriminate.
  - destruct (no_reason_or_action w k _ _ Hcount Hparse Hboth) as ((info & Hres) & Hg).
    exists info, "FAIL: Could not parse plan output".
    repeat split; auto; discriminate.
Qed.

End Parsing.

Lemma unparsed_reply_is_failure_marked_witness :
  let w := Doubles.fresh_worker in
  let k := Doubles.turn_with "Reason: the icon is on screen
Action: tap the Settings icon" in
  Worker.parse_reason_action_output (Obj := Doubles.Literal) (Worker.plan_reply k)
    = Py.Return (Some "the icon is on screen", Some "tap the Settings icon")
  ∧ (Worker.opt_truthy (Some "the icon is on screen")
       && Worker.opt_truthy (Some "tap the Settings icon") = false
     ∨ Worker.extract_json (Obj := Doubles.Literal)
         (default EmptyString (Some "tap the Settings icon")) = Py.Return None)
  ∧ ∃ info code,
      snd (Worker.generate_next_action (Obj := Doubles.Literal) w k)
        = Py.Return (info, [Py.AStr code])
      ∧ (code = "FAIL: Could not parse plan output"
         ∨ code = "FAIL: Could not parse JSON action")
      ∧ (Worker.opt_truthy (Some "the icon is on screen")
           && Worker.opt_truthy (Some "tap the Settings icon") = false
         → code = "FAIL: Could not parse plan output")
      ∧ (Worker.opt_truthy (Some "the icon is on screen")
           && Worker.opt_truthy (Some "tap the Settings icon") = true
         → code = "FAIL: Could not parse JSON action")
      ∧ PyStr.contains "FAIL" code = true
      ∧ Worker.is_wait_action (Py.AStr code) = false
      ∧ Worker.grounding_agent (fst (Worker.generate_next_action (Obj := Doubles.Literal) w k))
        = Worker.grounding_agent w.
Proof.
  intros w k.
  assert (Hp : Worker.parse_reason_action_output (Obj := Doubles.Literal) (Worker.plan_reply k)
               = Py.Return (Some "the icon is on screen", Some "tap the Settings icon"))
    by reflexivity.
  assert (Hj : Worker.opt_truthy (Some "the icon is on screen")
               && Worker.opt_truthy (Some "tap the Settings icon") = false
             ∨ Worker.extract_json (Obj := Doubles.Literal)
                 (default EmptyString (Some "tap the Settings icon")) = Py.Return None)
    by (right; reflexivity).
  split; [exact Hp|]. split; [exact Hj|].
  exact (unparsed_reply_is_failure_marked Doubles.raw_worker w k _ _
           (Worker.reach_reset _) Hp Hj).
Defined.

(** C6 as the specification words it fails: on a reply with neither a
    [Reason:] nor an [Action:] part the executor answers with a failure
    string, not with a wait action. *)
Lemma wait_fallback_counterexample :
  let w := Doubles.fresh_worker in
  let k := Doubles.turn_with "I will tap the Settings icon." in
  Worker.parse_reason_action_output (Obj := Doubles.Literal) (Worker.plan_reply k)
    = Py.Return (None, None)
  ∧ ¬ ∃ info a,
        snd (Worker.generate_next_action (Obj := Doubles.Literal) w k)
          = Py.Return (info, [a])
        ∧ Worker.is_wait_action a = true.
Proof.
  intros w k. split; [reflexivity|].
  intros (info & a & Hres & Hwait).
  destruct (no_reason_or_action (Obj := Doubles.Literal) w k None None
              eq_refl eq_refl eq_refl) as ((info' & Hres') & _).
  rewrite Hres' in Hres. injection Hres as _ Ha. subst a.
  discriminate Hwait.
Qed.

(** The path that does reach [self.grounding_agent.wait(1.0)]: the parse
    raises (here [json.dumps] on a set), the handler waits, and the final
    test of [reason] and [action], which were never bound, raises. *)
Example wait_path_raises :
  let k := Doubles.turn_with "Reason: pick both
Action: {1, 2}" in
  Worker.parse_reason_action_output (Obj := Doubles.Literal) (Worker.plan_reply k)
    = Py.Raise (Py.Exn Py.TypeError "Object of type set is not JSON serializable")
  ∧ ∃ e, snd (Worker.generate_next_action (Obj := Doubles.Literal) Doubles.fresh_worker k)
         = Py.Raise e
         ∧ Py.exn_kind e = Py.UnboundLocalError.
Proof.
  intros k. split; [reflexivity|].
  apply (generate_next_action_parse_raises (Obj := Doubles.Literal) _ k
           (Py.Exn Py.TypeError "Object of type set is not JSON serializable"));
    reflexivity.
Qed.

Example wait_action_is_returned :
  ∃ info,
    snd (Worker.generate_next_action (Obj := Doubles.Literal) Doubles.fresh_worker
           (Doubles.turn_with "Reason: the screen is loading
Action: {'action_type': 'wait'}"))
    = Py.Return (info, [Py.AObj "{'action_type': 'wait'}"]).
Proof. eexists. vm_compute. reflexivity. Qed.

(** ** The orchestrator *)

Section Orchestrator.
Import Py AgentS.

(** An iteration that has a subtask to work on calls the executor on it. *)
Lemma loop_body_executes r s l cur :
  subtask_at_execute r s = Some cur →
  advance_on_empty_queue r s = false
  ∧ ∃ s2 l1 calls2,
      loop_body r s l
      = match executor_reply r with
        | Raise e => Raised s2 e calls2
        | Return (einfo, acts) => judge r s2 l1 cur einfo acts calls2
        end
      ∧ executor_called calls2 = true
      ∧ current_subtask s2 = Some cur
      ∧ subtasks s2 = queue_after_advance r s
      ∧ completed_tasks s2 = completed_tasks s.
Proof.
  unfold subtask_at_execute, advance_on_empty_queue, queue_after_advance,
    queue_at_advance, loop_body, replan, advance.
  cbn [requires_replan needs_next_subtask set_subtask_status].
  destruct (planner_reply r) as [pinfo queue].
  destruct (requires_replan s); cbn -[judge];
    destruct (needs_next_subtask s); cbn -[judge].
  - destruct queue as [|q queue]; cbn -[judge]; intros Hcur; [discriminate|].
    injection Hcur as ->. split; [reflexivity|].
    eexists _, _, _. split; [reflexivity|]. cbn. auto.
  - intros Hcur. rewrite Hcur. split; [reflexivity|].
    eexists _, _, _. split; [reflexivity|]. cbn. auto.
  - destruct (subtasks s) as [|q rest] eqn:Hq; cbn -[judge]; intros Hcur;
      [discriminate|].
    injection Hcur as ->. split; [reflexivity|].
    eexists _, _, _. split; [reflexivity|]. cbn. auto.
  - intros Hcur. rewrite Hcur. split; [reflexivity|].
    eexists _, _, _. split; [reflexivity|]. cbn. auto.
Qed.

(** An iteration that needs a subtask and finds none ends the task. *)
Lemma loop_body_finishes r s l :
  advance_on_empty_queue r s = true →
  ∃ s' l' calls,
    loop_body r s l = Break s' l' calls
    ∧ actions l' = [AStr "DONE"]
    ∧ executor_called calls = false
    ∧ should_send_action s' = true
    ∧ current_subtask s' = current_subtask s
    ∧ completed_tasks s' = completed_tasks (complete_current s)
    ∧ subtask_status s' = "Done".
Proof.
  unfold advance_on_empty_queue, queue_at_advance, loop_body, replan, advance, finish,
    complete_current, ask_replan, reset_executor_state.
  cbn [requires_replan needs_next_subtask set_subtask_status].
  destruct (planner_reply r) as [pinfo queue].
  destruct (requires_replan s); cbn;
    destruct (needs_next_subtask s); cbn; try discriminate.
  - destruct queue as [|q queue]; cbn; intros Hempty; [|discriminate].
    destruct (current_subtask s) eqn:Hc; cbn;
      eexists _, _, _; (split; [reflexivity|]); cbn; rewrite ?Hc; auto 10.
  - destruct (subtasks s) as [|q rest] eqn:Hq; cbn; intros Hempty; [|discriminate].
    destruct (current_subtask s) eqn:Hc; cbn;
      eexists _, _, _; (split; [reflexivity|]); cbn; rewrite ?Hc; auto 10.
Qed.

(** What the verification and the classification make of the executor's
    answer. *)
Lemma judge_next r s l cur einfo acts calls :
  ∃ s' l' calls',
    judge r s l cur einfo acts calls = Next s' l' calls'
    ∧ actions l' = acts
    ∧ subtasks s' = subtasks s
    ∧ current_subtask s' = current_subtask s
    ∧ should_send_action s'
      = (if has_fail acts || has_completion acts
         then negb (nonempty (subtasks s)) else true)
    ∧ completed_tasks s'
      = (if negb (has_fail acts) && has_completion acts
         then completed_tasks (complete_current s) else completed_tasks s)
    ∧ failure_subtask s'
      = (if has_fail acts then current_subtask s
         else if has_completion acts then None
         else if verdict r then failure_subtask s
         else current_subtask s)
    ∧ (has_fail acts = true ∨ verdict r = false →
       requires_replan s' = true ∧ needs_next_subtask s' = true
       ∧ step_count s' = 0
       ∧ verifier s' = {| Verifier.verification_history := [] |}
       ∧ ResetExecutor ∈ calls').
Proof.
  unfold judge, Verifier.verify_execution, verdict.
  destruct (Verifier._parse_verification_response (verifier_reply r)) as [ok why].
  unfold on_verdict, on_action, ask_replan, hold_if_queued, complete_current,
    reset_executor_state.
  destruct ok, (has_fail acts), (has_completion acts); cbn;
    destruct (subtasks s) as [|q queue] eqn:Hq; cbn;
    destruct (current_subtask s) as [c|] eqn:Hc; cbn;
    eexists _, _, _; (split; [reflexivity|]); cbn; rewrite ?Hq, ?Hc;
    do 6 (split; [solve [auto]|]);
    intros Hx;
    first [ destruct Hx as [Hy|Hy]; discriminate Hy
          | clear Hx; repeat split; auto;
            apply elem_of_app; right; repeat constructor ].
Qed.

(** An iteration that has no subtask to work on, though none is asked
    for, fails on [self.current_subtask.name]. *)
Lemma loop_body_without_subtask r s l :
  advance_on_empty_queue r s = false →
  subtask_at_execute r s = None →
  ∃ s2 e calls, loop_body r s l = Raised s2 e calls.
Proof.
  unfold subtask_at_execute, advance_on_empty_queue, queue_at_advance,
    loop_body, replan, advance.
  cbn [requires_replan needs_next_subtask set_subtask_status].
  destruct (planner_reply r) as [pinfo queue].
  destruct (requires_replan s); cbn -[judge];
    destruct (needs_next_subtask s); cbn -[judge].
  - destruct queue as [|q queue]; cbn -[judge]; intros; discriminate.
  - intros _ Hcur. rewrite Hcur. eexists _, _, _. reflexivity.
  - destruct (subtasks s) as [|q rest] eqn:Hq; cbn -[judge]; intros; discriminate.
  - intros _ Hcur. rewrite Hcur. eexists _, _, _. reflexivity.
Qed.

(** What a failure transition leaves behind. *)
Lemma failure_transition_outcome r s l cur :
  failure_transition r s cur →
  ∃ s' l' calls,
    loop_body r s l = Next s' l' calls
    ∧ completed_tasks s' = completed_tasks s
    ∧ failure_subtask s' = Some cur
    ∧ current_subtask s' = Some cur
    ∧ subtasks s' = queue_after_advance r s
    ∧ requires_replan s' = true
    ∧ needs_next_subtask s' = true
    ∧ step_count s' = 0
    ∧ verifier s' = {| Verifier.verification_history := [] |}
    ∧ ResetExecutor ∈ calls
    ∧ ∀ einfo acts,
        executor_reply r = Return (einfo, acts) →
        actions l' = acts
        ∧ should_send_action s'
          = (if has_fail acts || has_completion acts
             then negb (nonempty (queue_after_advance r s)) else true).
Proof.
  intros (Hcur & einfo & acts & Hexec & Hfail).
  destruct (loop_body_executes r s l cur Hcur)
    as (_ & s2 & l1 & calls2 & Hbody & _ & Hc2 & Hq2 & Hd2).
  rewrite Hexec in Hbody.
  destruct (judge_next r s2 l1 cur einfo acts calls2)
    as (s' & l' & calls' & Hjudge & Hacts & Hq & Hc & Hsend & Hdone & Hptr & Hflags).
  exists s', l', calls'. rewrite Hbody, Hjudge.
  destruct Hflags as (Hrr & Hnn & Hsc & Hv & Hre);
    [destruct Hfail as [Hf|[Hv _]]; auto|].
  split; [reflexivity|].
  split.
  { rewrite Hdone, <- Hd2.
    destruct Hfail as [Hf|[_ Hcm]]; [rewrite Hf|rewrite Hcm, andb_false_r]; reflexivity. }
  split.
  { rewrite Hptr, Hc2.
    destruct Hfail as [Hf|[Hv' Hcm]]; [rewrite Hf; reflexivity|].
    rewrite Hcm, Hv'. destruct (has_fail acts); reflexivity. }
  split; [congruence|]. split; [congruence|].
  do 5 (split; [assumption|]).
  intros einfo' acts' Hexec'. rewrite Hexec in Hexec'. injection Hexec' as _ <-.
  split; [exact Hacts|]. rewrite Hsend, Hq2. reflexivity.
Qed.

Lemma predict_loop_sent script s l c0 :
  should_send_action s = true → predict_loop script s l c0 = Exit s l c0.
Proof. intros Hs. destruct script; simpl; rewrite Hs; reflexivity. Qed.

Lemma predict_loop_step r script s l c0 :
  should_send_action s = false →
  predict_loop (r :: script) s l c0
  = match loop_body r s l with
    | Break s' l' c => Exit s' l' (c0 ++ c)
    | Next s' l' c => predict_loop script s' l' (c0 ++ c)
    | Raised s' e c => Failed s' e (c0 ++ c)
    end.
Proof. intros Hs. simpl. rewrite Hs. reflexivity. Qed.


(** C7.  Two failure transitions in a row on one subtask, the second
    starting where the first one ended (in the same call, or in the next
    one, which starts with [should_send_action] false): the completed list
    is what it was before the first failure, so its length is, and the
    failure pointer is that subtask after each of them. *)
Theorem two_failures_keep_completed_and_pointer
    (r1 r2 : Replies) (s : t) (l1 l2 : Locals) (cur : Node) :
  failure_transition r1 s cur →
  failure_transition r2
    (set_should_send_action false (state_after (loop_body r1 s l1))) cur →
  let s1 := state_after (loop_body r1 s l1) in
  let s2 := state_after (loop_body r2 (set_should_send_action false s1) l2) in
  completed_tasks s2 = completed_tasks s
  ∧ length (completed_tasks s2) = length (completed_tasks s)
  ∧ failure_subtask s1 = Some cur
  ∧ failure_subtask s2 = Some cur.
Proof.
  intros Hf1 Hf2 s1 s2.
  destruct (failure_transition_outcome r1 s l1 cur Hf1)
    as (t1 & k1 & c1 & Hb1 & Hd1 & Hp1 & _).
  destruct (failure_transition_outcome r2 (set_should_send_action false s1) l2 cur Hf2)
    as (t2 & k2 & c2 & Hb2 & Hd2 & Hp2 & _).
  unfold s2. rewrite Hb2. simpl. unfold s1 in *. rewrite Hb1 in *. simpl in *.
  rewrite Hd2, Hd1. auto.
Qed.

(** How the loop of a call that returns was left: by the iteration
    [final_iteration] names, through its [break] or through a
    [should_send_action] it set. *)
Lemma predict_loop_final script :
  ∀ s l c0 s' l' calls,
    should_send_action s = false →
    predict_loop script s l c0 = Exit s' l' calls →
    ∃ r sk lk,
      final_iteration script s l = Some (r, sk, lk)
      ∧ should_send_action sk = false
      ∧ ((∃ c, loop_body r sk lk = Break s' l' c)
         ∨ (∃ c, loop_body r sk lk = Next s' l' c ∧ should_send_action s' = true)).
Proof.
  induction script as [|r script IH]; intros s l c0 s' l' calls Hs Hexit.
  - simpl in Hexit. rewrite Hs in Hexit. discriminate.
  - rewrite (predict_loop_step _ _ _ _ _ Hs) in Hexit. simpl. rewrite Hs.
    destruct (loop_body r s l) as [sb lb cb|sn ln cn|sr e cr] eqn:Hbody;
      [| |discriminate].
    + injection Hexit as <- <- _. exists r, s, l. eauto.
    + destruct (should_send_action sn) eqn:Hsn.
      * rewrite (predict_loop_sent _ _ _ _ Hsn) in Hexit.
        injection Hexit as <- <- _. exists r, s, l. eauto 10.
      * apply (IH _ _ _ _ _ _ Hsn Hexit).
Qed.

Example done_string_markers :
  has_fail [AStr "DONE"] = false ∧ has_completion [AStr "DONE"] = true.
Proof. split; reflexivity. Qed.

(** The action list of the iteration that ends the loop is [["DONE"]] in
    two cases only. *)
Lemma final_iteration_done_iff r s l s' l' :
  (∃ c, loop_body r s l = Break s' l' c)
  ∨ (∃ c, loop_body r s l = Next s' l' c ∧ should_send_action s' = true) →
  actions l' = [AStr "DONE"]
  ↔ advance_on_empty_queue r s = true
    ∨ ((∃ einfo, executor_reply r = Return (einfo, [AStr "DONE"]))
       ∧ queue_after_advance r s = []).
Proof.
  intros Hleft.
  destruct (advance_on_empty_queue r s) eqn:Hadv.
  - destruct (loop_body_finishes r s l Hadv) as (sb & lb & cb & Hbody & Hacts & _).
    rewrite Hbody in Hleft.
    destruct Hleft as [[c Hb]|[c [Hn _]]]; [|discriminate].
    injection Hb as <- <- _. split; auto.
  - destruct (subtask_at_execute r s) as [cur|] eqn:Hcur.
    + destruct (loop_body_executes r s l cur Hcur)
        as (_ & s2 & l1 & calls2 & Hbody & _ & _ & Hq2 & _).
      destruct (executor_reply r) as [[einfo acts]|e] eqn:Hexec.
      * destruct (judge_next r s2 l1 cur einfo acts calls2)
          as (sn & ln & cn & Hjudge & Hacts & _ & _ & Hsend & _).
        rewrite Hbody, Hjudge in Hleft.
        destruct Hleft as [[c Hb]|[c [Hn Hsent]]]; [discriminate|].
        injection Hn as <- <- _. rewrite Hacts. split.
        -- intros ->. right. split; [eauto|].
           rewrite Hsent in Hsend. simpl in Hsend. rewrite <- Hq2.
           destruct (subtasks s2); [reflexivity|discriminate].
        -- intros [Habs|[[einfo' Heq] _]]; [discriminate|].
           injection Heq as _ ->. reflexivity.
      * rewrite Hbody in Hleft.
        destruct Hleft as [[c Hb]|[c [Hn _]]]; discriminate.
    + destruct (loop_body_without_subtask r s l Hadv Hcur) as (s2 & e & c & Hbody).
      rewrite Hbody in Hleft.
      destruct Hleft as [[c' Hb]|[c' [Hn _]]]; discriminate.
Qed.

Lemma predict_returned script s s' info acts calls :
  predict script s = Returned s' info acts calls →
  ∃ sx lx,
    predict_loop script s empty_locals [] = Exit sx lx calls
    ∧ s' = set_should_send_action false sx
    ∧ info = merged_info s' lx
    ∧ acts = actions lx.
Proof.
  unfold predict.
  destruct (predict_loop script s empty_locals []) as [sx lx cx| |]; try discriminate.
  intros Heq. injection Heq as <- <- <- <-. eexists _, _. repeat split.
Qed.

(** C1, as the code has it.  An iteration that needs a next subtask and
    finds the queue empty does not call the executor, sets the action list
    to [["DONE"]] and leaves the loop.  A call that returns, returns
    [["DONE"]] exactly when the iteration that ended its loop either found
    the queue empty in that way, or got [["DONE"]] from the executor with
    no subtask left in the queue. *)
Theorem done_is_returned_iff
    (r0 : Replies) (script0 : list Replies) (s0 : t) (l0 : Locals) (c0 : list Call)
    (script : list Replies) (s s' : t) (info : gmap string val)
    (acts : list action) (calls : list Call) :
  should_send_action s0 = false →
  advance_on_empty_queue r0 s0 = true →
  should_send_action s = false →
  predict script s = Returned s' info acts calls →
  (∃ s1 l1 c1,
     loop_body r0 s0 l0 = Break s1 l1 c1
     ∧ predict_loop (r0 :: script0) s0 l0 c0 = Exit s1 l1 (c0 ++ c1)
     ∧ actions l1 = [AStr "DONE"]
     ∧ executor_called c1 = false)
  ∧ (∃ r sk lk,
       final_iteration script s empty_locals = Some (r, sk, lk)
       ∧ (acts = [AStr "DONE"]
          ↔ advance_on_empty_queue r sk = true
            ∨ ((∃ einfo, executor_reply r = Return (einfo, [AStr "DONE"]))
               ∧ queue_after_advance r sk = []))).
Proof.
  intros Hs0 Hadv Hs Hret. split.
  - destruct (loop_body_finishes r0 s0 l0 Hadv) as (s1 & l1 & c1 & Hbody & Hacts & Hex & _).
    exists s1, l1, c1. rewrite (predict_loop_step _ _ _ _ _ Hs0), Hbody. auto.
  - destruct (predict_returned _ _ _ _ _ _ Hret) as (sx & lx & Hloop & _ & _ & ->).
    destruct (predict_loop_final _ _ _ _ _ _ _ Hs Hloop) as (r & sk & lk & Hfin & _ & Hleft).
    exists r, sk, lk. split; [exact Hfin|].
    apply (final_iteration_done_iff r sk lk sx lx Hleft).
Qed.

(** C10.  A call whose first iteration needs a next subtask, has no
    current subtask and finds the queue empty returns the action list
    [["DONE"]] and an info dictionary whose [subtask] entry is ["None"];
    the completed list is as it was and the executor is not called. *)
Theorem done_without_subtask_leaves_completed
    (r : Replies) (script : list Replies) (s : t) :
  should_send_action s = false →
  needs_next_subtask s = true →
  current_subtask s = None →
  queue_at_advance r s = [] →
  ∃ s' info calls,
    predict (r :: script) s = Returned s' info [AStr "DONE"] calls
    ∧ completed_tasks s' = completed_tasks s
    ∧ info !! "subtask" = Some (VStr "None")
    ∧ current_subtask s' = None
    ∧ executor_called calls = false.
Proof.
  intros Hs Hnn Hcur Hq.
  assert (Hadv : advance_on_empty_queue r s = true)
    by (unfold advance_on_empty_queue; rewrite Hnn, Hq; reflexivity).
  destruct (loop_body_finishes r s empty_locals Hadv)
    as (s1 & l1 & c1 & Hbody & Hacts & Hex & _ & Hc1 & Hd1 & _).
  unfold predict. rewrite (predict_loop_step _ _ _ _ _ Hs), Hbody.
  eexists _, _, _. split; [rewrite Hacts; reflexivity|].
  unfold complete_current in Hd1. rewrite Hcur in Hd1, Hc1.
  split; [exact Hd1|]. split; [|split; [exact Hc1 | exact Hex]].
  unfold merged_info. cbn [current_subtask set_should_send_action]. rewrite Hc1.
  rewrite lookup_insert_ne by discriminate.
  rewrite lookup_insert_ne by discriminate.
  apply lookup_insert_eq.
Qed.

End Orchestrator.

(** ** The theorems at concrete inputs *)

Lemma journals_first_write_wins_witness :
  let t1 := "Android Task: open settings" +:+ Memory.PLAN_SEPARATOR +:+ "tap the icon" in
  let t2 := "Android Task: open settings" +:+ Memory.PLAN_SEPARATOR +:+ "open the app drawer" in
  let m := {| Memory.subtask := "Open Settings";
              Memory.subtask_info := "Open the Settings app";
              Memory.subtask_status := "Done";
              Memory.executor_plan := "agent.done()" |} in
  let file : Memory.journal_file := None in
  let q := "open settings" in
  let narr1 := Memory.update_narrative_memory q file "first" in
  let narr2 := Memory.update_narrative_memory q narr1 "second" in
  let epi1 := fst (Memory.update_episodic_memory q file m t1 "first") in
  let epi2 := fst (Memory.update_episodic_memory q epi1 m t2 "second") in
  Memory.files_entry m t1 = true
  ∧ Memory.files_entry m t2 = true
  ∧ Memory.subtask_key t2 = Memory.subtask_key t1
  ∧ (∀ old, Memory.read_back file q = Some old → Memory.load narr1 = Memory.load file)
  ∧ (∀ old, Memory.read_back file (Memory.subtask_key t1) = Some old
            → Memory.load epi1 = Memory.load file)
  ∧ Memory.read_back narr2 q = Memory.read_back narr1 q
  ∧ Memory.read_back epi2 (Memory.subtask_key t1)
    = Memory.read_back epi1 (Memory.subtask_key t1)
  ∧ (Memory.read_back file q = None → Memory.read_back narr2 q = Some "first")
  ∧ (Memory.read_back file (Memory.subtask_key t1) = None
     → Memory.read_back epi2 (Memory.subtask_key t1) = Some "first").
Proof.
  intros t1 t2 m file q narr1 narr2 epi1 epi2.
  assert (H1 : Memory.files_entry m t1 = true) by (vm_compute; reflexivity).
  assert (H2 : Memory.files_entry m t2 = true) by (vm_compute; reflexivity).
  assert (Hk : Memory.subtask_key t2 = Memory.subtask_key t1)
    by (vm_compute; reflexivity).
  split; [exact H1|]. split; [exact H2|]. split; [exact Hk|].
  exact (journals_first_write_wins file q q q "first" "second" m m t1 t2 H1 H2 Hk).
Defined.

Example narrative_round_trip :
  Memory.read_back
    (Memory.update_narrative_memory "open settings"
       (Memory.update_narrative_memory "open settings" None "first") "second")
    "open settings" = Some "first".
Proof. vm_compute. reflexivity. Qed.


Lemma two_failures_keep_completed_and_pointer_witness :
  let r1 := Doubles.replies [Doubles.open_settings; Doubles.enable_wifi]
              [Py.AStr "FAIL: Could not parse plan output"] "VERIFICATION_RESULT: PASS" in
  let r2 := Doubles.replies [Doubles.open_settings; Doubles.enable_wifi]
              [Py.AObj "{'action_type': 'click', 'index': 1}"]
              "VERIFICATION_RESULT: FAIL" in
  let s := AgentS.reset in
  let l := AgentS.empty_locals in
  let s1 := AgentS.state_after (AgentS.loop_body r1 s l) in
  let s2 := AgentS.state_after
              (AgentS.loop_body r2 (AgentS.set_should_send_action false s1) l) in
  AgentS.failure_transition r1 s Doubles.open_settings
  ∧ AgentS.failure_transition r2 (AgentS.set_should_send_action false s1)
      Doubles.open_settings
  ∧ AgentS.completed_tasks s2 = AgentS.completed_tasks s
  ∧ length (AgentS.completed_tasks s2) = length (AgentS.completed_tasks s)
  ∧ AgentS.failure_subtask s1 = Some Doubles.open_settings
  ∧ AgentS.failure_subtask s2 = Some Doubles.open_settings.
Proof.
  intros r1 r2 s l s1 s2.
  assert (H1 : AgentS.failure_transition r1 s Doubles.open_settings).
  { split; [reflexivity|]. eexists _, _. split; [reflexivity|]. left. reflexivity. }
  assert (H2 : AgentS.failure_transition r2 (AgentS.set_should_send_action false s1)
                 Doubles.open_settings).
  { split; [reflexivity|]. eexists _, _. split; [reflexivity|].
    right. split; reflexivity. }
  split; [exact H1|]. split; [exact H2|].
  exact (two_failures_keep_completed_and_pointer r1 r2 s l l Doubles.open_settings H1 H2).
Defined.

Lemma done_without_subtask_leaves_completed_witness :
  let r := Doubles.replies [] [] "" in
  AgentS.should_send_action AgentS.reset = false
  ∧ AgentS.needs_next_subtask AgentS.reset = true
  ∧ AgentS.current_subtask AgentS.reset = None
  ∧ AgentS.queue_at_advance r AgentS.reset = []
  ∧ ∃ s' info calls,
      AgentS.predict (r :: []) AgentS.reset = AgentS.Returned s' info [Py.AStr "DONE"] calls
      ∧ AgentS.completed_tasks s' = AgentS.completed_tasks AgentS.reset
      ∧ info !! "subtask" = Some (Py.VStr "None")
      ∧ AgentS.current_subtask s' = None
      ∧ AgentS.executor_called calls = false.
Proof.
  intros r. do 4 (split; [reflexivity|]).
  exact (done_without_subtask_leaves_completed r [] AgentS.reset
           eq_refl eq_refl eq_refl eq_refl).
Defined.

Lemma done_is_returned_iff_witness :
  let r := Doubles.replies [] [] "" in
  let s := AgentS.reset in
  AgentS.should_send_action s = false
  ∧ AgentS.advance_on_empty_queue r s = true
  ∧ ∃ s' info calls,
      AgentS.predict [r] s = AgentS.Returned s' info [Py.AStr "DONE"] calls
      ∧ (∃ s1 l1 c1,
           AgentS.loop_body r s AgentS.empty_locals = AgentS.Break s1 l1 c1
           ∧ AgentS.predict_loop (r :: []) s AgentS.empty_locals [] = AgentS.Exit s1 l1 ([] ++ c1)
           ∧ AgentS.actions l1 = [Py.AStr "DONE"]
           ∧ AgentS.executor_called c1 = false)
      ∧ (∃ r' sk lk,
           AgentS.final_iteration [r] s AgentS.empty_locals = Some (r', sk, lk)
           ∧ ([Py.AStr "DONE"] = [Py.AStr "DONE"]
              ↔ AgentS.advance_on_empty_queue r' sk = true
                ∨ ((∃ einfo, AgentS.executor_reply r' = Py.Return (einfo, [Py.AStr "DONE"]))
                   ∧ AgentS.queue_after_advance r' sk = []))).
Proof.
  intros r s. split; [reflexivity|]. split; [reflexivity|].
  eexists _, _, _. split; [reflexivity|].
  exact (done_is_returned_iff r [] s AgentS.empty_locals [] [r] s _ _ _ _
           eq_refl eq_refl eq_refl eq_refl).
Defined.

(** C1 as the specification words it fails in the "only if" direction:
    with one subtask planned, an executor that answers [["DONE"]] and a
    passing verdict, the call returns [["DONE"]] although its only
    iteration found a subtask in the queue and called the executor. *)
Lemma done_without_empty_queue_counterexample :
  let r := Doubles.replies [Doubles.open_settings] [Py.AStr "DONE"]
             "VERIFICATION_RESULT: PASS" in
  AgentS.actions_of (AgentS.predict [r] AgentS.reset) = Some [Py.AStr "DONE"]
  ∧ AgentS.executor_called <$> AgentS.calls_of (AgentS.predict [r] AgentS.reset) = Some true
  ∧ AgentS.final_iteration [r] AgentS.reset AgentS.empty_locals
    = Some (r, AgentS.reset, AgentS.empty_locals)
  ∧ AgentS.queue_at_advance r AgentS.reset = [Doubles.open_settings]
  ∧ AgentS.advance_on_empty_queue r AgentS.reset = false.
Proof. vm_compute. repeat split. Qed.

(** C2 at a concrete input.  Two subtasks are planned; the executor
    answers with a click, the verifier with a failure.  The iteration sets
    the replan flags and the failure pointer, and then returns the click to
    the caller although a subtask is still queued: the
    [self.should_send_action = True] that follows the verification
    overrides the [False] set just before. *)
Theorem verifier_failure_action_surfaces :
  let click := Py.AObj "{'action_type': 'click', 'index': 1}" in
  let r := Doubles.replies [Doubles.open_settings; Doubles.enable_wifi] [click]
             "VERIFICATION_RESULT: FAIL
REASONING: the wrong screen is open" in
  let res := AgentS.predict [r] AgentS.reset in
  AgentS.verdict r = false
  ∧ AgentS.queue_after_advance r AgentS.reset = [Doubles.enable_wifi]
  ∧ AgentS.actions_of res = Some [click]
  ∧ AgentS.subtasks <$> AgentS.state_of res = Some [Doubles.enable_wifi]
  ∧ AgentS.requires_replan <$> AgentS.state_of res = Some true
  ∧ AgentS.needs_next_subtask <$> AgentS.state_of res = Some true
  ∧ AgentS.failure_subtask <$> AgentS.state_of res = Some (Some Doubles.open_settings)
  ∧ (AgentS.info_of res ≫= λ info, info !! "verification_success")
    = Some (Py.VBool false).
Proof. vm_compute. repeat split. Qed.

(** The same for any iteration: a failed verdict on an action that
    carries neither marker ends the iteration with [should_send_action]
    true, whatever is left in the queue. *)
Lemma failed_verdict_is_sent r s l cur einfo acts :
  AgentS.subtask_at_execute r s = Some cur →
  AgentS.executor_reply r = Py.Return (einfo, acts) →
  AgentS.verdict r = false →
  AgentS.has_fail acts = false →
  AgentS.has_completion acts = false →
  ∃ s' l' calls,
    AgentS.loop_body r s l = AgentS.Next s' l' calls
    ∧ AgentS.should_send_action s' = true
    ∧ AgentS.actions l' = acts
    ∧ AgentS.subtasks s' = AgentS.queue_after_advance r s.
Proof.
  intros Hcur Hexec Hv Hf Hc.
  destruct (failure_transition_outcome r s l cur) as
    (s' & l' & calls & Hbody & _ & _ & _ & Hq & _ & _ & _ & _ & _ & Hact).
  { split; [exact Hcur|]. exists einfo, acts. auto. }
  destruct (Hact _ _ Hexec) as [Ha Hsend]. rewrite Hf, Hc in Hsend.
  exists s', l', calls. auto.
Qed.

(** The plain round: one subtask planned, an action without marker, a
    passing verdict.  The action goes to the caller, no [DONE] is emitted,
    and the subtask stays current for the next call. *)
Example plain_action_is_sent :
  let tap := Py.AObj "{'action_type': 'open_app', 'app_name': 'Settings'}" in
  let r := Doubles.replies [Doubles.open_settings] [tap] "VERIFICATION_RESULT: PASS" in
  let res := AgentS.predict [r] AgentS.reset in
  AgentS.actions_of res = Some [tap]
  ∧ AgentS.current_subtask <$> AgentS.state_of res = Some (Some Doubles.open_settings)
  ∧ AgentS.needs_next_subtask <$> AgentS.state_of res = Some false
  ∧ AgentS.requires_replan <$> AgentS.state_of res = Some false
  ∧ AgentS.completed_tasks <$> AgentS.state_of res = Some [].
Proof. vm_compute. repeat split. Qed.

(** A [DONE] from the executor with a subtask still queued is held back:
    the loop replans, takes the next subtask and sends its action. *)
Example done_is_held_while_queued :
  let tap := Py.AObj "{'action_type': 'click', 'index': 1}" in
  let r1 := Doubles.replies [Doubles.open_settings; Doubles.enable_wifi]
              [Py.AStr "DONE"] "VERIFICATION_RESULT: PASS" in
  let r2 := Doubles.replies [Doubles.enable_wifi] [tap] "VERIFICATION_RESULT: PASS" in
  let res := AgentS.predict [r1; r2] AgentS.reset in
  AgentS.actions_of res = Some [tap]
  ∧ AgentS.completed_tasks <$> AgentS.state_of res = Some [Doubles.open_settings]
  ∧ AgentS.current_subtask <$> AgentS.state_of res = Some (Some Doubles.enable_wifi).
Proof. vm_compute. repeat split. Qed.

(* ===================================================================== *)
(** * Further properties of the code *)
(* ===================================================================== *)

(** ** grounding.py: finding an element by its description *)

Section FindingElements.
Import Py Grounding.

Lemma contains_empty s : PyStr.contains EmptyString s = true.
Proof. destruct s; reflexivity. Qed.

Lemma first_index_spec {A} (p : A → bool) (l : list A) i :
  first_index p l = Some i →
  ∃ x, l !! i = Some x ∧ p x = true.
Proof.
  revert i. induction l as [|x l IH]; intros i; simpl; [discriminate|].
  destruct (p x) eqn:Hp.
  - intros [= <-]. exists x. auto.
  - destruct (first_index p l) as [j|]; simpl; [|discriminate].
    intros [= <-]. destruct (IH j eq_refl) as (y & Hy & Hpy). exists y. auto.
Qed.

Lemma first_index_head {A} (p : A → bool) x (l : list A) :
  p x = true → first_index p (x :: l) = Some 0%nat.
Proof. intros Hp. simpl. rewrite Hp. reflexivity. Qed.

Lemma by_synonyms_spec d groups (l : list UIElement) i :
  by_synonyms d groups l = Some i →
  ∃ g x, g ∈ groups ∧ group_applies d g = true
         ∧ l !! i = Some x ∧ matches_group g x = true.
Proof.
  induction groups as [|g groups IH]; simpl; [discriminate|].
  destruct (group_applies d g) eqn:Hg.
  - destruct (first_index (matches_group g) l) as [j|] eqn:Hj.
    + intros [= <-]. destruct (first_index_spec _ _ _ Hj) as (x & Hx & Hm).
      exists g, x. repeat split; auto. left.
    + intros Hrest. destruct (IH Hrest) as (g' & x & Hin & Hrest').
      exists g', x. split; [right; exact Hin | exact Hrest'].
  - intros Hrest. destruct (IH Hrest) as (g' & x & Hin & Hrest').
    exists g', x. split; [right; exact Hin | exact Hrest'].
Qed.

(** X1.  An index [_find_element_by_description] returns denotes an
    element of the list it was given; that element passes the match test
    for the normalised description or for a synonym group that applies to
    it.  Nothing is returned for an empty description or an empty list. *)
Theorem found_element_is_on_screen (description : string)
    (ui_elements : list UIElement) (i : nat) :
  _find_element_by_description description ui_elements = Some i →
  description ≠ EmptyString
  ∧ (i < length ui_elements)%nat
  ∧ ∃ e, ui_elements !! i = Some e
         ∧ (matches_word (PyStr.strip (PyStr.lower description)) e = true
            ∨ ∃ g, g ∈ synonyms
                   ∧ group_applies (PyStr.strip (PyStr.lower description)) g = true
                   ∧ matches_group g e = true).
Proof.
  unfold _find_element_by_description.
  destruct description as [|c d]; [discriminate|]. cbn [PyStr.truthy negb orb].
  destruct ui_elements as [|e0 rest]; [discriminate|].
  set (l := e0 :: rest). set (dl := PyStr.strip (PyStr.lower (String c d))).
  intros Hfind. split; [discriminate|].
  assert (Hcase : ∃ e, l !! i = Some e
                       ∧ (matches_word dl e = true
                          ∨ ∃ g, g ∈ synonyms ∧ group_applies dl g = true
                                 ∧ matches_group g e = true)).
  { destruct (first_index (matches_word dl) l) as [j|] eqn:Hj.
    - injection Hfind as <-.
      destruct (first_index_spec _ _ _ Hj) as (x & Hx & Hm). eauto.
    - destruct (by_synonyms_spec _ _ _ _ Hfind) as (g & x & Hin & Hg & Hx & Hm).
      exists x. split; [exact Hx|]. right. eauto. }
  destruct Hcase as (e & He & Hm). split; [|eauto].
  apply lookup_lt_is_Some. eauto.
Qed.

Lemma found_element_is_on_screen_witness :
  _find_element_by_description "the status line" mock_elements = Some 0%nat
  ∧ "the status line" ≠ EmptyString
  ∧ (0 < length mock_elements)%nat
  ∧ ∃ e, mock_elements !! 0%nat = Some e
         ∧ (matches_word (PyStr.strip (PyStr.lower "the status line")) e = true
            ∨ ∃ g, g ∈ synonyms
                   ∧ group_applies (PyStr.strip (PyStr.lower "the status line")) g = true
                   ∧ matches_group g e = true).
Proof.
  assert (Hf : _find_element_by_description "the status line" mock_elements = Some 0%nat)
    by (vm_compute; reflexivity).
  split; [exact Hf|].
  exact (found_element_is_on_screen "the status line" mock_elements 0 Hf).
Defined.

(** X2.  The empty string occurs in every string, so an element whose
    text or whose content description is missing passes the match test
    for any description: with such an element in front of the list,
    [_find_element_by_description] returns index 0 whatever is asked for
    and whatever follows. *)
Theorem element_without_text_or_description_matches_anything
    (description : string) (e : UIElement) (rest : list UIElement) :
  description ≠ EmptyString →
  text e = None ∨ content_description e = None →
  _find_element_by_description description (e :: rest) = Some 0%nat.
Proof.
  intros Hd Hmissing. unfold _find_element_by_description.
  destruct description as [|c d]; [congruence|]. cbn [PyStr.truthy negb orb].
  rewrite first_index_head; [reflexivity|].
  unfold matches_word.
  destruct Hmissing as [Ht|Hc]; [rewrite Ht | rewrite Hc];
    cbn [attr_lower]; rewrite contains_empty; rewrite ?orb_true_r; reflexivity.
Qed.

Lemma element_without_text_or_description_matches_anything_witness :
  "Wi-Fi" ≠ EmptyString
  ∧ (text {| text := Some "Settings"; content_description := None; class_name := "Mock" |} = None
     ∨ content_description
         {| text := Some "Settings"; content_description := None; class_name := "Mock" |} = None)
  ∧ _find_element_by_description "Wi-Fi"
      ({| text := Some "Settings"; content_description := None; class_name := "Mock" |}
       :: [ {| text := Some "Wi-Fi"; content_description := None; class_name := "Mock" |} ])
    = Some 0%nat.
Proof.
  assert (Hd : "Wi-Fi" ≠ EmptyString) by discriminate.
  assert (Hm : text {| text := Some "Settings"; content_description := None;
                       class_name := "Mock" |} = None
               ∨ content_description {| text := Some "Settings";
                                        content_description := None;
                                        class_name := "Mock" |} = None)
    by (right; reflexivity).
  split; [exact Hd|]. split; [exact Hm|].
  exact (element_without_text_or_description_matches_anything "Wi-Fi" _ _ Hd Hm).
Defined.

Example synonym_finds_internet :
  _find_element_by_description "wifi"
    [ {| text := Some "Home"; content_description := Some "launcher"; class_name := "" |};
      {| text := Some "Internet"; content_description := Some "net"; class_name := "" |} ]
  = Some 1%nat.
Proof. vm_compute. reflexivity. Qed.

Example repeated_key_takes_last_value :
  length synonyms_literal = 173%nat ∧ length synonyms = 136%nat
  ∧ List.find (λ kv, bool_decide (fst kv = "social")) synonyms
    = Some ("social", ["communication"; "messaging"; "networking"]).
Proof. vm_compute. repeat split. Qed.

End FindingElements.

(** ** grounding.py: what the operations ask of the environment *)

Section ActuatorTraces.
Import Py Grounding.
Context {E : Type} `{AndroidEnv E}.

Lemma executed_app (l l' : list EnvCall) : executed (l ++ l') = executed l ++ executed l'.
Proof. apply omap_app. Qed.

(** The two ways an operation on a described element can end. *)
Lemma by_description_outcome (a : ACI E) d act ok err :
  String.prefix "FAIL:" err = true →
  let out := by_description a d act ok err in
  (executed (env_calls (fst out)) = executed (env_calls a)
   ∧ String.prefix "FAIL:" (snd out) = true)
  ∨ (∃ ui_elements i,
       snd (get_state (env a)) = Return ui_elements
       ∧ _find_element_by_description d ui_elements = Some i
       ∧ (i < length ui_elements)%nat
       ∧ executed (env_calls (fst out)) = executed (env_calls a) ++ [act i]
       ∧ (snd out = ok i ∨ snd out = err)).
Proof.
  intros Herr. unfold by_description, call_get_state, call_execute_action.
  destruct (get_state (env a)) as [e [ui_elements|ex]]; cbn.
  - destruct (_find_element_by_description d ui_elements) as [i|] eqn:Hfind; cbn.
    + right. exists ui_elements, i.
      destruct (found_element_is_on_screen _ _ _ Hfind) as (_ & Hlt & _).
      destruct (execute_action e (act i)) as [e' [u|ex]]; cbn;
        rewrite !executed_app; cbn; rewrite app_nil_r; auto 10.
    + left. rewrite executed_app. cbn. rewrite app_nil_r. auto.
  - left. rewrite executed_app. cbn. rewrite app_nil_r. auto.
Qed.

(** X3.  [click], [type] and [long_click] on a described element return a
    string in every case.  Either no action is executed and the string
    opens with [FAIL:], or exactly one action is executed: the click, the
    text input or the long press on the index that
    [_find_element_by_description] gave for the elements the environment
    reported, an index within that list. *)
Theorem described_operations_act_at_most_once
    (a : ACI E) (description txt duration : string) :
  let on i kind t :=
    {| action_type := kind; index := Some (Z.of_nat i); action_text := t |} in
  let ends (out : ACI E * string) (act : nat → JSONAction) :=
    (executed (env_calls (fst out)) = executed (env_calls a)
     ∧ String.prefix "FAIL:" (snd out) = true)
    ∨ (∃ ui_elements i,
         snd (get_state (env a)) = Return ui_elements
         ∧ _find_element_by_description description ui_elements = Some i
         ∧ (i < length ui_elements)%nat
         ∧ executed (env_calls (fst out)) = executed (env_calls a) ++ [act i]) in
  ends (click a description) (λ i, on i CLICK None)
  ∧ ends (type a description txt) (λ i, on i INPUT_TEXT (Some txt))
  ∧ ends (long_click a description duration) (λ i, on i LONG_PRESS None).
Proof.
  intros on ends. unfold ends, click, type, long_click.
  repeat split;
    match goal with
    | |- context [by_description a description ?act ?ok ?err] =>
        destruct (by_description_outcome a description act ok err eq_refl)
          as [Hnone|(l & i & Hs & Hf & Hlt & Hex & _)];
          [left; exact Hnone | right; exists l, i; auto]
    end.
Qed.

(** X4.  With an index inside [0, number of UI elements - 1], each of
    [click_by_index], [long_click_by_index] and [type_by_index] reads the
    state and executes exactly one action, the one on that index (with
    the text, for typing); the string returned is the success message
    unless executing raised, and then it is the error message. *)
Theorem index_in_range_acts_once
    (a : ACI E) (idx : Z) (txt : string) (ui_elements : list UIElement) :
  snd (get_state (env a)) = Return ui_elements →
  0 ≤ idx < Z.of_nat (length ui_elements) →
  let on kind t := {| action_type := kind; index := Some idx; action_text := t |} in
  let raised act :=
    match snd (execute_action (fst (get_state (env a))) act) with
    | Raise _ => true
    | Return _ => false
    end in
  (env_calls (fst (click_by_index a idx))
   = env_calls a ++ [GetState; ExecuteAction (on CLICK None)]
   ∧ snd (click_by_index a idx)
     = if raised (on CLICK None)
       then "FAIL: Error clicking element at index " +:+ PyStr.of_int idx
       else "SUCCESS: Clicked element at index " +:+ PyStr.of_int idx)
  ∧ (env_calls (fst (long_click_by_index a idx))
     = env_calls a ++ [GetState; ExecuteAction (on LONG_PRESS None)]
     ∧ snd (long_click_by_index a idx)
       = if raised (on LONG_PRESS None)
         then "FAIL: Error long clicking element at index " +:+ PyStr.of_int idx
         else "SUCCESS: Long clicked element at index " +:+ PyStr.of_int idx)
  ∧ (env_calls (fst (type_by_index a idx txt))
     = env_calls a ++ [GetState; ExecuteAction (on INPUT_TEXT (Some txt))]
     ∧ snd (type_by_index a idx txt)
       = if raised (on INPUT_TEXT (Some txt))
         then "FAIL: Error typing into element at index " +:+ PyStr.of_int idx
         else "SUCCESS: Typed '" +:+ txt +:+ "' into element at index "
                +:+ PyStr.of_int idx).
Proof.
  intros Hstate Hrange on raised.
  assert (Hcond : (idx <? 0) || (idx >=? Z.of_nat (length ui_elements)) = false).
  { apply orb_false_iff. split; [apply Z.ltb_ge; lia|].
    rewrite Z.geb_leb. apply Z.leb_gt. lia. }
  subst raised on. cbv beta.
  unfold click_by_index, long_click_by_index, type_by_index, by_index,
    call_get_state, call_execute_action.
  destruct (get_state (env a)) as [e st]. simpl in Hstate. subst st. cbn.
  rewrite Hcond.
  repeat split;
    match goal with
    | |- context [execute_action e ?act] =>
        destruct (execute_action e act) as [e' [u|ex]]; cbn;
          rewrite <- ?app_assoc; reflexivity
    end.
Qed.

(** The element [is_app_drawer_open] and [is_quick_settings_open] report. *)
Lemma first_indicated_spec indicators (l : list UIElement) t :
  first_indicated indicators l = Some t →
  ∃ e ind, e ∈ l ∧ text e = Some t ∧ t ≠ EmptyString
           ∧ ind ∈ indicators ∧ PyStr.contains ind (PyStr.lower t) = true.
Proof.
  induction l as [|e l IH]; simpl; [discriminate|].
  destruct (text e) as [t'|] eqn:Ht.
  - destruct (PyStr.truthy t'
              && existsb (λ ind, PyStr.contains ind (PyStr.lower t')) indicators)
      eqn:Hhit.
    + intros [= <-]. apply andb_prop in Hhit as [Htr Hex].
      apply existsb_exists in Hex as (ind & Hin & Hc).
      exists e, ind. repeat split; auto.
      * left.
      * destruct t'; [discriminate|discriminate].
      * apply list_elem_of_In, Hin.
    + intros Hrest. destruct (IH Hrest) as (e' & ind & Hin & Hrest').
      exists e', ind. split; [right; exact Hin | exact Hrest'].
  - intros Hrest. destruct (IH Hrest) as (e' & ind & Hin & Hrest').
    exists e', ind. split; [right; exact Hin | exact Hrest'].
Qed.

Lemma look_for_outcome (a : ACI E) indicators found not_found on_error :
  let out := look_for a indicators found not_found on_error in
  env_calls (fst out) = env_calls a ++ [GetState]
  ∧ (snd out = on_error ∨ snd out = not_found
     ∨ ∃ ui_elements e t ind,
         snd (get_state (env a)) = Return ui_elements
         ∧ snd out = found t
         ∧ e ∈ ui_elements ∧ text e = Some t
         ∧ ind ∈ indicators ∧ PyStr.contains ind (PyStr.lower t) = true).
Proof.
  unfold look_for, call_get_state.
  destruct (get_state (env a)) as [e [ui_elements|ex]]; cbn; [|auto].
  destruct (first_indicated indicators ui_elements) as [t|] eqn:Hf; cbn; [|auto].
  split; [reflexivity|]. right. right.
  destruct (first_indicated_spec _ _ _ Hf) as (el & ind & Hin & Ht & _ & Hind & Hc).
  exists ui_elements, el, t, ind. auto 10.
Qed.

(** X5.  [is_app_drawer_open] and [is_quick_settings_open] only read the
    state of the environment.  When one of them reports success, the
    state held an element whose text, in lower case, contains one of the
    indicators of that check; the text reported is the text of that
    element. *)
Theorem checks_only_read_and_report_what_is_shown (a : ACI E) :
  let shown (out : ACI E * string) indicators :=
    env_calls (fst out) = env_calls a ++ [GetState]
    ∧ (String.prefix "SUCCESS:" (snd out) = true →
       ∃ ui_elements e t ind,
         snd (get_state (env a)) = Return ui_elements
         ∧ e ∈ ui_elements ∧ text e = Some t
         ∧ ind ∈ indicators ∧ PyStr.contains ind (PyStr.lower t) = true) in
  shown (is_app_drawer_open a) app_drawer_indicators
  ∧ shown (is_quick_settings_open a) quick_settings_indicators.
Proof.
  intros shown. unfold shown, is_app_drawer_open, is_quick_settings_open.
  split;
    match goal with
    | |- context [look_for a ?inds ?f ?nf ?oe] =>
        destruct (look_for_outcome a inds f nf oe)
          as [Hcalls [Hout|[Hout|(l & e & t & ind & Hs & Hout & Hrest)]]];
          (split; [exact Hcalls|]); rewrite Hout;
          [ discriminate | discriminate | intros _; exists l, e, t, ind; auto ]
    end.
Qed.

End ActuatorTraces.

Lemma index_in_range_acts_once_witness :
  snd (Grounding.get_state (Grounding.env Grounding.mock_aci))
    = Py.Return Grounding.mock_elements
  ∧ 0 ≤ 1 < Z.of_nat (length Grounding.mock_elements)
  ∧ Grounding.env_calls (fst (Grounding.click_by_index Grounding.mock_aci 1))
    = [Grounding.GetState;
       Grounding.ExecuteAction
         {| Grounding.action_type := "click"; Grounding.index := Some 1;
            Grounding.action_text := None |}]
  ∧ snd (Grounding.type_by_index Grounding.mock_aci 1 "hello")
    = "SUCCESS: Typed 'hello' into element at index 1".
Proof.
  assert (Hs : snd (Grounding.get_state (Grounding.env Grounding.mock_aci))
               = Py.Return Grounding.mock_elements) by reflexivity.
  assert (Hr : 0 ≤ 1 < Z.of_nat (length Grounding.mock_elements)) by (simpl; lia).
  split; [exact Hs|]. split; [exact Hr|].
  pose proof (index_in_range_acts_once Grounding.mock_aci 1 "hello" _ Hs Hr)
    as ((Hc & _) & _ & (_ & Ht)).
  split; [exact Hc | exact Ht].
Defined.

Example app_drawer_is_seen :
  snd (Grounding.is_app_drawer_open Doubles.launcher_aci)
  = "SUCCESS: App drawer is open (found 'All Apps')".
Proof. vm_compute. reflexivity. Qed.

Lemma checks_only_read_and_report_what_is_shown_witness :
  String.prefix "SUCCESS:" (snd (Grounding.is_app_drawer_open Doubles.launcher_aci)) = true
  ∧ ∃ ui_elements e t ind,
      snd (Grounding.get_state (Grounding.env Doubles.launcher_aci)) = Py.Return ui_elements
      ∧ e ∈ ui_elements ∧ Grounding.text e = Some t
      ∧ ind ∈ Grounding.app_drawer_indicators
      ∧ PyStr.contains ind (PyStr.lower t) = true.
Proof.
  assert (Hs : String.prefix "SUCCESS:"
                 (snd (Grounding.is_app_drawer_open Doubles.launcher_aci)) = true)
    by (vm_compute; reflexivity).
  split; [exact Hs|].
  exact (proj2 (proj1 (checks_only_read_and_report_what_is_shown Doubles.launcher_aci)) Hs).
Defined.

(** ** verifier_agent.py: the verdict, the reasoning and the summary *)

Section VerifierMore.
Import Verifier.

Lemma upper_char_idem c : PyStr.upper_char (PyStr.upper_char c) = PyStr.upper_char c.
Proof. destruct c as [[] [] [] [] [] [] [] []]; reflexivity. Qed.

Lemma upper_lower_char c : PyStr.upper_char (PyStr.lower_char c) = PyStr.upper_char c.
Proof. destruct c as [[] [] [] [] [] [] [] []]; reflexivity. Qed.

Lemma upper_idem s : PyStr.upper (PyStr.upper s) = PyStr.upper s.
Proof. induction s as [|c s IH]; simpl; [|rewrite upper_char_idem, IH]; reflexivity. Qed.

Lemma upper_lower s : PyStr.upper (PyStr.lower s) = PyStr.upper s.
Proof. induction s as [|c s IH]; simpl; [|rewrite upper_lower_char, IH]; reflexivity. Qed.

Lemma is_ascii_upper s : PyStr.is_ascii s = true → PyStr.is_ascii (PyStr.upper s) = true.
Proof.
  induction s as [|c s IH]; [reflexivity|].
  cbn [PyStr.is_ascii PyStr.upper]. intros [Hc Hs]%andb_prop.
  rewrite (IH Hs), andb_true_r. revert Hc.
  destruct c as [[] [] [] [] [] [] [] []]; vm_compute; congruence.
Qed.

Lemma is_ascii_lower s : PyStr.is_ascii s = true → PyStr.is_ascii (PyStr.lower s) = true.
Proof.
  induction s as [|c s IH]; [reflexivity|].
  cbn [PyStr.is_ascii PyStr.lower]. intros [Hc Hs]%andb_prop.
  rewrite (IH Hs), andb_true_r. revert Hc.
  destruct c as [[] [] [] [] [] [] [] []]; vm_compute; congruence.
Qed.

(** X6.  For a reply of ASCII characters: the verdict is a failure
    exactly when the reply, read without regard to letter case, holds
    the FAIL marker and does not hold the PASS marker, so a PASS marker
    anywhere in the reply wins over a FAIL marker; the reply rewritten in
    upper or in lower case is a reply of ASCII characters with the same
    verdict. *)
Theorem verdict_is_failure_iff (response : string) :
  PyStr.is_ascii response = true →
  (fst (_parse_verification_response response) = false
   ↔ PyStr.contains "VERIFICATION_RESULT: FAIL" (PyStr.upper response) = true
     ∧ PyStr.contains "VERIFICATION_RESULT: PASS" (PyStr.upper response) = false)
  ∧ (PyStr.is_ascii (PyStr.upper response) = true
     ∧ fst (_parse_verification_response (PyStr.upper response))
       = fst (_parse_verification_response response))
  ∧ (PyStr.is_ascii (PyStr.lower response) = true
     ∧ fst (_parse_verification_response (PyStr.lower response))
       = fst (_parse_verification_response response)).
Proof.
  intros Hascii.
  unfold _parse_verification_response. simpl. rewrite upper_idem, upper_lower.
  split; [|split; (split; [|reflexivity])];
    [|apply is_ascii_upper, Hascii|apply is_ascii_lower, Hascii].
  destruct (PyStr.contains "VERIFICATION_RESULT: PASS" (PyStr.upper response));
    destruct (PyStr.contains "VERIFICATION_RESULT: FAIL" (PyStr.upper response));
    split; intros; try discriminate; intuition discriminate.
Qed.

Example pass_wins_over_fail :
  fst (_parse_verification_response
         "verification_result: fail at first, then Verification_Result: Pass") = true.
Proof. reflexivity. Qed.

Lemma rstrip_cons_nonspace c s :
  PyStr.is_space c = false → PyStr.rstrip (String c s) = String c (PyStr.rstrip s).
Proof. intros Hc. simpl. rewrite Hc. destruct (PyStr.rstrip s); reflexivity. Qed.

Lemma rstrip_idem s : PyStr.rstrip (PyStr.rstrip s) = PyStr.rstrip s.
Proof.
  induction s as [|c s IH]; [reflexivity|]. simpl.
  destruct (PyStr.rstrip s) as [|d r] eqn:Hr.
  - destruct (PyStr.is_space c) eqn:Hc; [reflexivity|]. simpl. rewrite Hc. reflexivity.
  - change (PyStr.rstrip (String c (String d r)) = String c (String d r)).
    simpl in IH |- *. rewrite IH. reflexivity.
Qed.

Lemma lstrip_head s :
  PyStr.lstrip s = EmptyString
  ∨ ∃ c r, PyStr.lstrip s = String c r ∧ PyStr.is_space c = false.
Proof.
  induction s as [|c s IH]; [left; reflexivity|]. simpl.
  destruct (PyStr.is_space c) eqn:Hc; [exact IH|]. right. eauto.
Qed.

(** Stripping twice is stripping once. *)
Lemma strip_idem s : PyStr.strip (PyStr.strip s) = PyStr.strip s.
Proof.
  unfold PyStr.strip.
  destruct (lstrip_head s) as [He|(c & r & He & Hc)]; rewrite He; [reflexivity|].
  rewrite (rstrip_cons_nonspace _ _ Hc). simpl PyStr.lstrip. rewrite Hc.
  rewrite (rstrip_cons_nonspace _ _ Hc), rstrip_idem. reflexivity.
Qed.

Lemma from_first_prefix sub s r :
  PyStr.from_first sub s = Some r → String.prefix sub r = true.
Proof.
  induction s as [|c s IH]; cbn [PyStr.from_first].
  - destruct (String.prefix sub EmptyString) eqn:Hp; [|discriminate].
    intros [= <-]. exact Hp.
  - destruct (String.prefix sub (String c s)) eqn:Hp; [|exact IH].
    intros [= <-]. exact Hp.
Qed.

Lemma rstrip_keeps_prefix p :
  ∀ s, (∀ c, In c (String.list_ascii_of_string p) → PyStr.is_space c = false) →
       String.prefix p s = true → String.prefix p (PyStr.rstrip s) = true.
Proof.
  induction p as [|c p IH]; intros s Hns Hp.
  - destruct (PyStr.rstrip s); reflexivity.
  - destruct s as [|d s]; [discriminate|]. cbn [String.prefix] in Hp.
    destruct (Ascii.ascii_dec c d) as [<-|]; [|discriminate].
    rewrite rstrip_cons_nonspace by (apply Hns; left; reflexivity).
    cbn [String.prefix]. destruct (Ascii.ascii_dec c c); [|congruence].
    apply IH; [intros c' Hc'; apply Hns; right; exact Hc' | exact Hp].
Qed.

Lemma strip_keeps_reasoning_mark r :
  String.prefix "REASONING:" r = true →
  String.prefix "REASONING:" (PyStr.strip r) = true.
Proof.
  intros Hp. unfold PyStr.strip.
  assert (Hl : PyStr.lstrip r = r).
  { destruct r as [|c r]; [reflexivity|]. cbn [String.prefix] in Hp.
    destruct (Ascii.ascii_dec _ c) as [<-|]; [reflexivity|discriminate]. }
  rewrite Hl. apply rstrip_keeps_prefix; [|exact Hp].
  intros c Hc. cbn in Hc. repeat destruct Hc as [<-|Hc]; try reflexivity.
  destruct Hc.
Qed.

(** X7.  The reasoning [_parse_verification_response] returns either is
    the fixed text ["No explicit reasoning provided"] (when the reply has
    no [REASONING:]), or begins with [REASONING:]; in both cases it has
    no white space at either end (stripping it again changes nothing). *)
Theorem reasoning_is_marked_and_stripped (response : string) :
  let reasoning := snd (_parse_verification_response response) in
  PyStr.strip reasoning = reasoning
  ∧ ((PyStr.contains "REASONING:" response = false
      ∧ reasoning = "No explicit reasoning provided")
     ∨ (PyStr.contains "REASONING:" response = true
        ∧ String.prefix "REASONING:" reasoning = true)).
Proof.
  unfold _parse_verification_response. cbn [snd].
  assert (Hfind : ∀ s, PyStr.from_first "REASONING:" s = None
                       ↔ PyStr.contains "REASONING:" s = false).
  { induction s as [|c s IH]; [split; reflexivity|].
    cbn [PyStr.from_first PyStr.contains].
    destruct (String.prefix "REASONING:" (String c s)); [split; discriminate|].
    exact IH. }
  destruct (PyStr.from_first "REASONING:" response) as [r|] eqn:Hf.
  - split; [apply strip_idem|]. right. split.
    + destruct (PyStr.contains "REASONING:" response) eqn:Hc; [reflexivity|].
      apply Hfind in Hc. congruence.
    + apply strip_keeps_reasoning_mark, (from_first_prefix _ _ _ Hf).
  - split; [reflexivity|]. left. split; [apply Hfind, Hf | reflexivity].
Qed.

Lemma after_verifications_history v replies :
  verification_history (after_verifications v replies)
  = verification_history v
    ++ map (λ gr, {| manager_goal := fst gr;
                     verification_response := snd gr;
                     is_success := fst (_parse_verification_response (snd gr));
                     reasoning := snd (_parse_verification_response (snd gr)) |})
         replies.
Proof.
  unfold after_verifications. revert v.
  induction replies as [|gr replies IH]; intros v; simpl; [rewrite app_nil_r; reflexivity|].
  rewrite IH. unfold verify_execution.
  destruct (_parse_verification_response (snd gr)) as [ok why]. simpl.
  rewrite <- app_assoc. reflexivity.
Qed.

(** X8.  After [reset] and [n] calls of [verify_execution], with [n]
    positive, [get_verification_summary] reports [n] verifications, as
    many successful ones as there were replies with a passing verdict,
    the rest as failed, and as recent ones the last five entries of the
    history (all of them when there are fewer); after [reset] alone it
    reports none. *)
Theorem summary_counts_the_verdicts (v : t) (replies : list (string * string)) :
  replies ≠ [] →
  let v' := after_verifications (reset v) replies in
  let passed := filter (λ gr, fst (_parse_verification_response (snd gr)) = true) replies in
  get_verification_summary (reset v) = NoVerifications
  ∧ ∃ recent,
      get_verification_summary v'
      = Verifications (Z.of_nat (length replies)) (Z.of_nat (length passed))
          (Z.of_nat (length replies) - Z.of_nat (length passed)) recent
      ∧ length recent = Nat.min 5 (length replies)
      ∧ recent `suffix_of` verification_history v'
      ∧ 0 ≤ Z.of_nat (length replies) - Z.of_nat (length passed).
Proof.
  intros Hne v' passed. split; [reflexivity|].
  set (entries :=
         map (λ gr, {| manager_goal := fst gr;
                       verification_response := snd gr;
                       is_success := fst (_parse_verification_response (snd gr));
                       reasoning := snd (_parse_verification_response (snd gr)) |})
           replies).
  assert (Hh : verification_history v' = entries)
    by (unfold v'; rewrite after_verifications_history; reflexivity).
  assert (Hlen : length entries = length replies) by apply length_map.
  assert (Hpass : length (filter (λ i, is_success i = true) entries) = length passed).
  { unfold entries, passed. clear. induction replies as [|gr replies IH]; [reflexivity|].
    cbn [map]. rewrite !filter_cons. cbn [is_success].
    destruct (fst (_parse_verification_response (snd gr))).
    - rewrite !decide_True by reflexivity. cbn [length]. rewrite IH. reflexivity.
    - rewrite !decide_False by discriminate. exact IH. }
  unfold get_verification_summary. rewrite Hh.
  destruct entries as [|e es] eqn:He.
  - destruct replies; [congruence|discriminate Hlen].
  - rewrite <- He in *. exists (drop (length entries - 5) entries).
    rewrite Hpass, Hlen. split; [reflexivity|]. split; [|split].
    + rewrite length_drop. lia.
    + apply suffix_drop.
    + pose proof (length_filter (λ gr, fst (_parse_verification_response (snd gr)) = true)
                    replies). fold passed in H. lia.
Qed.

End VerifierMore.

Lemma summary_counts_the_verdicts_witness :
  let replies := [("Open Settings: open it", "VERIFICATION_RESULT: PASS");
                  ("Open Settings: open it", "not sure");
                  ("Open Settings: open it", "verification_result: fail")] in
  let v := {| Verifier.verification_history := [] |} in
  let v' := Verifier.after_verifications (Verifier.reset v) replies in
  let passed :=
    filter (λ gr, fst (Verifier._parse_verification_response (snd gr)) = true) replies in
  replies ≠ []
  ∧ Verifier.get_verification_summary (Verifier.reset v) = Verifier.NoVerifications
  ∧ ∃ recent,
      Verifier.get_verification_summary v'
      = Verifier.Verifications (Z.of_nat (length replies)) (Z.of_nat (length passed))
          (Z.of_nat (length replies) - Z.of_nat (length passed)) recent
      ∧ length recent = Nat.min 5 (length replies)
      ∧ recent `suffix_of` Verifier.verification_history v'
      ∧ 0 ≤ Z.of_nat (length replies) - Z.of_nat (length passed).
Proof.
  intros replies v v' passed.
  assert (Hne : replies ≠ []) by discriminate.
  split; [exact Hne|].
  exact (summary_counts_the_verdicts v replies Hne).
Defined.

Lemma verdict_is_failure_iff_witness :
  let response := "Verification_Result: Fail. Reasoning: the screen did not change" in
  PyStr.is_ascii response = true
  ∧ (fst (Verifier._parse_verification_response response) = false
     ↔ PyStr.contains "VERIFICATION_RESULT: FAIL" (PyStr.upper response) = true
       ∧ PyStr.contains "VERIFICATION_RESULT: PASS" (PyStr.upper response) = false)
  ∧ (PyStr.is_ascii (PyStr.upper response) = true
     ∧ fst (Verifier._parse_verification_response (PyStr.upper response))
       = fst (Verifier._parse_verification_response response))
  ∧ (PyStr.is_ascii (PyStr.lower response) = true
     ∧ fst (Verifier._parse_verification_response (PyStr.lower response))
       = fst (Verifier._parse_verification_response response)).
Proof.
  intros response.
  assert (Hascii : PyStr.is_ascii response = true) by (vm_compute; reflexivity).
  split; [exact Hascii|].
  exact (verdict_is_failure_iff response Hascii).
Defined.

(** ** agent_s.py: what the journals keep, and under which key *)

Section JournalsMore.
Import Memory.

Lemma append_assoc (a b c : string) : (a +:+ b) +:+ c = a +:+ (b +:+ c).
Proof.
  induction a as [|x a IH]; [reflexivity|].
  change (String x ((a +:+ b) +:+ c) = String x (a +:+ (b +:+ c))).
  rewrite IH. reflexivity.
Qed.

Lemma split_head_at_separator sep s :
  String.prefix sep s = true → PyStr.split_head sep s = EmptyString.
Proof. intros Hp. destruct s; cbn [PyStr.split_head]; rewrite Hp; reflexivity. Qed.

(** A separator that opens with two different characters is first met
    where it was put, when the text before it does not hold those two
    characters in a row. *)
Lemma split_head_append a b tail h rest :
  a ≠ b →
  PyStr.contains (String a (String b EmptyString)) h = false →
  PyStr.split_head (String a (String b tail)) (h +:+ String a (String b tail) +:+ rest) = h.
Proof.
  intros Hab. induction h as [|c h IH]; intros Hno.
  - change (EmptyString +:+ String a (String b tail) +:+ rest)
      with (String a (String b tail) +:+ rest).
    apply split_head_at_separator, prefix_append.
  - cbn [PyStr.contains] in Hno. apply orb_false_iff in Hno as [Hhere Hlater].
    change ((String c h) +:+ String a (String b tail) +:+ rest)
      with (String c (h +:+ String a (String b tail) +:+ rest)).
    cbn [PyStr.split_head].
    assert (Hp : String.prefix (String a (String b tail))
                   (String c (h +:+ String a (String b tail) +:+ rest)) = false).
    { cbn [String.prefix]. destruct (Ascii.ascii_dec a c) as [<-|]; [|reflexivity].
      destruct h as [|d h].
      - change (EmptyString +:+ String a (String b tail) +:+ rest)
          with (String a (String b (tail +:+ rest))).
        cbn [String.prefix].
        destruct (Ascii.ascii_dec b a); [congruence|reflexivity].
      - cbn [String.prefix] in Hhere.
        destruct (Ascii.ascii_dec a a); [|congruence].
        change ((String d h) +:+ String a (String b tail) +:+ rest)
          with (String d (h +:+ String a (String b tail) +:+ rest)).
        cbn [String.prefix].
        destruct (Ascii.ascii_dec b d) as [<-|]; [|reflexivity].
        destruct h; discriminate Hhere. }
    rewrite Hp, (IH Hlater). reflexivity.
Qed.

Lemma plan_separator_shape :
  ∃ tail, PLAN_SEPARATOR
          = String (Ascii.ascii_of_nat 10) (String (Ascii.ascii_of_nat 45) tail).
Proof. eexists. reflexivity. Qed.

(** The key of a trajectory that starts with a header free of a line
    feed followed by a dash, then the separator. *)
Lemma subtask_key_of_header header rest :
  PyStr.contains (NL +:+ "-") header = false →
  subtask_key (header +:+ PLAN_SEPARATOR +:+ rest) = header.
Proof.
  intros Hno. unfold subtask_key.
  destruct plan_separator_shape as [tail ->].
  rewrite !append_assoc.
  apply split_head_append; [discriminate | exact Hno].
Qed.

(** X9.  Neither journal update removes or changes an entry: a summary
    that can be read under a key before an update of the narrative or of
    the episodic journal is read under that key after it.  The episodic
    update does not touch the journal file at all, whatever it holds,
    unless the status is [Start] or [Done] and the trajectory handed in
    is not empty. *)
Theorem journals_only_grow
    (file : journal_file) (q sq summary : string) (meta_data : MetaData)
    (subtask_trajectory key old : string) :
  (read_back file key = Some old →
   read_back (update_narrative_memory q file summary) key = Some old
   ∧ read_back (fst (update_episodic_memory sq file meta_data subtask_trajectory summary))
       key = Some old)
  ∧ (files_entry meta_data subtask_trajectory = false →
     fst (update_episodic_memory sq file meta_data subtask_trajectory summary) = file).
Proof.
  split.
  - intros Hold.
    assert (Hkeep : ∀ k s, insert_if_absent k s (load file) !! key = Some old).
    { intros k s. destruct (decide (k = key)) as [->|Hne].
      - rewrite insert_if_absent_lookup. unfold read_back in Hold. rewrite Hold. reflexivity.
      - rewrite insert_if_absent_other by exact Hne. exact Hold. }
    split; [apply Hkeep|].
    unfold update_episodic_memory.
    destruct (bool_decide (subtask_status meta_data = "Start")
              || bool_decide (subtask_status meta_data = "Done")); cbn [fst].
    + destruct (PyStr.truthy subtask_trajectory); [apply Hkeep | exact Hold].
    + destruct (bool_decide (subtask_status meta_data = "In")); exact Hold.
  - unfold update_episodic_memory, files_entry.
    destruct (bool_decide (subtask_status meta_data = "Start")
              || bool_decide (subtask_status meta_data = "Done")); cbn [fst andb].
    + destruct (PyStr.truthy subtask_trajectory); [discriminate | reflexivity].
    + destruct (bool_decide (subtask_status meta_data = "In")); reflexivity.
Qed.

(** X10.  A trajectory that [update_episodic_memory] starts (status
    [Start] or [Done]) is the header built from the search query, the
    subtask name and its instruction, then the separator and the plan.
    When the header has no line that begins with a dash, the key
    computed from that trajectory, and from the trajectory with anything
    appended to it (as the [In] updates do), is the header; so the update
    that files it stores the summary under the header when no entry is
    there yet. *)
Theorem episodic_key_is_the_header
    (file file' : journal_file) (sq sq' summary summary' more : string)
    (meta_data meta_data' : MetaData) (subtask_trajectory : string) :
  bool_decide (subtask_status meta_data = "Start")
    || bool_decide (subtask_status meta_data = "Done") = true →
  bool_decide (subtask_status meta_data' = "Start")
    || bool_decide (subtask_status meta_data' = "Done") = true →
  let header := trajectory_header sq meta_data in
  let started := snd (update_episodic_memory sq file meta_data subtask_trajectory summary) in
  started = header +:+ PLAN_SEPARATOR +:+ executor_plan meta_data +:+ NL
  ∧ (PyStr.contains (NL +:+ "-") header = false →
     subtask_key started = header
     ∧ subtask_key (started +:+ more) = header
     ∧ (read_back file' header = None →
        read_back
          (fst (update_episodic_memory sq' file' meta_data' (started +:+ more) summary'))
          header = Some summary')).
Proof.
  intros Hst Hst' header started.
  assert (Hstarted : started = header +:+ PLAN_SEPARATOR +:+ executor_plan meta_data +:+ NL).
  { unfold started, update_episodic_memory. rewrite Hst. cbn [snd].
    unfold header, trajectory_header. rewrite !append_assoc. reflexivity. }
  split; [exact Hstarted|]. intros Hno.
  assert (Hkey : ∀ tailing, subtask_key (started +:+ tailing) = header).
  { intros tailing. rewrite Hstarted, !append_assoc.
    apply subtask_key_of_header, Hno. }
  split.
  { rewrite Hstarted. apply subtask_key_of_header, Hno. }
  split; [apply Hkey|].
  intros Hfresh.
  assert (Htruthy : PyStr.truthy (started +:+ more) = true).
  { rewrite Hstarted. unfold header, trajectory_header. reflexivity. }
  rewrite episodic_files by (unfold files_entry; rewrite Hst', Htruthy; reflexivity).
  change (insert_if_absent (subtask_key (started +:+ more)) summary' (load file') !! header
          = Some summary').
  rewrite Hkey, insert_if_absent_lookup.
  unfold read_back in Hfresh. rewrite Hfresh. reflexivity.
Qed.

End JournalsMore.

Lemma journals_only_grow_witness :
  let file : Memory.journal_file := Some {[ "open settings" := "tap the Settings icon" ]} in
  let m := {| Memory.subtask := "Enable Wi-Fi";
              Memory.subtask_info := "Turn the Wi-Fi switch on";
              Memory.subtask_status := "Done";
              Memory.executor_plan := "agent.done()" |} in
  let t := "Android Task: enable wifi" +:+ Memory.PLAN_SEPARATOR +:+ "tap the switch" in
  Memory.read_back file "open settings" = Some "tap the Settings icon"
  ∧ Memory.read_back (Memory.update_narrative_memory "enable wifi" file "tap the switch once")
      "open settings" = Some "tap the Settings icon"
  ∧ Memory.read_back
      (fst (Memory.update_episodic_memory "enable wifi" file m t "tap the switch once"))
      "open settings" = Some "tap the Settings icon"
  ∧ (Memory.files_entry m t = false →
     fst (Memory.update_episodic_memory "enable wifi" file m t "tap the switch once") = file).
Proof.
  intros file m t.
  assert (Hold : Memory.read_back file "open settings" = Some "tap the Settings icon")
    by (vm_compute; reflexivity).
  split; [exact Hold|].
  destruct (journals_only_grow file "enable wifi" "enable wifi" "tap the switch once" m t
              "open settings" "tap the Settings icon") as [Hkept Huntouched].
  destruct (Hkept Hold) as [Hnarrative Hepisodic].
  split; [exact Hnarrative|]. split; [exact Hepisodic | exact Huntouched].
Defined.

Lemma episodic_key_is_the_header_witness :
  let started_by := {| Memory.subtask := "Enable Wi-Fi";
                       Memory.subtask_info := "Turn the Wi-Fi switch on";
                       Memory.subtask_status := "Start";
                       Memory.executor_plan := "agent.click(3)" |} in
  let finished_by := {| Memory.subtask := "Enable Wi-Fi";
                        Memory.subtask_info := "Turn the Wi-Fi switch on";
                        Memory.subtask_status := "Done";
                        Memory.executor_plan := "agent.done()" |} in
  let header := Memory.trajectory_header "enable wifi" started_by in
  let started :=
    snd (Memory.update_episodic_memory "enable wifi" None started_by EmptyString "unused") in
  let more := Memory.NL +:+ "----------------------" +:+ Memory.NL +:+ Memory.NL
              +:+ "Plan:" +:+ Memory.NL +:+ "agent.wait(1.0)" +:+ Memory.NL in
  (bool_decide (Memory.subtask_status started_by = "Start")
     || bool_decide (Memory.subtask_status started_by = "Done") = true)
  ∧ PyStr.contains (Memory.NL +:+ "-") header = false
  ∧ (bool_decide (Memory.subtask_status finished_by = "Start")
       || bool_decide (Memory.subtask_status finished_by = "Done") = true)
  ∧ started = header +:+ Memory.PLAN_SEPARATOR +:+ Memory.executor_plan started_by +:+ Memory.NL
  ∧ Memory.subtask_key started = header
  ∧ Memory.subtask_key (started +:+ more) = header
  ∧ (Memory.read_back None header = None →
     Memory.read_back
       (fst (Memory.update_episodic_memory "enable wifi" None finished_by
               (started +:+ more) "tap the switch once"))
       header = Some "tap the switch once").
Proof.
  intros started_by finished_by header started more.
  assert (H1 : bool_decide (Memory.subtask_status started_by = "Start")
               || bool_decide (Memory.subtask_status started_by = "Done") = true)
    by (vm_compute; reflexivity).
  assert (H2 : PyStr.contains (Memory.NL +:+ "-") header = false)
    by (vm_compute; reflexivity).
  assert (H3 : bool_decide (Memory.subtask_status finished_by = "Start")
               || bool_decide (Memory.subtask_status finished_by = "Done") = true)
    by (vm_compute; reflexivity).
  split; [exact H1|]. split; [exact H2|]. split; [exact H3|].
  destruct (episodic_key_is_the_header None None "enable wifi" "enable wifi" "unused"
              "tap the switch once" more started_by finished_by EmptyString H1 H3)
    as [Hstarted Hkeys].
  split; [exact Hstarted | exact (Hkeys H2)].
Defined.

(** ** agent_s.py: what [predict] does to the completed list, and what it
    can raise *)

Section OrchestratorMore.
Import Py AgentS.

Lemma complete_current_grows s :
  completed_tasks s `prefix_of` completed_tasks (complete_current s)
  ∧ (length (completed_tasks (complete_current s)) ≤ S (length (completed_tasks s)))%nat.
Proof.
  unfold complete_current. destruct (current_subtask s); cbn.
  - split; [apply prefix_app_r; reflexivity|]. rewrite length_app. simpl. lia.
  - split; [reflexivity|lia].
Qed.

(** What the classification makes of an action that carries a completion
    marker and no failure marker, whatever the verdict. *)
Lemma judge_completes r s l cur einfo acts calls :
  current_subtask s = Some cur →
  has_fail acts = false →
  has_completion acts = true →
  ∃ s' l' calls',
    judge r s l cur einfo acts calls = Next s' l' calls'
    ∧ actions l' = acts
    ∧ subtasks s' = subtasks s
    ∧ current_subtask s' = Some cur
    ∧ should_send_action s' = negb (nonempty (subtasks s))
    ∧ completed_tasks s' = completed_tasks s ++ [cur]
    ∧ failure_subtask s' = None
    ∧ requires_replan s' = true
    ∧ needs_next_subtask s' = true
    ∧ step_count s' = 0
    ∧ subtask_status s' = "Done"
    ∧ verifier s' = {| Verifier.verification_history := [] |}
    ∧ ResetExecutor ∈ calls'.
Proof.
  intros Hc Hf Hd.
  unfold judge, Verifier.verify_execution.
  destruct (Verifier._parse_verification_response (verifier_reply r)) as [ok why].
  unfold on_verdict, on_action, ask_replan, hold_if_queued, complete_current,
    reset_executor_state.
  rewrite Hf, Hd.
  destruct ok; cbn; rewrite ?Hc; cbn;
    destruct (subtasks s) as [|q queue] eqn:Hq; cbn; rewrite ?Hc; cbn;
    eexists _, _, _; (split; [reflexivity|]); cbn; rewrite ?Hq, ?Hc;
    do 11 (split; [solve [auto]|]);
    apply elem_of_app; right; repeat constructor.
Qed.

(** What a completion transition leaves behind. *)
Lemma completion_transition_outcome r s l cur :
  completion_transition r s cur →
  ∃ s' l' calls,
    loop_body r s l = Next s' l' calls
    ∧ completed_tasks s' = completed_tasks s ++ [cur]
    ∧ failure_subtask s' = None
    ∧ current_subtask s' = Some cur
    ∧ subtasks s' = queue_after_advance r s
    ∧ requires_replan s' = true
    ∧ needs_next_subtask s' = true
    ∧ should_send_action s' = negb (nonempty (queue_after_advance r s))
    ∧ subtask_status s' = "Done"
    ∧ ∀ einfo acts, executor_reply r = Return (einfo, acts) → actions l' = acts.
Proof.
  intros (Hcur & einfo & acts & Hexec & Hf & Hd).
  destruct (loop_body_executes r s l cur Hcur)
    as (_ & s2 & l1 & calls2 & Hbody & _ & Hc2 & Hq2 & Hd2).
  rewrite Hexec in Hbody.
  destruct (judge_completes r s2 l1 cur einfo acts calls2 Hc2 Hf Hd)
    as (s' & l' & calls' & Hjudge & Hacts & Hq & Hc & Hsend & Hdone & Hptr & Hrr & Hnn
        & _ & Hst & _).
  exists s', l', calls'. rewrite Hbody, Hjudge.
  split; [reflexivity|]. split; [congruence|]. split; [exact Hptr|].
  split; [exact Hc|]. split; [congruence|]. split; [exact Hrr|]. split; [exact Hnn|].
  split; [rewrite Hsend, Hq2; reflexivity|]. split; [exact Hst|].
  intros einfo' acts' Hexec'. rewrite Hexec in Hexec'. injection Hexec' as _ <-.
  exact Hacts.
Qed.

Lemma replan_fields r s l :
  needs_next_subtask (replan r s l).1.1 = needs_next_subtask s
  ∧ current_subtask (replan r s l).1.1 = current_subtask s
  ∧ completed_tasks (replan r s l).1.1 = completed_tasks s
  ∧ should_send_action (replan r s l).1.1 = should_send_action s.
Proof.
  unfold replan. destruct (requires_replan s); [destruct (planner_reply r)|];
    cbn; auto.
Qed.

Lemma advance_fields s s2 :
  advance s = Some s2 →
  completed_tasks s2 = completed_tasks s
  ∧ should_send_action s2 = should_send_action s
  ∧ (works_on_a_subtask s → is_Some (current_subtask s2)).
Proof.
  unfold advance, works_on_a_subtask.
  destruct (needs_next_subtask s).
  - destruct (subtasks s); [discriminate|]. intros [= <-]. cbn. eauto.
  - intros [= <-]. auto.
Qed.

(** One iteration, whatever the replies: the completed list is extended
    by at most one entry; the agent still has a subtask to work on when
    it does not ask for the next one, so that an exception which leaves
    the iteration was raised at the call of the executor, not at the read
    of [self.current_subtask.name]. *)
Lemma loop_body_keeps r s l :
  completed_tasks s `prefix_of` completed_tasks (state_after (loop_body r s l))
  ∧ (length (completed_tasks (state_after (loop_body r s l)))
     ≤ S (length (completed_tasks s)))%nat
  ∧ (works_on_a_subtask s →
     works_on_a_subtask (state_after (loop_body r s l))
     ∧ ∀ s2 e calls,
         loop_body r s l = Raised s2 e calls →
         executor_reply r = Raise e
         ∧ should_send_action s2 = should_send_action s
         ∧ ∃ calls0 cur,
             current_subtask s2 = Some cur
             ∧ calls = calls0 ++ [CallExecutor cur (subtasks s2) (completed_tasks s2)]).
Proof.
  unfold loop_body.
  destruct (replan_fields r (set_subtask_status "In" s) l) as (Hn1 & Hc1 & Hd1 & Hs1).
  destruct (replan r (set_subtask_status "In" s) l) as [[s1 l1] calls1].
  cbn in Hn1, Hc1, Hd1, Hs1.
  destruct (advance s1) as [s2|] eqn:Hadv.
  - destruct (advance_fields s1 s2 Hadv) as (Hd2 & Hs2 & Hw2).
    assert (Hw : works_on_a_subtask s → is_Some (current_subtask s2)).
    { intros Hw. apply Hw2. unfold works_on_a_subtask in *. rewrite Hn1, Hc1. exact Hw. }
    destruct (current_subtask s2) as [cur|] eqn:Hcur.
    + destruct (executor_reply r) as [[einfo acts]|e].
      * destruct (judge_next r s2 l1 cur einfo acts
                    (calls1 ++ [CallExecutor cur (subtasks s2) (completed_tasks s2)]))
          as (sn & ln & cn & -> & _ & _ & Hc & _ & Hdone & _).
        cbn [state_after]. rewrite Hdone, <- Hd1, <- Hd2.
        assert (Hgrow :
          completed_tasks s2
            `prefix_of` (if negb (has_fail acts) && has_completion acts
                         then completed_tasks (complete_current s2) else completed_tasks s2)
          ∧ (length (if negb (has_fail acts) && has_completion acts
                     then completed_tasks (complete_current s2) else completed_tasks s2)
             ≤ S (length (completed_tasks s2)))%nat).
        { destruct (negb (has_fail acts) && has_completion acts);
            [apply complete_current_grows | split; [reflexivity|lia]]. }
        split; [apply Hgrow|]. split; [apply Hgrow|].
        intros _. split; [|intros ? ? ? [=]].
        intros _. rewrite Hc, Hcur. eexists. reflexivity.
      * cbn [state_after]. rewrite Hd2, Hd1.
        split; [reflexivity|]. split; [lia|].
        intros _. split; [intros _; rewrite Hcur; eexists; reflexivity|].
        intros s2' e' calls' [= <- <- <-].
        split; [reflexivity|]. split; [congruence|].
        exists calls1, cur. split; [exact Hcur|]. rewrite ?Hd2, ?Hd1. reflexivity.
    + cbn [state_after]. rewrite Hd2, Hd1.
      split; [reflexivity|]. split; [lia|].
      intros Hworks. destruct (Hw Hworks) as [c Hc]. discriminate Hc.
  - assert (Hfin : ∃ s' l' c,
              finish s1 l1 calls1 = Break s' l' c
              ∧ completed_tasks s' = completed_tasks (complete_current s1)
              ∧ needs_next_subtask s' = true).
    { unfold finish, complete_current, ask_replan, reset_executor_state.
      destruct (current_subtask s1) eqn:Hc; cbn; rewrite ?Hc; cbn;
        eexists _, _, _; (split; [reflexivity|]); cbn; rewrite ?Hc; auto. }
    destruct Hfin as (s' & l' & c & -> & Hd & Hn). cbn [state_after].
    destruct (complete_current_grows s1) as [Hp Hl].
    rewrite Hd, <- Hd1. split; [exact Hp|]. split; [exact Hl|].
    intros _. split; [|intros ? ? ? [=]].
    unfold works_on_a_subtask. rewrite Hn. discriminate.
Qed.

(** The loop of a call, whatever the replies. *)
Lemma predict_loop_keeps script :
  ∀ s l c0,
    match predict_loop script s l c0 with
    | Exit s' _ _ | Pending s' _ _ =>
        completed_tasks s `prefix_of` completed_tasks s'
        ∧ (length (completed_tasks s') ≤ length (completed_tasks s) + length script)%nat
        ∧ (works_on_a_subtask s → works_on_a_subtask s')
    | Failed s' e calls =>
        completed_tasks s `prefix_of` completed_tasks s'
        ∧ (length (completed_tasks s') ≤ length (completed_tasks s) + length script)%nat
        ∧ (works_on_a_subtask s →
           works_on_a_subtask s' ∧ should_send_action s' = false
           ∧ (∃ r, r ∈ script ∧ executor_reply r = Raise e)
           ∧ ∃ calls0 cur,
               current_subtask s' = Some cur
               ∧ calls = calls0 ++ [CallExecutor cur (subtasks s') (completed_tasks s')])
    end.
Proof.
  induction script as [|r script IH]; intros s l c0; simpl;
    destruct (should_send_action s) eqn:Hs;
    try (split; [reflexivity|]; split; [lia|]; auto; fail).
  destruct (loop_body_keeps r s l) as (Hp & Hl & Hw).
  destruct (loop_body r s l) as [sb lb cb|sn ln cn|sr e cr] eqn:Hbody;
    cbn [state_after] in Hp, Hl, Hw.
  - split; [exact Hp|]. split; [lia|]. intros H. apply (Hw H).
  - specialize (IH sn ln (c0 ++ cn)).
    destruct (predict_loop script sn ln (c0 ++ cn)) as [s' l' c'|s' l' c'|s' e c'];
      destruct IH as (Hp' & Hl' & Hw');
      (split; [etransitivity; eassumption|]); (split; [lia|]); intros Hworks;
      destruct (Hw Hworks) as [Hwn _]; specialize (Hw' Hwn); auto.
    destruct Hw' as (Hw1 & Hs1 & (r' & Hin & Hr') & Hat).
    split; [exact Hw1|]. split; [exact Hs1|]. split; [|exact Hat].
    exists r'. split; [|exact Hr'].
    apply elem_of_cons. right. exact Hin.
  - split; [exact Hp|]. split; [lia|]. intros Hworks.
    destruct (Hw Hworks) as [Hwr Hraised].
    destruct (Hraised sr e cr eq_refl) as (Hexec & Hsend & calls0 & cur & Hcur & ->).
    split; [exact Hwr|]. split; [congruence|]. split.
    + exists r. split; [apply elem_of_cons; left; reflexivity | exact Hexec].
    + exists (c0 ++ calls0), cur. split; [exact Hcur|]. rewrite app_assoc. reflexivity.
Qed.

(** Between two calls the agent holds no action back, and it has a
    subtask to work on whenever it does not ask for the next one. *)
Lemma reachable_rests s :
  reachable s → should_send_action s = false ∧ works_on_a_subtask s.
Proof.
  induction 1 as [|s script s' info acts calls _ [_ IHw] Hret
                  |s script s' e calls _ [_ IHw] Hraise].
  - split; [reflexivity|]. unfold works_on_a_subtask. discriminate.
  - unfold predict in Hret.
    pose proof (predict_loop_keeps script s empty_locals []) as Hk.
    destruct (predict_loop script s empty_locals []) as [sx lx cx| |]; try discriminate.
    injection Hret as <- _ _ _. destruct Hk as (_ & _ & Hw).
    split; [reflexivity|]. exact (Hw IHw).
  - unfold predict in Hraise.
    pose proof (predict_loop_keeps script s empty_locals []) as Hk.
    destruct (predict_loop script s empty_locals []) as [| |sx ex cx]; try discriminate.
    injection Hraise as <- _ _. destruct Hk as (_ & _ & Hw).
    destruct (Hw IHw) as (Hw' & Hs' & _). split; assumption.
Qed.

(** X11.  A [predict] call never takes an entry out of the completed
    list, and never reorders it: the list before the call is a prefix of
    the list after it, whether the call returns, raises, or is still in
    its loop when the replies end; it grows by at most one entry for each
    iteration of the loop. *)
Theorem completed_tasks_only_grow (script : list Replies) (s : t) :
  match predict script s with
  | Returned s' _ _ _ | Awaiting s' _ | Raising s' _ _ =>
      completed_tasks s `prefix_of` completed_tasks s'
      ∧ (length (completed_tasks s')
         ≤ length (completed_tasks s) + length script)%nat
  end.
Proof.
  unfold predict.
  pose proof (predict_loop_keeps script s empty_locals []) as Hk.
  destruct (predict_loop script s empty_locals []) as [s' l' c'|s' l' c'|s' e c'];
    destruct Hk as (Hp & Hl & _); split; assumption.
Qed.

(** X12.  In a state the agent can be in between two calls (after
    [reset] and any calls of [predict], returned or raised), nothing is
    held back and a current subtask is set whenever [needs_next_subtask]
    is false.  So no iteration of [predict] fails on the read of
    [self.current_subtask.name]: a call that raises got as far as the
    call of the executor, on a subtask that is set, and raises what the
    executor raised there.  (The answers of the planner and of the
    verifier are values here: their calls are taken to return.)  The
    state such a call leaves satisfies the same two conditions. *)
Theorem current_subtask_is_set_when_the_executor_is_called
    (script : list Replies) (s s' : t) (e : exn) (calls : list Call) :
  reachable s →
  (should_send_action s = false ∧ works_on_a_subtask s)
  ∧ (predict script s = Raising s' e calls →
     (∃ calls0 cur,
        current_subtask s' = Some cur
        ∧ calls = calls0 ++ [CallExecutor cur (subtasks s') (completed_tasks s')])
     ∧ (∃ r, r ∈ script ∧ executor_reply r = Raise e)
     ∧ should_send_action s' = false
     ∧ works_on_a_subtask s').
Proof.
  intros Hreach. destruct (reachable_rests s Hreach) as [Hs Hw].
  split; [split; assumption|]. intros Hraise.
  unfold predict in Hraise.
  pose proof (predict_loop_keeps script s empty_locals []) as Hk.
  destruct (predict_loop script s empty_locals []) as [| |sx ex cx]; try discriminate.
  injection Hraise as <- <- <-. destruct Hk as (_ & _ & Hk).
  destruct (Hk Hw) as (Hw' & Hs' & Hr & Hat). auto.
Qed.

(** X13.  The last subtask is listed twice.  When the executor's action
    completes the subtask [cur] (a completion marker, no failure marker)
    and no subtask is queued behind it, the call returns that action with
    [cur] appended to the completed list; when the planner then answers
    the next call with an empty plan, that call returns [["DONE"]]
    without calling the executor and appends [cur] a second time. *)
Theorem finished_subtask_is_recorded_twice
    (r1 r2 : Replies) (script1 script2 : list Replies) (s : t) (cur : Node) :
  should_send_action s = false →
  completion_transition r1 s cur →
  queue_after_advance r1 s = [] →
  snd (planner_reply r2) = [] →
  ∃ s1 s2 calls2,
    state_of (predict (r1 :: script1) s) = Some s1
    ∧ (∀ einfo acts,
         executor_reply r1 = Return (einfo, acts) →
         actions_of (predict (r1 :: script1) s) = Some acts)
    ∧ completed_tasks s1 = completed_tasks s ++ [cur]
    ∧ state_of (predict (r2 :: script2) s1) = Some s2
    ∧ actions_of (predict (r2 :: script2) s1) = Some [AStr "DONE"]
    ∧ calls_of (predict (r2 :: script2) s1) = Some calls2
    ∧ executor_called calls2 = false
    ∧ completed_tasks s2 = completed_tasks s ++ [cur; cur].
Proof.
  intros Hs Hct Hq Hplan.
  destruct (completion_transition_outcome r1 s empty_locals cur Hct)
    as (sn & ln & cn & Hbody & Hd & _ & Hc & _ & Hrr & Hnn & Hsend & _ & Hacts1).
  rewrite Hq in Hsend. cbn in Hsend.
  set (s1 := set_should_send_action false sn).
  assert (Hp1 : predict (r1 :: script1) s = Returned s1 (merged_info s1 ln) (actions ln) ([] ++ cn)).
  { unfold predict. rewrite (predict_loop_step _ _ _ _ _ Hs), Hbody.
    rewrite (predict_loop_sent _ _ _ _ Hsend). reflexivity. }
  assert (Hadv : advance_on_empty_queue r2 s1 = true).
  { unfold advance_on_empty_queue, queue_at_advance. subst s1. cbn.
    rewrite Hnn, Hrr, Hplan. reflexivity. }
  destruct (loop_body_finishes r2 s1 empty_locals Hadv)
    as (sb & lb & cb & Hbody2 & Hacts & Hex & _ & _ & Hd2 & _).
  assert (Hp2 : predict (r2 :: script2) s1
                = Returned (set_should_send_action false sb)
                    (merged_info (set_should_send_action false sb) lb) (actions lb)
                    ([] ++ cb)).
  { unfold predict.
    rewrite (predict_loop_step r2 script2 s1 empty_locals [] eq_refl), Hbody2.
    reflexivity. }
  exists s1, (set_should_send_action false sb), ([] ++ cb).
  rewrite Hp1, Hp2. cbn [state_of actions_of calls_of].
  split; [reflexivity|].
  split; [intros einfo acts Hexec; rewrite (Hacts1 einfo acts Hexec); reflexivity|].
  split; [exact Hd|]. split; [reflexivity|].
  split; [rewrite Hacts; reflexivity|]. split; [reflexivity|]. split; [exact Hex|].
  cbn. rewrite Hd2. unfold complete_current. subst s1. cbn. rewrite Hc. cbn.
  rewrite Hd, <- app_assoc. reflexivity.
Qed.

(** X14.  A failed subtask is filed as completed when the planner gives
    up.  After a failure transition on the subtask [cur] (a failure
    marker in the action, or a failed verdict on an action without
    completion marker), an iteration for which the planner answers with
    an empty plan is handed [cur] as the failed subtask, does not call
    the executor, returns [["DONE"]], appends [cur] to the completed list
    and clears the failure pointer. *)
Theorem failed_subtask_is_filed_as_completed
    (r1 r2 : Replies) (script : list Replies) (s : t) (l : Locals) (cur : Node) :
  failure_transition r1 s cur →
  snd (planner_reply r2) = [] →
  let s1 := set_should_send_action false (state_after (loop_body r1 s l)) in
  ∃ s2 calls2,
    state_of (predict (r2 :: script) s1) = Some s2
    ∧ actions_of (predict (r2 :: script) s1) = Some [AStr "DONE"]
    ∧ calls_of (predict (r2 :: script) s1) = Some calls2
    ∧ calls2 = [CallPlanner (Some cur) (completed_tasks s) (queue_after_advance r1 s);
                ResetExecutor]
    ∧ completed_tasks s2 = completed_tasks s ++ [cur]
    ∧ failure_subtask s2 = None
    ∧ subtask_status s2 = "Done".
Proof.
  intros Hft Hplan s1.
  destruct (failure_transition_outcome r1 s l cur Hft)
    as (sn & ln & cn & Hbody & Hd & Hptr & Hc & Hq & Hrr & Hnn & _).
  subst s1. rewrite Hbody. cbn [state_after].
  unfold predict.
  rewrite (predict_loop_step r2 script (set_should_send_action false sn) empty_locals []
             eq_refl).
  unfold loop_body, replan, advance, finish, complete_current, ask_replan,
    reset_executor_state.
  cbn [requires_replan needs_next_subtask set_subtask_status set_should_send_action].
  rewrite Hrr. destruct (planner_reply r2) as [pinfo queue]. cbn in Hplan. subst queue.
  cbn. rewrite Hnn. cbn. rewrite Hc. cbn.
  eexists _, _. split; [reflexivity|]. split; [reflexivity|]. split; [reflexivity|].
  rewrite Hptr, Hd, Hq, ?Hc. cbn. rewrite ?Hc, ?Hd. cbn. auto.
Qed.

End OrchestratorMore.

Lemma current_subtask_is_set_when_the_executor_is_called_witness :
  let e := Py.Exn Py.UnboundLocalError "cannot access local variable 'reason'" in
  let r := {| AgentS.planner_reply := (∅, [Doubles.open_settings]);
              AgentS.executor_reply := Py.Raise e;
              AgentS.verifier_reply := EmptyString |} in
  let s' := AgentS.set_subtask_status "Start"
              (AgentS.set_needs_next_subtask false
                 (AgentS.set_requires_replan false
                    (AgentS.set_current_subtask (Some Doubles.open_settings)
                       AgentS.reset))) in
  let calls := [AgentS.CallPlanner None [] [];
                AgentS.CallExecutor Doubles.open_settings [] []] in
  AgentS.reachable AgentS.reset
  ∧ AgentS.predict [r] AgentS.reset = AgentS.Raising s' e calls
  ∧ (AgentS.should_send_action AgentS.reset = false
     ∧ AgentS.works_on_a_subtask AgentS.reset)
  ∧ (∃ calls0 cur,
       AgentS.current_subtask s' = Some cur
       ∧ calls = calls0 ++ [AgentS.CallExecutor cur (AgentS.subtasks s')
                              (AgentS.completed_tasks s')])
  ∧ (∃ r', r' ∈ [r] ∧ AgentS.executor_reply r' = Py.Raise e)
  ∧ AgentS.should_send_action s' = false
  ∧ AgentS.works_on_a_subtask s'.
Proof.
  intros e r s' calls.
  assert (H1 : AgentS.reachable AgentS.reset) by constructor.
  assert (H2 : AgentS.predict [r] AgentS.reset = AgentS.Raising s' e calls)
    by (vm_compute; reflexivity).
  split; [exact H1|]. split; [exact H2|].
  destruct (current_subtask_is_set_when_the_executor_is_called [r] AgentS.reset s' e calls H1)
    as [Hrests Hraised].
  split; [exact Hrests | exact (Hraised H2)].
Defined.

Lemma finished_subtask_is_recorded_twice_witness :
  let r1 := Doubles.replies [Doubles.open_settings] [Py.AStr "DONE"]
              "VERIFICATION_RESULT: PASS" in
  let r2 := Doubles.replies [] [] EmptyString in
  let s := AgentS.reset in
  AgentS.should_send_action s = false
  ∧ AgentS.completion_transition r1 s Doubles.open_settings
  ∧ AgentS.queue_after_advance r1 s = []
  ∧ snd (AgentS.planner_reply r2) = []
  ∧ ∃ s1 s2 calls2,
      AgentS.state_of (AgentS.predict [r1] s) = Some s1
      ∧ (∀ einfo acts,
           AgentS.executor_reply r1 = Py.Return (einfo, acts) →
           AgentS.actions_of (AgentS.predict [r1] s) = Some acts)
      ∧ AgentS.completed_tasks s1 = AgentS.completed_tasks s ++ [Doubles.open_settings]
      ∧ AgentS.state_of (AgentS.predict [r2] s1) = Some s2
      ∧ AgentS.actions_of (AgentS.predict [r2] s1) = Some [Py.AStr "DONE"]
      ∧ AgentS.calls_of (AgentS.predict [r2] s1) = Some calls2
      ∧ AgentS.executor_called calls2 = false
      ∧ AgentS.completed_tasks s2
        = AgentS.completed_tasks s ++ [Doubles.open_settings; Doubles.open_settings].
Proof.
  intros r1 r2 s.
  assert (H1 : AgentS.should_send_action s = false) by reflexivity.
  assert (H2 : AgentS.completion_transition r1 s Doubles.open_settings).
  { split; [reflexivity|]. eexists _, _. split; [reflexivity|]. split; reflexivity. }
  assert (H3 : AgentS.queue_after_advance r1 s = []) by reflexivity.
  assert (H4 : snd (AgentS.planner_reply r2) = []) by reflexivity.
  split; [exact H1|]. split; [exact H2|]. split; [exact H3|]. split; [exact H4|].
  exact (finished_subtask_is_recorded_twice r1 r2 [] [] s Doubles.open_settings
           H1 H2 H3 H4).
Defined.

Lemma failed_subtask_is_filed_as_completed_witness :
  let r1 := Doubles.replies [Doubles.open_settings]
              [Py.AStr "FAIL: Could not parse plan output"] "VERIFICATION_RESULT: PASS" in
  let r2 := Doubles.replies [] [] EmptyString in
  let s := AgentS.reset in
  let l := AgentS.empty_locals in
  let s1 := AgentS.set_should_send_action false
              (AgentS.state_after (AgentS.loop_body r1 s l)) in
  AgentS.failure_transition r1 s Doubles.open_settings
  ∧ snd (AgentS.planner_reply r2) = []
  ∧ ∃ s2 calls2,
      AgentS.state_of (AgentS.predict [r2] s1) = Some s2
      ∧ AgentS.actions_of (AgentS.predict [r2] s1) = Some [Py.AStr "DONE"]
      ∧ AgentS.calls_of (AgentS.predict [r2] s1) = Some calls2
      ∧ calls2 = [AgentS.CallPlanner (Some Doubles.open_settings)
                    (AgentS.completed_tasks s) (AgentS.queue_after_advance r1 s);
                  AgentS.ResetExecutor]
      ∧ AgentS.completed_tasks s2 = AgentS.completed_tasks s ++ [Doubles.open_settings]
      ∧ AgentS.failure_subtask s2 = None
      ∧ AgentS.subtask_status s2 = "Done".
Proof.
  intros r1 r2 s l s1.
  assert (H1 : AgentS.failure_transition r1 s Doubles.open_settings).
  { split; [reflexivity|]. eexists _, _. split; [reflexivity|]. left. reflexivity. }
  assert (H2 : snd (AgentS.planner_reply r2) = []) by reflexivity.
  split; [exact H1|]. split; [exact H2|].
  exact (failed_subtask_is_filed_as_completed r1 r2 [] s l Doubles.open_settings H1 H2).
Defined.

(** ** worker.py: what a turn of the executor asks of the environment,
    and what it hands back *)

Section ExecutorMore.
Import Py Grounding Worker.
Context {E : Type} `{AndroidEnv E} {Obj : Type} `{PyLib Obj}.

Lemma flush_messages_grounding (w : t E) :
  grounding_agent (flush_messages w) = grounding_agent w.
Proof. reflexivity. Qed.

(** The execution step asks the environment to execute the action
    built from the object read in the action text, then the Enter key
    when that object's [action_type] is [input_text] and the action was
    accepted; it asks nothing else. *)
Lemma execute_parsed_calls (g : ACI E) reason action :
  ∃ acts,
    env_calls (fst (execute_parsed g reason action))
    = env_calls g ++ (ExecuteAction <$> acts)
    ∧ notes (fst (execute_parsed g reason action)) = notes g
    ∧ ((acts = []
        ∧ ∀ o a,
            opt_truthy reason && opt_truthy action = true →
            extract_json (default EmptyString action) = Return (Some o) →
            truthy o = true →
            make_json_action o = Return a → False)
       ∨ ∃ o a,
           opt_truthy reason && opt_truthy action = true
           ∧ extract_json (default EmptyString action) = Return (Some o)
           ∧ truthy o = true
           ∧ make_json_action o = Return a
           ∧ ((acts = [a]
               ∧ ¬ (get_action_type o = Return (Some "input_text")
                    ∧ snd (execute_action (env g) a) = Return tt))
              ∨ (acts = [a; {| action_type := KEYBOARD_ENTER;
                               index := None; action_text := None |}]
                 ∧ get_action_type o = Return (Some "input_text")
                 ∧ snd (execute_action (env g) a) = Return tt))).
Proof.
  unfold execute_parsed.
  destruct (opt_truthy reason && opt_truthy action);
    [|exists []; rewrite app_nil_r; do 2 (split; [reflexivity|]); left;
      split; [reflexivity|]; intros; discriminate].
  destruct (extract_json (default EmptyString action)) as [[o|]|e];
    try (exists []; rewrite app_nil_r; do 2 (split; [reflexivity|]); left;
         split; [reflexivity|]; intros; discriminate).
  destruct (truthy o) eqn:Htruthy;
    [|exists []; rewrite app_nil_r; do 2 (split; [reflexivity|]); left;
      split; [reflexivity|]; intros o' a' _ [= <-]; congruence].
  destruct (make_json_action o) as [a|e] eqn:Hmake;
    [|exists []; rewrite app_nil_r; do 2 (split; [reflexivity|]); left;
      split; [reflexivity|]; intros o' a' _ [= <-]; congruence].
  unfold call_execute_action.
  destruct (execute_action (env g) a) as [e1 [[]|ex]] eqn:Hexec; cbn.
  - destruct (get_action_type o) as [ty|ex] eqn:Hty; cbn.
    + destruct (bool_decide (ty = Some "input_text")) eqn:Hin; cbn.
      * apply bool_decide_eq_true in Hin. subst ty.
        destruct (execute_action e1 _) as [e2 r2]; cbn.
        exists [a; {| action_type := KEYBOARD_ENTER; index := None; action_text := None |}].
        cbn. rewrite <- app_assoc. split; [reflexivity|]. split; [reflexivity|].
        right. exists o, a. rewrite ?Hexec. auto 10.
      * apply bool_decide_eq_false in Hin.
        exists [a]. split; [reflexivity|]. split; [reflexivity|].
        right. exists o, a. do 4 (split; [solve [auto]|]). left.
        split; [reflexivity|]. intros [Hg _]. rewrite Hty in Hg.
        injection Hg as ->. apply Hin. reflexivity.
    + exists [a]. split; [reflexivity|]. split; [reflexivity|].
      right. exists o, a. do 4 (split; [solve [auto]|]). left.
      split; [reflexivity|]. intros [Hg _]. rewrite Hty in Hg. discriminate Hg.
  - exists [a]. split; [reflexivity|]. split; [reflexivity|].
    right. exists o, a. do 4 (split; [solve [auto]|]). left.
    split; [reflexivity|]. intros [_ Hx]. rewrite Hexec in Hx. discriminate Hx.
Qed.

(** X15.  One call of [generate_next_action], in any worker state and
    whatever the oracle replies, never reads the state of the
    environment, leaves the notes of the grounding agent as they are and
    asks the environment to execute at most two actions.  It asks for
    none exactly when the call fails on the missing last plan, or the
    parse of the reply raises, or the parse does not give a reason and an
    action text from which a truthy object is read and converted into an
    action.  Otherwise it asks for the action converted from the object
    read in the action text of the reply, and after it for the Enter key
    exactly when that object's [action_type] is [input_text] and the
    environment accepted the action. *)
Theorem executor_turn_acts_at_most_twice (w : t E) (k : Turn) :
  ∃ acts,
    env_calls (grounding_agent (fst (generate_next_action w k)))
    = env_calls (grounding_agent w) ++ (ExecuteAction <$> acts)
    ∧ notes (grounding_agent (fst (generate_next_action w k))) = notes (grounding_agent w)
    ∧ ((acts = []
        ∧ ∀ reason action o a,
            last_plan_missing w = false →
            parse_reason_action_output (plan_reply k) = Return (reason, action) →
            opt_truthy reason && opt_truthy action = true →
            extract_json (default EmptyString action) = Return (Some o) →
            truthy o = true →
            make_json_action o = Return a → False)
       ∨ ∃ reason action o a,
           last_plan_missing w = false
           ∧ parse_reason_action_output (plan_reply k) = Return (reason, action)
           ∧ opt_truthy reason && opt_truthy action = true
           ∧ extract_json (default EmptyString action) = Return (Some o)
           ∧ truthy o = true
           ∧ make_json_action o = Return a
           ∧ ((acts = [a]
               ∧ ¬ (get_action_type o = Return (Some "input_text")
                    ∧ snd (execute_action (env (grounding_agent w)) a) = Return tt))
              ∨ (acts = [a; {| action_type := KEYBOARD_ENTER;
                               index := None; action_text := None |}]
                 ∧ get_action_type o = Return (Some "input_text")
                 ∧ snd (execute_action (env (grounding_agent w)) a) = Return tt))).
Proof.
  unfold generate_next_action.
  destruct (last_plan_missing w).
  { exists []. cbn. rewrite app_nil_r. do 2 (split; [reflexivity|]). left.
    split; [reflexivity|]. intros; discriminate. }
  destruct (reflect w k) as [refl reflection].
  destruct (parse_reason_action_output (plan_reply k)) as [[reason action]|e].
  - destruct (execute_parsed_calls (grounding_agent w) reason action)
      as (acts & Hcalls & Hnotes & Hshape).
    destruct (execute_parsed (grounding_agent w) reason action) as [g code].
    cbn in Hcalls, Hnotes. cbn. exists acts. split; [exact Hcalls|].
    split; [exact Hnotes|].
    destruct Hshape as [[-> Hnone]|(o & a & Hboth & Hjson & Htruthy & Hmake & Hacts)].
    + left. split; [reflexivity|].
      intros reason' action' o a _ [= <- <-]. apply Hnone.
    + right. exists reason, action, o, a. auto 10.
  - exists []. cbn. rewrite app_nil_r. do 2 (split; [reflexivity|]). left.
    split; [reflexivity|]. intros; discriminate.
Qed.

(** X16.  An execution error does not reach the action list.  In a state
    the worker can be in, when the reply parses into a reason and an
    action text from which a truthy object is read, the call returns the
    rendering of that object as its single action, whatever
    became of the execution: the failure string the [except] branch
    builds when the conversion or the environment raises is dropped. *)
Theorem parsed_action_is_returned_whatever_execution_did
    (w0 w : t E) (k : Turn) (reason action : option string) (o : Obj) :
  reachable w0 w →
  parse_reason_action_output (plan_reply k) = Return (reason, action) →
  opt_truthy reason && opt_truthy action = true →
  extract_json (default EmptyString action) = Return (Some o) →
  truthy o = true →
  ∃ info,
    snd (generate_next_action w k) = Return (info, [AObj (str o)])
    ∧ info !! "executor_plan" = Some (VStr (plan_reply k))
    ∧ info !! "current_subtask" = Some (VStr (subtask k)).
Proof.
  intros Hreach Hparse Hboth Hjson Htruthy.
  pose proof (proj2 (reachable_within_window w0 w Hreach)) as Hcount.
  unfold generate_next_action.
  rewrite (counts_plans_has_last_plan w Hcount), Hparse.
  destruct (reflect w k) as [refl reflection].
  destruct (execute_parsed (grounding_agent w) reason action) as [g code].
  unfold returned_actions. rewrite Hboth, Hjson, Htruthy. cbn.
  eexists. split; [reflexivity|]. split.
  - rewrite lookup_insert_ne by discriminate.
    rewrite lookup_insert_ne by discriminate.
    apply lookup_insert_eq.
  - apply lookup_insert_eq.
Qed.

(** X17.  An index that [find_element_by_description] returns is the
    value of the first integer in the oracle's reply, is not negative,
    and is the index of an element of the observation. *)
Theorem found_index_is_on_screen
    (digit_limit : option nat) (o : Observation) (response : string) (i : Z) :
  find_element_by_description digit_limit o response = Some i →
  0 ≤ i
  ∧ (∃ e, ui_elements o !! Z.to_nat i = Some e)
  ∧ (∃ t, PyStr.first_integer_text response = Some t ∧ i = PyStr.int_of_text t).
Proof.
  unfold find_element_by_description. intros Hfound.
  destruct (ui_elements o) as [|e0 l] eqn:Hl; [discriminate|].
  destruct (PyStr.first_integer_text response) as [t|]; [|discriminate].
  destruct (match digit_limit with
            | Some n => (n <? String.length t)%nat
            | None => false
            end); [discriminate|].
  cbv zeta in Hfound.
  destruct (PyStr.int_of_text t =? -1); [discriminate|].
  destruct ((0 <=? PyStr.int_of_text t)
            && (PyStr.int_of_text t <? Z.of_nat (length (e0 :: l)))) eqn:Hrange;
    [|discriminate].
  injection Hfound as <-.
  apply andb_prop in Hrange as [Hlo Hhi].
  apply Z.leb_le in Hlo. apply Z.ltb_lt in Hhi.
  split; [exact Hlo|]. split.
  - apply lookup_lt_is_Some_2. lia.
  - exists t; auto.
Qed.

End ExecutorMore.

Example typing_is_followed_by_enter :
  Grounding.env_calls (Worker.grounding_agent
               (fst (Worker.generate_next_action (Obj := Doubles.TypedText)
                       Doubles.fresh_worker (Doubles.turn_with Doubles.typing_plan))))
  = [Grounding.ExecuteAction Doubles.typed_text_action;
     Grounding.ExecuteAction
       {| Grounding.action_type := Worker.KEYBOARD_ENTER;
          Grounding.index := None; Grounding.action_text := None |}].
Proof. vm_compute. reflexivity. Qed.

Example refused_typing_is_not_followed_by_enter :
  Grounding.env_calls (Worker.grounding_agent
               (fst (Worker.generate_next_action (Obj := Doubles.TypedText)
                       Doubles.locked_worker (Doubles.turn_with Doubles.typing_plan))))
  = [Grounding.ExecuteAction Doubles.typed_text_action].
Proof. vm_compute. reflexivity. Qed.

Lemma parsed_action_is_returned_whatever_execution_did_witness :
  let w := Doubles.locked_worker in
  let k := Doubles.turn_with Doubles.typing_plan in
  let reason := Some "the search box is open." in
  let action := Some "{'action_type': 'input_text', 'text': 'wifi', 'index': 1}" in
  Worker.reachable (Obj := Doubles.TypedText) Doubles.raw_locked_worker w
  ∧ Worker.parse_reason_action_output (Obj := Doubles.TypedText) (Worker.plan_reply k)
    = Py.Return (reason, action)
  ∧ Worker.opt_truthy reason && Worker.opt_truthy action = true
  ∧ Worker.extract_json (default EmptyString action) = Py.Return (Some Doubles.typed_text)
  ∧ Worker.truthy Doubles.typed_text = true
  ∧ snd (Worker.execute_parsed (Obj := Doubles.TypedText) (Worker.grounding_agent w)
           reason action)
    = "FAIL: Error executing action - device is locked"
  ∧ ∃ info,
      snd (Worker.generate_next_action w k)
      = Py.Return (info, [Py.AObj (Worker.str Doubles.typed_text)])
      ∧ info !! "executor_plan" = Some (Py.VStr (Worker.plan_reply k))
      ∧ info !! "current_subtask" = Some (Py.VStr (Worker.subtask k)).
Proof.
  intros w k reason action.
  assert (H1 : Worker.reachable (Obj := Doubles.TypedText) Doubles.raw_locked_worker w)
    by constructor.
  assert (H2 : Worker.parse_reason_action_output (Obj := Doubles.TypedText)
                 (Worker.plan_reply k) = Py.Return (reason, action))
    by (vm_compute; reflexivity).
  assert (H3 : Worker.opt_truthy reason && Worker.opt_truthy action = true)
    by reflexivity.
  assert (H4 : Worker.extract_json (default EmptyString action)
               = Py.Return (Some Doubles.typed_text)) by (vm_compute; reflexivity).
  assert (H5 : Worker.truthy Doubles.typed_text = true) by reflexivity.
  split; [exact H1|]. split; [exact H2|]. split; [exact H3|]. split; [exact H4|].
  split; [exact H5|]. split; [vm_compute; reflexivity|].
  exact (parsed_action_is_returned_whatever_execution_did Doubles.raw_locked_worker w k
           reason action Doubles.typed_text H1 H2 H3 H4 H5).
Defined.

Lemma found_index_is_on_screen_witness :
  let o := Doubles.blank_observation in
  Worker.find_element_by_description (Some 4300%nat) o "The best match is element 2."
  = Some 2
  ∧ 0 ≤ 2
  ∧ (∃ e, Worker.ui_elements o !! Z.to_nat 2 = Some e)
  ∧ (∃ t, PyStr.first_integer_text "The best match is element 2." = Some t
          ∧ 2 = PyStr.int_of_text t).
Proof.
  intros o.
  assert (H1 : Worker.find_element_by_description (Some 4300%nat) o
                 "The best match is element 2." = Some 2) by (vm_compute; reflexivity).
  split; [exact H1|].
  exact (found_index_is_on_screen (Some 4300%nat) o "The best match is element 2." 2 H1).
Defined.

Example minus_one_finds_nothing :
  Worker.find_element_by_description None Doubles.blank_observation "-1" = None
  ∧ Worker.find_element_by_description None Doubles.blank_observation "Element 7" = None
  ∧ Worker.find_element_by_description None Doubles.blank_observation "none of them" = None.
Proof. repeat split; vm_compute; reflexivity. Qed.

(** ** worker.py: the text handed to the reflection oracle *)

Section ReflectionText.
Import Worker.

Lemma prefix_take sub :
  ∀ n s, String.prefix sub (PyStr.take n s) = true → String.prefix sub s = true.
Proof.
  induction sub as [|a sub IH]; intros n s; [destruct s; reflexivity|].
  destruct n as [|n], s as [|c s]; cbn; try discriminate.
  destruct (Ascii.ascii_dec a c); [apply IH|discriminate].
Qed.

Lemma contains_take sub :
  ∀ s n, PyStr.contains sub (PyStr.take n s) = true → PyStr.contains sub s = true.
Proof.
  induction s as [|c s IH]; intros n Hc.
  - destruct n; exact Hc.
  - destruct n as [|n].
    + apply contains_prefix, (prefix_take sub 0).
      cbn in Hc |- *. rewrite orb_false_r in Hc. exact Hc.
    + cbn [PyStr.take PyStr.contains] in Hc |- *.
      apply orb_true_iff in Hc as [Hp|Hl]; apply orb_true_iff.
      * left. apply (prefix_take sub (S n)). exact Hp.
      * right. exact (IH n Hl).
Qed.

(** Where [find] finds a non-empty text: nowhere, and then the text does
    not occur; or at an index within the string, before which it does
    not occur. *)
Lemma find_from_spec sub :
  sub ≠ EmptyString →
  ∀ s i,
    (PyStr.find_from sub s i = -1 ∧ PyStr.contains sub s = false)
    ∨ ∃ n, PyStr.find_from sub s i = i + Z.of_nat n
           ∧ (n ≤ String.length s)%nat
           ∧ PyStr.contains sub (PyStr.take n s) = false.
Proof.
  intros Hsub.
  assert (Hempty : String.prefix sub EmptyString = false)
    by (destruct sub; [destruct Hsub|]; reflexivity).
  induction s as [|c s IH]; intros i.
  - left. cbn [PyStr.find_from PyStr.contains]. rewrite Hempty. auto.
  - cbn [PyStr.find_from PyStr.contains].
    destruct (String.prefix sub (String c s)) eqn:Hp.
    + right. exists 0%nat. cbn [PyStr.take PyStr.contains String.length].
      rewrite Hempty. repeat split; lia.
    + destruct (IH (i + 1)) as [[Hf Hc]|(n & Hf & Hn & Hc)].
      * left. rewrite Hf, Hc. auto.
      * right. exists (S n). rewrite Hf. split; [lia|]. split; [cbn; lia|].
        cbn [PyStr.take PyStr.contains]. rewrite Hc, orb_false_r.
        destruct (String.prefix sub (String c (PyStr.take n s))) eqn:Hq; [|reflexivity].
        apply (prefix_take sub (S n) (String c s)) in Hq. congruence.
Qed.

Lemma contains_slice_to_find sub s :
  sub ≠ EmptyString →
  PyStr.contains sub (PyStr.slice_to (PyStr.find sub s) s) = false.
Proof.
  intros Hsub. unfold PyStr.slice_to, PyStr.find.
  destruct (find_from_spec sub Hsub s 0) as [[Hf Hc]|(n & Hf & Hn & Hc)].
  - destruct (PyStr.contains sub (PyStr.take (PyStr.slice_bound (PyStr.find_from sub s 0) s) s))
      eqn:Hq; [|reflexivity].
    apply contains_take in Hq. congruence.
  - rewrite Hf. unfold PyStr.slice_bound.
    destruct (0 + Z.of_nat n <? 0) eqn:Hneg; [apply Z.ltb_lt in Hneg; lia|].
    replace (Z.to_nat (Z.min (0 + Z.of_nat n) (Z.of_nat (String.length s)))) with n by lia.
    exact Hc.
Qed.

Lemma length_drop n : ∀ s, String.length (PyStr.drop n s) = (String.length s - n)%nat.
Proof.
  induction n as [|n IH]; intros [|c s]; cbn; auto.
Qed.

(** With [-1] for a start, the slice is the last character at most; cut
    at the place of a text of two characters or more, nothing is left
    of it. *)
Lemma slice_from_minus_one_cut sub s :
  (2 ≤ String.length sub)%nat →
  let res := PyStr.slice_from (-1) s in
  PyStr.slice_to (PyStr.find sub res) res = EmptyString.
Proof.
  intros Hsub res.
  assert (Hlen : (String.length res ≤ 1)%nat).
  { unfold res, PyStr.slice_from, PyStr.slice_bound. rewrite length_drop.
    cbn [Z.ltb Z.compare]. lia. }
  clearbody res.
  destruct sub as [|a [|b sub]]; cbn in Hsub; try lia.
  destruct res as [|c [|d res]]; cbn in Hlen; try lia.
  - reflexivity.
  - unfold PyStr.find, PyStr.slice_to, PyStr.slice_bound. cbn.
    destruct (Ascii.ascii_dec a c); reflexivity.
Qed.

(** X18.  The text [clean_worker_generation_for_reflection] builds ends
    with the grounded-action block, filled with the first brace group
    that follows an [Action:] in the generation, or with [{}]; what
    comes before the block holds no [(Grounded Action)] mark, so the
    mark of the block is the only one; and when the generation has no
    [(UI Analysis)] mark, nothing of it comes before the block. *)
Theorem reflection_text_ends_with_the_only_grounded_action (worker_generation : string) :
  ∃ body,
    clean_worker_generation_for_reflection worker_generation
    = body +:+ grounded_action_block
                 (default "{}" (action_brace_group worker_generation))
    ∧ PyStr.contains "(Grounded Action)" body = false
    ∧ (PyStr.find "(UI Analysis)" worker_generation = -1 → body = EmptyString).
Proof.
  unfold clean_worker_generation_for_reflection.
  eexists. split; [reflexivity|]. split.
  - apply contains_slice_to_find. discriminate.
  - intros ->. apply slice_from_minus_one_cut. cbn. lia.
Qed.

End ReflectionText.

Example reflection_text_of_a_plan :
  Worker.clean_worker_generation_for_reflection
    ("(Previous action verification) ok. (UI Analysis) The launcher is shown. "
       +:+ "(Grounded Action) Reason: open it. Action: {'action_type': 'wait'}")
  = "(UI Analysis) The launcher is shown. "
      +:+ Worker.grounded_action_block "{'action_type': 'wait'}".
Proof. vm_compute. reflexivity. Qed.

Example reflection_text_loses_its_last_character :
  Worker.clean_worker_generation_for_reflection "(UI Analysis) The launcher is shown."
  = "(UI Analysis) The launcher is shown" +:+ Worker.grounded_action_block "{}".
Proof. vm_compute. reflexivity. Qed.

(** ** grounding.py: the notes and the navigation operations *)

Section Notes.
Import Py Grounding.
Context {E : Type} `{AndroidEnv E}.

Lemma by_index_notes (a : ACI E) idx act ok err :
  notes (fst (by_index a idx act ok err)) = notes a.
Proof.
  unfold by_index, call_get_state, call_execute_action.
  destruct (get_state (env a)) as [e [l|ex]]; cbn; [|reflexivity].
  destruct ((idx <? 0) || (idx >=? Z.of_nat (length l))); cbn; [reflexivity|].
  destruct (execute_action e act) as [e' [u|ex]]; reflexivity.
Qed.

Lemma by_description_notes (a : ACI E) description act ok err :
  notes (fst (by_description a description act ok err)) = notes a.
Proof.
  unfold by_description, call_get_state, call_execute_action.
  destruct (get_state (env a)) as [e [l|ex]]; cbn; [|reflexivity].
  destruct (_find_element_by_description description l) as [i|]; cbn; [|reflexivity].
  destruct (execute_action e (act i)) as [e' [u|ex]]; reflexivity.
Qed.

Lemma look_for_notes (a : ACI E) indicators found not_found err :
  notes (fst (look_for a indicators found not_found err)) = notes a.
Proof.
  unfold look_for, call_get_state.
  destruct (get_state (env a)) as [e [l|ex]]; cbn; [|reflexivity].
  destruct (first_indicated indicators l); reflexivity.
Qed.

Lemma navigate_outcome (a : ACI E) kind ok err :
  let act := {| action_type := kind; index := None; action_text := None |} in
  notes (fst (navigate a kind ok err)) = notes a
  ∧ env_calls (fst (navigate a kind ok err)) = env_calls a ++ [ExecuteAction act]
  ∧ snd (navigate a kind ok err)
    = match snd (execute_action (env a) act) with
      | Return _ => ok
      | Raise _ => err
      end.
Proof.
  unfold navigate, call_execute_action.
  destruct (execute_action (env a) _) as [e' [u|ex]]; cbn; auto.
Qed.

(** X19.  The notes of the grounding agent are written by
    [save_to_knowledge] only: it appends the texts given, in order, and
    asks nothing of the environment; every other operation of the agent
    leaves the notes as they are.  [navigate_home] and [navigate_back]
    execute one action, of their own kind and without index or text,
    without reading the state, and report success unless executing
    raised. *)
Theorem notes_are_written_by_save_to_knowledge_only
    (a : ACI E) (description txt duration : string) (idx : Z) (texts : list string) :
  (notes (fst (save_to_knowledge a texts)) = notes a ++ texts
   ∧ env_calls (fst (save_to_knowledge a texts)) = env_calls a
   ∧ env (fst (save_to_knowledge a texts)) = env a)
  ∧ Forall (λ a', notes a' = notes a)
      [fst (click a description); fst (type a description txt);
       fst (long_click a description duration);
       fst (click_by_index a idx); fst (long_click_by_index a idx);
       fst (type_by_index a idx txt);
       fst (navigate_home a); fst (navigate_back a);
       fst (is_app_drawer_open a); fst (is_quick_settings_open a)]
  ∧ (env_calls (fst (navigate_home a))
     = env_calls a ++ [ExecuteAction {| action_type := "navigate_home";
                                        index := None; action_text := None |}]
     ∧ env_calls (fst (navigate_back a))
       = env_calls a ++ [ExecuteAction {| action_type := "navigate_back";
                                          index := None; action_text := None |}])
  ∧ (snd (navigate_home a)
     = match snd (execute_action (env a)
                    {| action_type := "navigate_home";
                       index := None; action_text := None |}) with
       | Return _ => "SUCCESS: Navigated to home"
       | Raise _ => "FAIL: Error navigating home"
       end
     ∧ snd (navigate_back a)
       = match snd (execute_action (env a)
                      {| action_type := "navigate_back";
                         index := None; action_text := None |}) with
         | Return _ => "SUCCESS: Navigated back"
         | Raise _ => "FAIL: Error navigating back"
         end).
Proof.
  split; [repeat split|]. split.
  - repeat constructor;
      first [ apply by_description_notes | apply by_index_notes
            | apply look_for_notes | apply navigate_outcome ].
  - split; split; apply navigate_outcome.
Qed.

End Notes.

Lemma reflection_text_ends_with_the_only_grounded_action_witness :
  ∃ body,
    Worker.clean_worker_generation_for_reflection "Reason: wait. Action: {'action_type': 'wait'}"
    = body +:+ Worker.grounded_action_block
                 (default "{}" (Worker.action_brace_group
                                  "Reason: wait. Action: {'action_type': 'wait'}"))
    ∧ PyStr.contains "(Grounded Action)" body = false
    ∧ (PyStr.find "(UI Analysis)" "Reason: wait. Action: {'action_type': 'wait'}" = -1
       → body = EmptyString).
Proof.
  exact (reflection_text_ends_with_the_only_grounded_action
           "Reason: wait. Action: {'action_type': 'wait'}").
Defined.
